(** * Session orchestration and request classification of open-swe

    A shallow embedding of the manager graph's nodes ([classifyMessage],
    [startPlanner], [createNewSession], [initializeGithubIssue]) and of the
    GitHub [issues.labeled] webhook handler, together with the properties
    the specification states about them.

    The nodes are asynchronous TypeScript functions that talk to GitHub, to
    the LangGraph run service and to a chat model.  They are embedded in a
    small monad [M] that records every external call in a trace, lets the
    outside world answer (or throw) through an oracle, and propagates
    thrown errors; loggers are not modelled. *)

From Stdlib Require Import ZArith List Bool Lia Permutation.
From stdpp Require Import base strings gmap pretty.
Import ListNotations.

Local Open Scope string_scope.
Local Open Scope Z_scope.
Local Open Scope list_scope.

(** ** JavaScript values and truthiness *)

(** The values stored under the keys of [additional_kwargs]. *)
Inductive JsVal :=
| JNum (n : Z)
| JStr (s : string)
| JBool (b : bool).

(** [!!v] for a number. *)
Definition truthy_num (n : Z) : bool := negb (n =? 0).

(** [!!v] for a string. *)
Definition truthy_str (s : string) : bool := negb (String.eqb s "").

Definition truthy (v : JsVal) : bool :=
  match v with
  | JNum n => truthy_num n
  | JStr s => truthy_str s
  | JBool b => b
  end.

(** [!!x] where [x] may be [undefined]. *)
Definition truthy_opt {A} (t : A -> bool) (x : option A) : bool :=
  match x with
  | Some a => t a
  | None => false
  end.

(** ** Data model *)

(** Modelled from the spec: the [Task] type is declared in the shared
    package; no node under study looks inside a task. *)
Definition Task := string.

Record TaskPlan := {
  tasks : list Task;
  activeTaskIndex : Z
}.

Record TargetRepository := {
  owner : string;
  repo : string
}.

(** [plannerSession] and [programmerSession]: [{ threadId, runId }]. *)
Record Session := {
  threadId : string;
  runId : string
}.

Record ToolCallArgs := {
  route : string;
  response : string;
  internal_reasoning : string
}.

Record ToolCall := {
  tc_name : string;
  args : ToolCallArgs
}.

Record MessageFields := {
  id : option string;
  content : string;
  additional_kwargs : gmap string JsVal
}.

Inductive BaseMessage :=
| HumanMessage (f : MessageFields)
| AIMessage (f : MessageFields) (tool_calls : list ToolCall)
| RemoveMessage (rid : string)
| OtherMessage (type : string) (f : MessageFields).

Definition isHumanMessage (m : BaseMessage) : bool :=
  match m with
  | HumanMessage _ => true
  | _ => false
  end.

Definition fields (m : BaseMessage) : MessageFields :=
  match m with
  | HumanMessage f | AIMessage f _ | OtherMessage _ f => f
  | RemoveMessage rid =>
      {| id := Some rid; content := ""; additional_kwargs := ∅ |}
  end.

Definition tool_calls (m : BaseMessage) : list ToolCall :=
  match m with
  | AIMessage _ tcs => tcs
  | _ => []
  end.

(** [message.additional_kwargs?.githubIssueId] *)
Definition kwarg (key : string) (m : BaseMessage) : option JsVal :=
  additional_kwargs (fields m) !! key.

Record ManagerGraphState := {
  messages : list BaseMessage;
  githubIssueId : option Z;
  targetRepository : TargetRepository;
  taskPlan : option TaskPlan;
  plannerSession : option Session;
  programmerSession : option Session;
  autoAcceptPlan : option bool;
  branchName : option string
}.

(** The state as the first node of the graph receives it, with the keys
    that node reads.  The input of a run is not checked against the type of
    the state, and [initializeGithubIssue] tests [state.targetRepository]:
    here the key may be undefined. *)
Record ManagerGraphInput := {
  in_messages : list BaseMessage;
  in_githubIssueId : option Z;
  in_targetRepository : option TargetRepository;
  in_taskPlan : option TaskPlan
}.

(** A state, which has its target repository, as the first node receives
    it. *)
Definition received (state : ManagerGraphState) : ManagerGraphInput :=
  {| in_messages := messages state;
     in_githubIssueId := githubIssueId state;
     in_targetRepository := Some (targetRepository state);
     in_taskPlan := taskPlan state |}.

(** A state delta: every key is optional. *)
Record ManagerGraphUpdate := {
  u_messages : option (list BaseMessage);
  u_githubIssueId : option Z;
  u_targetRepository : option TargetRepository;
  u_taskPlan : option TaskPlan;
  u_plannerSession : option Session;
  u_programmerSession : option Session;
  u_autoAcceptPlan : option bool;
  u_branchName : option string
}.

(** [{}] *)
Definition emptyUpdate : ManagerGraphUpdate :=
  {| u_messages := None; u_githubIssueId := None;
     u_targetRepository := None; u_taskPlan := None;
     u_plannerSession := None; u_programmerSession := None;
     u_autoAcceptPlan := None; u_branchName := None |}.

Definition messagesUpdate (ms : list BaseMessage) : ManagerGraphUpdate :=
  {| u_messages := Some ms; u_githubIssueId := None;
     u_targetRepository := None; u_taskPlan := None;
     u_plannerSession := None; u_programmerSession := None;
     u_autoAcceptPlan := None; u_branchName := None |}.

(** The input of a planner run. [p_messages] is [[followupMessage]], whose
    only entry may be [undefined] in local mode. *)
Record PlannerGraphUpdate := {
  p_githubIssueId : option Z;
  p_targetRepository : TargetRepository;
  p_taskPlan : option TaskPlan;
  p_branchName : string;
  p_autoAcceptPlan : option bool;
  p_messages : option (list (option BaseMessage))
}.

Inductive Node := END | create_new_session | start_planner.

Record Command := {
  update : ManagerGraphUpdate;
  goto : Node
}.

(** Thread status as the run service reports it, and ["not_started"] for a
    thread that was never fetched. *)
Inductive ThreadStatus := not_started | idle | busy | interrupted | error.

Definition ThreadStatus_eqb (a b : ThreadStatus) : bool :=
  match a, b with
  | not_started, not_started | idle, idle | busy, busy
  | interrupted, interrupted | error, error => true
  | _, _ => false
  end.

Record ThreadValues := {
  v_programmerSession : option Session
}.

Record Thread := {
  status : ThreadStatus;
  values : option ThreadValues
}.

Record GraphConfig := {
  configurable : gmap string string
}.

Record IssuePlans := {
  ip_taskPlan : option TaskPlan;
  ip_proposedPlan : option (list string)
}.

(** The argument of [createClassificationPromptAndToolSchema]. *)
Record ClassificationInputs := {
  ci_programmerStatus : ThreadStatus;
  ci_plannerStatus : ThreadStatus;
  ci_messages : list BaseMessage;
  ci_taskPlan : option TaskPlan;
  ci_proposedPlan : option (list string);
  ci_requestSource : option JsVal
}.

Record Tool := {
  tool_name : string;
  tool_description : string;
  tool_schema : list string
}.

Record HumanResponse := {
  hr_type : string;
  hr_args : string
}.

(** The third argument of [runs.create]. *)
Inductive RunInput :=
| NoInput
| EmptyInput
| PlannerInput (i : PlannerGraphUpdate)
| ManagerInput (i : ManagerGraphUpdate).

Inductive RunCommand :=
| CommandResume (r : HumanResponse)
| CommandUpdate (u : ManagerGraphUpdate) (goto : Node).

Record RunPayload := {
  rp_input : RunInput;
  rp_command : option RunCommand;
  rp_recursion_limit : option Z;
  rp_configurable : option (gmap string string);
  rp_ifNotExists : option string;
  rp_streamResumable : bool
}.

Record Run := {
  run_id : string;
  run_status : string
}.

Record NewIssue := {
  number : Z;
  html_url : string
}.

Record IssueComment := {
  comment_id : Z
}.

Record Issue := {
  issue_title : string;
  issue_body : option string;
  issue_state : string
}.

Record Tokens := {
  githubAccessToken : string;
  githubInstallationToken : string
}.

(** ** Errors, external calls and the monad of the nodes *)

Inductive Error := Err (message : string).

Inductive Outcome (A : Type) :=
| Return (a : A)
| Throw (e : Error).
Arguments Return {A} a.
Arguments Throw {A} e.

(** Every request the nodes send out. *)
Inductive Event :=
| EvThreadsGet (headers : gmap string string) (thread : string)
| EvRunsCreate (headers : gmap string string) (thread graph : string)
    (payload : RunPayload)
| EvGetPlansFromIssue (issue : option Z)
| EvLoadModel
| EvInvoke (model : string) (tool : Tool) (parallel_tool_calls : option bool)
    (prompt userContent : string)
| EvCreateIssueFields (ms : list BaseMessage)
    (configurable : gmap string string)
| EvCreateIssue (owner repo title body token : string)
| EvCreateIssueComment (owner repo : string) (issueNumber : Z)
    (body token : string)
| EvGetIssue (owner repo : string) (issueNumber : Z) (token : string)
| EvRegenerateInstallationToken (installation : option string)
| EvGetInstallationOctokit (installation : Z)
| EvGetInstallationAccessToken (installation : Z)
| EvOctokitPostComment (octokit owner repo : string) (issue_number : Z)
    (body : string).

(** [calls] counts the external calls made so far, [uuids] the identifiers
    drawn so far. *)
Record Clock := {
  calls : nat;
  uuids : nat
}.

Definition M (A : Type) : Type := Clock -> Outcome A * list Event * Clock.

Definition ret {A} (a : A) : M A := fun c => (Return a, [], c).

Definition throw {A} (e : Error) : M A := fun c => (Throw e, [], c).

Definition bind {A B} (m : M A) (k : A -> M B) : M B :=
  fun c =>
    match m c with
    | (Return a, t1, c1) =>
        match k a c1 with
        | (r, t2, c2) => (r, t1 ++ t2, c2)
        end
    | (Throw e, t1, c1) => (Throw e, t1, c1)
    end.

(** [try { m } catch (e) { h e }] *)
Definition tryCatch {A} (m : M A) (h : Error -> M A) : M A :=
  fun c =>
    match m c with
    | (Return a, t1, c1) => (Return a, t1, c1)
    | (Throw e, t1, c1) =>
        match h e c1 with
        | (r, t2, c2) => (r, t1 ++ t2, c2)
        end
    end.

(** Send the request [ev]; the world answers as a function of the number of
    calls made before it. *)
Definition call {A} (ev : Event) (answer : nat -> Outcome A) : M A :=
  fun c =>
    (answer (calls c), [ev], {| calls := S (calls c); uuids := uuids c |}).

(** Start [m] and keep its promise: the outcome is inspected later. *)
Definition promise {A} (m : M A) : M (Outcome A) :=
  fun c => match m c with (r, t, c') => (Return r, t, c') end.

(** A value that may throw without any request being sent. *)
Definition lift {A} (o : Outcome A) : M A := fun c => (o, [], c).

Declare Scope m_scope.
Delimit Scope m_scope with M.
Notation "x <- m ;; k" := (bind m (fun x => k))
  (at level 100, m at next level, right associativity) : m_scope.
Notation "m ;;; k" := (bind m (fun _ => k))
  (at level 100, right associativity) : m_scope.

Fixpoint mapM {A B} (f : A -> M B) (l : list A) : M (list B) :=
  match l with
  | [] => ret []
  | a :: l' => (b <- f a ;; bs <- mapM f l' ;; ret (b :: bs))%M
  end.

Definition start : Clock := {| calls := 0; uuids := 0 |}.

(** ** Repository code and constants outside the files under study *)

(** Constants of the shared package and pure helpers of [utils/]; the nodes
    are verified for every value of them.  [Number_toString] is
    [Number.prototype.toString] of the platform, which writes a large number
    in exponent notation. *)
Record Lib := {
  GITHUB_PAT : string;
  GITHUB_INSTALLATION_ID : string;
  GITHUB_INSTALLATION_NAME : string;
  GITHUB_INSTALLATION_TOKEN_COOKIE : string;
  GITHUB_USER_ID_HEADER : string;
  GITHUB_USER_LOGIN_HEADER : string;
  LOCAL_MODE_HEADER : string;
  MANAGER_GRAPH_ID : string;
  PLANNER_GRAPH_ID : string;
  ISSUE_TITLE_OPEN_TAG : string;
  ISSUE_TITLE_CLOSE_TAG : string;
  ISSUE_CONTENT_OPEN_TAG : string;
  ISSUE_CONTENT_CLOSE_TAG : string;
  GITHUB_ISSUE_WEBHOOK : string;
  getOpenSWELabel : string;
  getOpenSWEAutoAcceptLabel : string;
  getOpenSWEMaxLabel : string;
  getOpenSWEMaxAutoAcceptLabel : string;
  isAllowedUser : string -> bool;
  getOpenSweAppUrl : string -> string;
  encryptSecret : string -> string -> string;
  JSON_stringify : list (string * string) -> string;
  isLocalMode : GraphConfig -> bool;
  getDefaultHeaders : GraphConfig -> gmap string string;
  getCustomConfigurableFields : GraphConfig -> gmap string string;
  getBranchName : GraphConfig -> string;
  getGitHubTokensFromConfig : GraphConfig -> Outcome Tokens;
  getMessageContentString : string -> string;
  extractContentWithoutDetailsFromIssueBody : string -> string;
  extractIssueTitleAndContentFromMessage : string -> option string * string;
  formatContentForIssueBody : string -> string;
  extractTasksFromIssueContent : string -> option TaskPlan;
  getMessageContentFromIssue : Issue -> string;
  createClassificationPromptAndToolSchema :
    ClassificationInputs -> string * list string;
  supportsParallelToolCallsParam : GraphConfig -> bool;
  getRecentUserRequest : list BaseMessage -> GraphConfig -> option BaseMessage;
  Number_toString : Z -> string
}.

(** ** The outside world *)

(** What GitHub, the run service, the chat model and the random generator
    answer.  The first argument of an answer is the number of requests sent
    before it, so that the same request may be answered differently when it
    is repeated.  [settle] is the order in which the promises of a
    [Promise.all] over comment creations are fulfilled. *)
Record World := {
  uuid : nat -> string;
  SECRETS_ENCRYPTION_KEY : option string;
  threads_get : nat -> gmap string string -> string -> Outcome Thread;
  runs_create :
    nat -> gmap string string -> string -> string -> RunPayload -> Outcome Run;
  getPlansFromIssue :
    nat -> ManagerGraphState -> GraphConfig -> Outcome (option IssuePlans);
  loadModel : nat -> GraphConfig -> Outcome string;
  invoke :
    nat -> string -> Tool -> option bool -> string -> string ->
    Outcome BaseMessage;
  createIssueFieldsFromMessages :
    nat -> list BaseMessage -> gmap string string -> Outcome (string * string);
  createIssue :
    nat -> string -> string -> string -> string -> string ->
    Outcome (option NewIssue);
  createIssueComment :
    nat -> string -> string -> Z -> string -> string ->
    Outcome (option IssueComment);
  getIssue : nat -> string -> string -> Z -> string -> Outcome (option Issue);
  regenerateInstallationToken : nat -> option string -> Outcome string;
  getInstallationOctokit : nat -> Z -> Outcome string;
  getInstallationAccessToken : nat -> Z -> Outcome string;
  octokit_request : nat -> string -> string -> string -> Z -> string ->
    Outcome unit;
  settle :
    list (BaseMessage * Outcome (option IssueComment)) ->
    list (BaseMessage * Outcome (option IssueComment))
}.

(** What [classifyMessage] has gathered when it asks the router model. *)
Record Context := {
  plannerThread : option Thread;
  programmerThread : option Thread;
  langGraphClient : option (gmap string string);
  issuePlans : option IssuePlans
}.

Section Nodes.

Variable lib : Lib.
Variable w : World.

Definition uuidv4 : M string :=
  fun c =>
    (Return (uuid w (uuids c)), [],
     {| calls := calls c; uuids := S (uuids c) |}).

(** [Array.prototype.findLast] *)
Definition findLast {A} (p : A -> bool) (l : list A) : option A :=
  List.find p (rev l).

(** [message.id ?? ""] *)
Definition idOrEmpty (message : BaseMessage) : string :=
  default "" (id (fields message)).

(** [new HumanMessage({ ...message, additional_kwargs: kw })] for a human
    [message]. *)
Definition copyWith (message : BaseMessage) (kw : gmap string JsVal)
  : BaseMessage :=
  HumanMessage {| id := id (fields message);
                  content := content (fields message);
                  additional_kwargs := kw |}.

(** ** [classifyMessage] *)

(** The status of the planner thread and, through its values, of the
    programmer thread; [langGraphClient] is represented by its headers. *)
Definition fetchThreads (state : ManagerGraphState) (config : GraphConfig)
  : M (option Thread * option Thread * option (gmap string string)) :=
  if negb (isLocalMode lib config) then
    let langGraphClient := getDefaultHeaders lib config in
    (plannerThread <-
       match plannerSession state with
       | Some s =>
           if truthy_str (threadId s) then
             (t <- call (EvThreadsGet langGraphClient (threadId s))
                     (fun n => threads_get w n langGraphClient (threadId s)) ;;
              ret (Some t))
           else ret None
       | None => ret None
       end ;;
     let plannerThreadValues := plannerThread ≫= values in
     programmerThread <-
       match plannerThreadValues ≫= v_programmerSession with
       | Some s =>
           if truthy_str (threadId s) then
             (t <- call (EvThreadsGet langGraphClient (threadId s))
                     (fun n => threads_get w n langGraphClient (threadId s)) ;;
              ret (Some t))
           else ret None
       | None => ret None
       end ;;
     ret (plannerThread, programmerThread, Some langGraphClient))%M
  else ret (None, None, None).

(** [thread?.status ?? "not_started"] *)
Definition statusOf (thread : option Thread) : ThreadStatus :=
  match thread with
  | Some t => status t
  | None => not_started
  end.

(** The plans of the issue, fetched only when [state.githubIssueId] is
    truthy. *)
Definition fetchIssuePlans (state : ManagerGraphState) (config : GraphConfig)
  : M (option IssuePlans) :=
  if truthy_opt truthy_num (githubIssueId state) then
    call (EvGetPlansFromIssue (githubIssueId state))
      (fun n => getPlansFromIssue w n state config)
  else ret None.

(** [issuePlans?.taskPlan ?? state.taskPlan] *)
Definition classificationTaskPlan (issuePlans : option IssuePlans)
    (state : ManagerGraphState) : option TaskPlan :=
  match issuePlans ≫= ip_taskPlan with
  | Some plan => Some plan
  | None => taskPlan state
  end.

Definition classificationInputs (state : ManagerGraphState)
    (userMessage : BaseMessage) (ctx : Context) : ClassificationInputs :=
  {| ci_programmerStatus := statusOf (programmerThread ctx);
     ci_plannerStatus := statusOf (plannerThread ctx);
     ci_messages := messages state;
     ci_taskPlan := classificationTaskPlan (issuePlans ctx) state;
     ci_proposedPlan := issuePlans ctx ≫= ip_proposedPlan;
     ci_requestSource := kwarg "requestSource" userMessage |}.

(** Thread statuses, then the plans of the issue. *)
Definition gatherContext (state : ManagerGraphState) (config : GraphConfig)
  : M Context :=
  (threads <- fetchThreads state config ;;
   issuePlans <- fetchIssuePlans state config ;;
   ret {| plannerThread := fst (fst threads);
          programmerThread := snd (fst threads);
          langGraphClient := snd threads;
          issuePlans := issuePlans |})%M.

Definition respondAndRouteTool (inputs : ClassificationInputs) : Tool :=
  {| tool_name := "respond_and_route";
     tool_description :=
       "Respond to the user's message and determine how to route it.";
     tool_schema := snd (createClassificationPromptAndToolSchema lib inputs) |}.

Definition routerPrompt (inputs : ClassificationInputs) : string :=
  fst (createClassificationPromptAndToolSchema lib inputs).

Definition parallel_tool_calls (config : GraphConfig) : option bool :=
  if supportsParallelToolCallsParam lib config then Some false else None.

Definition userContentOf (userMessage : BaseMessage) : string :=
  extractContentWithoutDetailsFromIssueBody lib
    (getMessageContentString lib (content (fields userMessage))).

(** The request sent to the router model. *)
Definition routerRequest (state : ManagerGraphState) (config : GraphConfig)
    (userMessage : BaseMessage) (ctx : Context) (model : string) : Event :=
  EvInvoke model
    (respondAndRouteTool (classificationInputs state userMessage ctx))
    (parallel_tool_calls config)
    (routerPrompt (classificationInputs state userMessage ctx))
    (userContentOf userMessage).

(** The single call to the router model, and the tool call it must carry. *)
Definition askRouter (state : ManagerGraphState) (config : GraphConfig)
    (userMessage : BaseMessage) (ctx : Context)
  : M (BaseMessage * ToolCallArgs) :=
  let inputs := classificationInputs state userMessage ctx in
  (model <- call EvLoadModel (fun n => loadModel w n config) ;;
   response <-
     call (routerRequest state config userMessage ctx model)
       (fun n => invoke w n model (respondAndRouteTool inputs)
                   (parallel_tool_calls config) (routerPrompt inputs)
                   (userContentOf userMessage)) ;;
   match head (tool_calls response) with
   | None => throw (Err "No tool call found.")
   | Some toolCall => ret (response, args toolCall)
   end)%M.

(** Creation of the issue when the state has none: returns the new issue
    number and the messages pushed after [response]. *)
Definition createIssueForRequest (state : ManagerGraphState)
    (config : GraphConfig) (userMessage : BaseMessage)
    (githubAccessToken : string) : M (Z * list BaseMessage) :=
  (fieldsOfIssue <-
     call (EvCreateIssueFields (messages state) (configurable config))
       (fun n => createIssueFieldsFromMessages w n (messages state)
                   (configurable config)) ;;
   let title := fst fieldsOfIssue in
   let body :=
     snd (extractIssueTitleAndContentFromMessage lib
            (getMessageContentString lib (content (fields userMessage)))) in
   newIssue <-
     call (EvCreateIssue (owner (targetRepository state))
             (repo (targetRepository state)) title
             (formatContentForIssueBody lib body) githubAccessToken)
       (fun n => createIssue w n (owner (targetRepository state))
                   (repo (targetRepository state)) title
                   (formatContentForIssueBody lib body) githubAccessToken) ;;
   match newIssue with
   | None => throw (Err "Failed to create issue.")
   | Some newIssue =>
       ret (number newIssue,
            [ RemoveMessage (idOrEmpty userMessage);
              copyWith userMessage
                (<["isOriginalIssue" := JBool true]>
                   (<["githubIssueId" := JNum (number newIssue)]> ∅)) ])
   end)%M.

(** The human messages without a truthy [githubIssueId] in their
    [additional_kwargs]. *)
Definition messagesNotInIssue (state : ManagerGraphState) : list BaseMessage :=
  List.filter
    (fun message => negb (truthy_opt truthy (kwarg "githubIssueId" message)))
    (List.filter isHumanMessage (messages state)).

(** The [additional_kwargs] of the copy that replaces a mirrored message. *)
Definition mirroredKwargs (githubIssueId commentId : Z) (route : string)
  : gmap string JsVal :=
  let kw :=
    <["githubIssueCommentId" := JNum commentId]>
      (<["githubIssueId" := JNum githubIssueId]> ∅) in
  if String.eqb route "start_planner_for_followup"
  then <["isFollowup" := JBool true]> kw
  else kw.

(** The request of the comment for one message. *)
Definition commentRequest (state : ManagerGraphState) (githubIssueId : Z)
    (githubAccessToken : string) (message : BaseMessage) : Event :=
  EvCreateIssueComment (owner (targetRepository state))
    (repo (targetRepository state)) githubIssueId
    (getMessageContentString lib (content (fields message)))
    githubAccessToken.

(** The first part of each callback of [messagesNotInIssue.map]: the
    comment request is sent, its promise is pending. *)
Definition sendComments (state : ManagerGraphState) (githubIssueId : Z)
    (githubAccessToken : string) (notInIssue : list BaseMessage)
  : M (list (Outcome (option IssueComment))) :=
  mapM (fun message =>
          promise
            (call (commentRequest state githubIssueId githubAccessToken message)
               (fun n => createIssueComment w n
                           (owner (targetRepository state))
                           (repo (targetRepository state)) githubIssueId
                           (getMessageContentString lib
                              (content (fields message)))
                           githubAccessToken)))
    notInIssue.

(** What the world answers to the comment requests when the first of them
    is call number [n]. *)
Fixpoint commentAnswers (state : ManagerGraphState) (githubIssueId : Z)
    (githubAccessToken : string) (n : nat) (notInIssue : list BaseMessage)
  : list (Outcome (option IssueComment)) :=
  match notInIssue with
  | [] => []
  | message :: rest =>
      createIssueComment w n (owner (targetRepository state))
        (repo (targetRepository state)) githubIssueId
        (getMessageContentString lib (content (fields message)))
        githubAccessToken
      :: commentAnswers state githubIssueId githubAccessToken (S n) rest
  end.

(** The rest of each callback, run as its promise settles, under
    [Promise.all]: the first failure rejects the whole. *)
Fixpoint joinComments (githubIssueId : Z) (route : string)
    (settled : list (BaseMessage * Outcome (option IssueComment)))
  : M (list BaseMessage) :=
  match settled with
  | [] => ret []
  | (_, Throw e) :: _ => throw e
  | (message, Return createdIssue) :: rest =>
      match createdIssue with
      | Some c =>
          if truthy_num (comment_id c) then
            (pushed <- joinComments githubIssueId route rest ;;
             ret (RemoveMessage (idOrEmpty message)
                  :: copyWith message
                       (mirroredKwargs githubIssueId (comment_id c) route)
                  :: pushed))%M
          else throw (Err "Failed to create issue comment")
      | None => throw (Err "Failed to create issue comment")
      end
  end.

(** The id of the comment a settled promise has created, if it has. *)
Definition createdId (o : Outcome (option IssueComment)) : option Z :=
  match o with
  | Return (Some c) =>
      if truthy_num (comment_id c) then Some (comment_id c) else None
  | _ => None
  end.

(** What the specification expects for one mirrored message: the removal of
    the untagged entry and the copy tagged with the comment id. *)
Definition replacement (githubIssueId : Z) (route : string)
    (settled : BaseMessage * Outcome (option IssueComment))
  : list BaseMessage :=
  match createdId (snd settled) with
  | Some commentId =>
      [ RemoveMessage (idOrEmpty (fst settled));
        copyWith (fst settled) (mirroredKwargs githubIssueId commentId route) ]
  | None => []
  end.

Definition pushedMessages (githubIssueId : Z) (route : string)
    (settled : list (BaseMessage * Outcome (option IssueComment)))
  : list BaseMessage :=
  flat_map (replacement githubIssueId route) settled.

Definition plannerResume : HumanResponse :=
  {| hr_type := "response"; hr_args := "resume planner" |}.

Definition resumePayload : RunPayload :=
  {| rp_input := NoInput;
     rp_command := Some (CommandResume plannerResume);
     rp_recursion_limit := None;
     rp_configurable := None;
     rp_ifNotExists := None;
     rp_streamResumable := false |}.

(** The resume of an interrupted planner: the id of the new run, if any. *)
Definition resumePlanner (state : ManagerGraphState)
    (plannerStatus : ThreadStatus)
    (langGraphClient : option (gmap string string)) : M (option string) :=
  if ThreadStatus_eqb plannerStatus interrupted then
    match plannerSession state with
    | Some s =>
        if truthy_str (threadId s) then
          match langGraphClient with
          | None => throw (Err "LangGraph client not initialized")
          | Some client =>
              (newPlannerRun <-
                 call (EvRunsCreate client (threadId s) (PLANNER_GRAPH_ID lib)
                         resumePayload)
                   (fun n => runs_create w n client (threadId s)
                               (PLANNER_GRAPH_ID lib) resumePayload) ;;
               ret (Some (run_id newPlannerRun)))%M
          end
        else throw (Err "No planner session found. Unable to resume planner.")
    | None => throw (Err "No planner session found. Unable to resume planner.")
    end
  else ret None.

(** The mirroring step: one comment per message of [messagesNotInIssue],
    all requests sent before any is awaited, and the messages pushed on
    [newMessages] as the promises settle. *)
Definition mirrorMessages (state : ManagerGraphState) (route : string)
    (githubIssueId : Z) (githubAccessToken : string) : M (list BaseMessage) :=
  (created <-
     sendComments state githubIssueId githubAccessToken
       (messagesNotInIssue state) ;;
   joinComments githubIssueId route
     (settle w (combine (messagesNotInIssue state) created)))%M.

(** [{ threadId: state.plannerSession.threadId, runId: newPlannerId }] when
    both are truthy. *)
Definition resumedSession (state : ManagerGraphState)
    (newPlannerId : option string) : option Session :=
  match newPlannerId, plannerSession state with
  | Some newPlannerId, Some s =>
      if truthy_str newPlannerId && truthy_str (threadId s)
      then Some {| threadId := threadId s; runId := newPlannerId |}
      else None
  | _, _ => None
  end.

(** The command returned after mirroring: the new messages, the resumed
    planner session if any, and [start-planner] for a followup. *)
Definition mirroredCommand (state : ManagerGraphState)
    (newMessages : list BaseMessage) (newPlannerId : option string)
    (route : string) : Command :=
  {| update :=
       {| u_messages := Some newMessages;
          u_githubIssueId := None;
          u_targetRepository := None;
          u_taskPlan := None;
          u_plannerSession := resumedSession state newPlannerId;
          u_programmerSession := None;
          u_autoAcceptPlan := None;
          u_branchName := None |};
     goto :=
       if String.eqb route "start_planner_for_followup"
       then start_planner else END |}.

(** The branch taken when the issue exists and the state has more than one
    human message. *)
Definition mirrorAndResume (state : ManagerGraphState) (ctx : Context)
    (response : BaseMessage) (route : string) (githubIssueId : Z)
    (githubAccessToken : string) : M Command :=
  (pushed <- mirrorMessages state route githubIssueId githubAccessToken ;;
   let newMessages := response :: pushed in
   newPlannerId <-
     resumePlanner state (statusOf (plannerThread ctx))
       (langGraphClient ctx) ;;
   ret (mirroredCommand state newMessages newPlannerId route))%M.

(** The end of the node, reached when no comment had to be mirrored. *)
Definition routeToNode (newMessages : list BaseMessage)
    (githubIssueId : option Z) (route : string) : M Command :=
  let commandUpdate :=
    {| u_messages := Some newMessages;
       u_githubIssueId :=
         if truthy_opt truthy_num githubIssueId then githubIssueId else None;
       u_targetRepository := None;
       u_taskPlan := None;
       u_plannerSession := None;
       u_programmerSession := None;
       u_autoAcceptPlan := None;
       u_branchName := None |} in
  if String.eqb route "update_programmer"
     || String.eqb route "update_planner"
     || String.eqb route "resume_and_update_planner"
  then ret {| update := commandUpdate; goto := END |}
  else if String.eqb route "start_planner"
          || String.eqb route "start_planner_for_followup"
  then ret {| update := commandUpdate; goto := start_planner |}
  else throw (Err ("Invalid route: " +:+ route)).

(** What the node does with the route once the model has answered. *)
Definition actOnRoute (state : ManagerGraphState) (config : GraphConfig)
    (userMessage : BaseMessage) (ctx : Context) (response : BaseMessage)
    (route : string) : M Command :=
  if String.eqb route "no_op" then
    ret {| update := messagesUpdate [response]; goto := END |}
  else if String.eqb route "create_new_issue" then
    ret {| update := messagesUpdate [response]; goto := create_new_session |}
  else if isLocalMode lib config then
    if String.eqb route "start_planner"
       || String.eqb route "start_planner_for_followup"
    then ret {| update := messagesUpdate [response]; goto := start_planner |}
    else throw (Err ("Unsupported route for local mode received: " +:+ route))
  else
    (tokens <- lift (getGitHubTokensFromConfig lib config) ;;
     let githubAccessToken := githubAccessToken tokens in
     if negb (truthy_opt truthy_num (githubIssueId state)) then
       (created <-
          createIssueForRequest state config userMessage githubAccessToken ;;
        routeToNode (response :: snd created) (Some (fst created)) route)
     else if (1 <? length (List.filter isHumanMessage (messages state)))%nat
     then
       mirrorAndResume state ctx response route
         (default 0 (githubIssueId state)) githubAccessToken
     else routeToNode [response] (githubIssueId state) route)%M.

(** The node once the latest human message is found. *)
Definition classifyFor (state : ManagerGraphState) (config : GraphConfig)
    (userMessage : BaseMessage) : M Command :=
  (ctx <- gatherContext state config ;;
   routed <- askRouter state config userMessage ctx ;;
   actOnRoute state config userMessage ctx (fst routed)
     (route (snd routed)))%M.

Definition classifyMessage (state : ManagerGraphState) (config : GraphConfig)
  : M Command :=
  match findLast isHumanMessage (messages state) with
  | None => throw (Err "No human message found.")
  | Some userMessage => classifyFor state config userMessage
  end.

(** ** [startPlanner] *)

(** [defaultHeaders] of a node that starts a run, and the regeneration of
    the installation token when it is neither local mode nor an evaluation
    with a personal access token. *)
Definition headersForRun (config : GraphConfig) : M (gmap string string) :=
  let localMode := isLocalMode lib config in
  let defaultHeaders : gmap string string :=
    if localMode then {[ LOCAL_MODE_HEADER lib := "true" ]}
    else getDefaultHeaders lib config in
  if negb localMode && negb (bool_decide (is_Some (defaultHeaders !! GITHUB_PAT lib)))
  then
    (token <-
       call (EvRegenerateInstallationToken
               (defaultHeaders !! GITHUB_INSTALLATION_ID lib))
         (fun n => regenerateInstallationToken w n
                     (defaultHeaders !! GITHUB_INSTALLATION_ID lib)) ;;
     ret (<[GITHUB_INSTALLATION_TOKEN_COOKIE lib := token]> defaultHeaders))%M
  else ret defaultHeaders.

Definition plannerRunInput (state : ManagerGraphState) (config : GraphConfig)
  : PlannerGraphUpdate :=
  let followupMessage := getRecentUserRequest lib (messages state) config in
  {| p_githubIssueId := githubIssueId state;
     p_targetRepository := targetRepository state;
     p_taskPlan := taskPlan state;
     p_branchName := default (getBranchName lib config) (branchName state);
     p_autoAcceptPlan := autoAcceptPlan state;
     p_messages :=
       if bool_decide (is_Some followupMessage) || isLocalMode lib config
       then Some [followupMessage] else None |}.

Definition plannerRunConfig (state : ManagerGraphState) (config : GraphConfig)
  : RunPayload :=
  {| rp_input := PlannerInput (plannerRunInput state config);
     rp_command := None;
     rp_recursion_limit := Some 400;
     rp_configurable :=
       Some (if isLocalMode lib config
             then <[LOCAL_MODE_HEADER lib := "true"]>
                    (getCustomConfigurableFields lib config)
             else getCustomConfigurableFields lib config);
     rp_ifNotExists := Some "create";
     rp_streamResumable := true |}.

Definition startPlanner (state : ManagerGraphState) (config : GraphConfig)
  : M ManagerGraphUpdate :=
  (plannerThreadId <-
     match plannerSession state with
     | Some s => ret (threadId s)
     | None => uuidv4
     end ;;
   defaultHeaders <- headersForRun config ;;
   tryCatch
     (let langGraphClient := defaultHeaders in
      run <-
        call (EvRunsCreate langGraphClient plannerThreadId
                (PLANNER_GRAPH_ID lib) (plannerRunConfig state config))
          (fun n => runs_create w n langGraphClient plannerThreadId
                      (PLANNER_GRAPH_ID lib) (plannerRunConfig state config)) ;;
      ret {| u_messages := None;
             u_githubIssueId := None;
             u_targetRepository := None;
             u_taskPlan := None;
             u_plannerSession :=
               Some {| threadId := plannerThreadId; runId := run_id run |};
             u_programmerSession := None;
             u_autoAcceptPlan := None;
             u_branchName := None |})
     (fun error => throw error))%M.

(** ** [createNewSession] *)

Definition LF : string := String (Ascii.ascii_of_nat 10) EmptyString.

Definition newSessionReply (newManagerThreadId : string) : string :=
  "Success! I just created a new session for your request. Thread ID: `"
  +:+ newManagerThreadId +:+ "`" +:+ LF +:+ LF
  +:+ "Click [here](/chat/" +:+ newManagerThreadId
  +:+ ") to view the thread.".

(** [inputMessages]: the request restated from the whole history, and the
    confirmation of the new session. *)
Definition inputMessages (title body : string) (newIssue : NewIssue)
    (humanId aiId : string) : list BaseMessage :=
  [ HumanMessage
      {| id := Some humanId;
         content :=
           ISSUE_TITLE_OPEN_TAG lib +:+ LF +:+ "  " +:+ title +:+ LF
           +:+ ISSUE_TITLE_CLOSE_TAG lib +:+ LF +:+ LF
           +:+ ISSUE_CONTENT_OPEN_TAG lib +:+ LF +:+ "  " +:+ body
           +:+ LF +:+ ISSUE_CONTENT_CLOSE_TAG lib;
         additional_kwargs :=
           <["isOriginalIssue" := JBool true]>
             (<["githubIssueId" := JNum (number newIssue)]> ∅) |};
    AIMessage
      {| id := Some aiId;
         content :=
           "I've successfully created a new GitHub issue for your request, and started a planning session for it!";
         additional_kwargs := ∅ |}
      [] ].

(** [commandUpdate]: the state of the new top-level thread. *)
Definition newSessionUpdate (state : ManagerGraphState) (config : GraphConfig)
    (title body : string) (newIssue : NewIssue) (humanId aiId : string)
  : ManagerGraphUpdate :=
  {| u_messages := Some (inputMessages title body newIssue humanId aiId);
     u_githubIssueId := Some (number newIssue);
     u_targetRepository := Some (targetRepository state);
     u_taskPlan := None;
     u_plannerSession := None;
     u_programmerSession := None;
     u_autoAcceptPlan := None;
     u_branchName :=
       Some (default (getBranchName lib config) (branchName state)) |}.

Definition newSessionRunConfig (config : GraphConfig)
    (commandUpdate : ManagerGraphUpdate) : RunPayload :=
  {| rp_input := EmptyInput;
     rp_command := Some (CommandUpdate commandUpdate start_planner);
     rp_recursion_limit := Some 400;
     rp_configurable := Some (getCustomConfigurableFields lib config);
     rp_ifNotExists := Some "create";
     rp_streamResumable := true |}.

(** [responseMessage] *)
Definition newSessionResponse (replyId newManagerThreadId : string)
  : BaseMessage :=
  AIMessage
    {| id := Some replyId;
       content := newSessionReply newManagerThreadId;
       additional_kwargs := ∅ |}
    [].

Definition createNewSession (state : ManagerGraphState) (config : GraphConfig)
  : M ManagerGraphUpdate :=
  (titleAndContent <-
     call (EvCreateIssueFields (messages state) (configurable config))
       (fun n => createIssueFieldsFromMessages w n (messages state)
                   (configurable config)) ;;
   let title := fst titleAndContent in
   let body := snd titleAndContent in
   tokens <- lift (getGitHubTokensFromConfig lib config) ;;
   newIssue <-
     call (EvCreateIssue (owner (targetRepository state))
             (repo (targetRepository state)) title
             (formatContentForIssueBody lib body) (githubAccessToken tokens))
       (fun n => createIssue w n (owner (targetRepository state))
                   (repo (targetRepository state)) title
                   (formatContentForIssueBody lib body)
                   (githubAccessToken tokens)) ;;
   match newIssue with
   | None => throw (Err "Failed to create new issue")
   | Some newIssue =>
       humanId <- uuidv4 ;;
       aiId <- uuidv4 ;;
       defaultHeaders <- headersForRun config ;;
       let langGraphClient := defaultHeaders in
       newManagerThreadId <- uuidv4 ;;
       let commandUpdate :=
         newSessionUpdate state config title body newIssue humanId aiId in
       let runConfig := newSessionRunConfig config commandUpdate in
       call (EvRunsCreate langGraphClient newManagerThreadId
               (MANAGER_GRAPH_ID lib) runConfig)
         (fun n => runs_create w n langGraphClient newManagerThreadId
                     (MANAGER_GRAPH_ID lib) runConfig) ;;;
       replyId <- uuidv4 ;;
       ret (messagesUpdate [newSessionResponse replyId newManagerThreadId])
   end)%M.

(** ** [initializeGithubIssue] *)

(** The plan of the issue body when it has one, [taskPlan] otherwise. *)
Definition planFromIssue (issue : Issue) (taskPlan : option TaskPlan)
  : option TaskPlan :=
  match issue_body issue with
  | Some body =>
      if truthy_str body then
        match extractTasksFromIssueContent lib body with
        | Some extractedTaskPlan => Some extractedTaskPlan
        | None => taskPlan
        end
      else taskPlan
  | None => taskPlan
  end.

Definition fetchIssue (targetRepository : TargetRepository) (issueNumber : Z)
    (githubInstallationToken : string) : M Issue :=
  (issue <-
     call (EvGetIssue (owner targetRepository) (repo targetRepository)
             issueNumber githubInstallationToken)
       (fun n => getIssue w n (owner targetRepository) (repo targetRepository)
                   issueNumber githubInstallationToken) ;;
   match issue with
   | None => throw (Err "Issue not found")
   | Some issue => ret issue
   end)%M.

Definition taskPlanUpdate (ms : option (list BaseMessage))
    (taskPlan : option TaskPlan) : ManagerGraphUpdate :=
  {| u_messages := ms;
     u_githubIssueId := None;
     u_targetRepository := None;
     u_taskPlan := taskPlan;
     u_plannerSession := None;
     u_programmerSession := None;
     u_autoAcceptPlan := None;
     u_branchName := None |}.

(** The [TypeError] of the platform for [state.targetRepository.owner]
    when the target repository is undefined. *)
Definition ownerOfUndefined : Error :=
  Err "Cannot read properties of undefined (reading 'owner')".

(** With a human message in the history the node reads
    [state.targetRepository.owner] without a test, which throws when the
    target repository is undefined; without one it tests the issue id, then
    the target repository, before the issue is fetched. *)
Definition initializeGithubIssue (state : ManagerGraphInput)
    (config : GraphConfig) : M ManagerGraphUpdate :=
  if isLocalMode lib config then ret emptyUpdate
  else
    (tokens <- lift (getGitHubTokensFromConfig lib config) ;;
     let githubInstallationToken := githubInstallationToken tokens in
     if (0 <? length (in_messages state))%nat
        && existsb isHumanMessage (in_messages state)
     then
       match in_githubIssueId state with
       | Some issueNumber =>
           if truthy_num issueNumber then
             match in_targetRepository state with
             | Some targetRepository =>
                 (issue <-
                    fetchIssue targetRepository issueNumber
                      githubInstallationToken ;;
                  ret (taskPlanUpdate None
                         (planFromIssue issue (in_taskPlan state))))
             | None => throw ownerOfUndefined
             end
           else ret (taskPlanUpdate None (in_taskPlan state))
       | None => ret (taskPlanUpdate None (in_taskPlan state))
       end
     else
       match in_githubIssueId state with
       | Some issueNumber =>
           if truthy_num issueNumber then
             match in_targetRepository state with
             | None => throw (Err "Target repository not provided")
             | Some targetRepository =>
                 (issue <-
                    fetchIssue targetRepository issueNumber
                      githubInstallationToken ;;
                  newId <- uuidv4 ;;
                  let newMessage :=
                    HumanMessage
                      {| id := Some newId;
                         content := getMessageContentFromIssue lib issue;
                         additional_kwargs :=
                           <["isOriginalIssue" := JBool true]>
                             (<["githubIssueId" := JNum issueNumber]> ∅) |} in
                  ret (taskPlanUpdate (Some [newMessage])
                         (planFromIssue issue (in_taskPlan state))))
             end
           else throw (Err "GitHub issue ID not provided")
       | None => throw (Err "GitHub issue ID not provided")
       end)%M.

(** ** The [issues.labeled] webhook *)

(** The payload of an [issues.labeled] event: the label and the installation
    may be absent; the repository, the issue and the sender are required by
    the type of the event, so the tests [payload.repository && payload.issue]
    of the [catch] block hold. *)
Record LabeledPayload := {
  label_name : option string;
  installation_id : option Z;
  repository_owner_login : string;
  repository_name : string;
  issue_number : Z;
  payload_issue_title : string;
  payload_issue_body : option string;
  sender_id : Z;
  sender_login : string
}.

Definition createDevMetadataComment (runId threadId : string) : string :=
  "<details>" +:+ LF +:+ "  <summary>Dev Metadata</summary>" +:+ LF +:+ "  "
  +:+ JSON_stringify lib [("runId", runId); ("threadId", threadId)]
  +:+ LF +:+ "</details>".

Definition validOpenSWELabels : list string :=
  [ getOpenSWELabel lib; getOpenSWEAutoAcceptLabel lib;
    getOpenSWEMaxLabel lib; getOpenSWEMaxAutoAcceptLabel lib ].

(** [!payload.label?.name || !validOpenSWELabels.some(...)] *)
Definition notOpenSWELabel (payload : LabeledPayload) : bool :=
  match label_name payload with
  | Some name =>
      negb (truthy_str name)
      || negb (existsb (fun l => String.eqb l name) validOpenSWELabels)
  | None => true
  end.

Definition webhookRunInput (payload : LabeledPayload) (messageId : string)
    (isAutoAcceptLabel : bool) : ManagerGraphUpdate :=
  {| u_messages :=
       Some [ HumanMessage
                {| id := Some messageId;
                   content :=
                     "**" +:+ payload_issue_title payload +:+ "**" +:+ LF
                     +:+ LF +:+ default "" (payload_issue_body payload);
                   additional_kwargs :=
                     <["requestSource" := JStr (GITHUB_ISSUE_WEBHOOK lib)]>
                       (<["githubIssueId" := JNum (issue_number payload)]>
                          (<["isOriginalIssue" := JBool true]> ∅)) |} ];
     u_githubIssueId := Some (issue_number payload);
     u_targetRepository :=
       Some {| owner := repository_owner_login payload;
               repo := repository_name payload |};
     u_taskPlan := None;
     u_plannerSession := None;
     u_programmerSession := None;
     u_autoAcceptPlan := Some isAutoAcceptLabel;
     u_branchName := None |}.

Definition webhookRunPayload (payload : LabeledPayload) (messageId : string)
    (isAutoAcceptLabel isMaxLabel : bool) : RunPayload :=
  {| rp_input :=
       ManagerInput (webhookRunInput payload messageId isAutoAcceptLabel);
     rp_command := None;
     rp_recursion_limit := Some 400;
     rp_configurable :=
       if isMaxLabel
       then Some (<["programmerModelName" := "anthropic:claude-opus-4-1"]>
                    (<["plannerModelName" := "anthropic:claude-opus-4-1"]> ∅))
       else None;
     rp_ifNotExists := Some "create";
     rp_streamResumable := true |}.

(** The body of the [try] block, after the label was recognised.  The two
    installation requests of the [Promise.all] are sent before either is
    awaited; when both are rejected the error of the first is the one
    thrown here.  The ids of the headers are numbers, written by
    [Number.prototype.toString]. *)
Definition processLabel (payload : LabeledPayload) (encryptionKey : string)
    (isAutoAcceptLabel isMaxLabel : bool) : M unit :=
  match installation_id payload with
  | None => ret tt
  | Some installationId =>
      if negb (truthy_num installationId) then ret tt
      else
        (octokitPromise <-
           promise (call (EvGetInstallationOctokit installationId)
                      (fun n => getInstallationOctokit w n installationId)) ;;
         tokenPromise <-
           promise (call (EvGetInstallationAccessToken installationId)
                      (fun n => getInstallationAccessToken w n installationId)) ;;
         octokit <- lift octokitPromise ;;
         token <- lift tokenPromise ;;
         let userLogin := sender_login payload in
         if negb (isAllowedUser lib userLogin) then ret tt
         else
           let langGraphClient : gmap string string :=
             <[GITHUB_INSTALLATION_ID lib :=
                 Number_toString lib installationId]>
               (<[GITHUB_USER_LOGIN_HEADER lib := userLogin]>
                  (<[GITHUB_USER_ID_HEADER lib :=
                       Number_toString lib (sender_id payload)]>
                     (<[GITHUB_INSTALLATION_NAME lib :=
                          repository_owner_login payload]>
                        (<[GITHUB_INSTALLATION_TOKEN_COOKIE lib :=
                             encryptSecret lib token encryptionKey]> ∅)))) in
           threadId <- uuidv4 ;;
           messageId <- uuidv4 ;;
           let runPayload :=
             webhookRunPayload payload messageId isAutoAcceptLabel isMaxLabel in
           run <-
             call (EvRunsCreate langGraphClient threadId (MANAGER_GRAPH_ID lib)
                     runPayload)
               (fun n => runs_create w n langGraphClient threadId
                           (MANAGER_GRAPH_ID lib) runPayload) ;;
           let appUrl := getOpenSweAppUrl lib threadId in
           let appUrlCommentText :=
             if truthy_str appUrl
             then "View run in Open SWE [here](" +:+ appUrl
                  +:+ ") (this URL will only work for @" +:+ userLogin +:+ ")"
             else "" in
           let body :=
             "ü§ñ Open SWE has been triggered for this issue. Processing..."
             +:+ LF +:+ LF +:+ appUrlCommentText +:+ LF +:+ LF
             +:+ createDevMetadataComment (run_id run) threadId in
           call (EvOctokitPostComment octokit (repository_owner_login payload)
                   (repository_name payload) (issue_number payload) body)
             (fun n => octokit_request w n octokit
                         (repository_owner_login payload)
                         (repository_name payload) (issue_number payload)
                         body))%M
  end.

(** The [catch] block: a best-effort error comment whose own failure is
    swallowed. *)
Definition reportError (payload : LabeledPayload) (error : Error) : M unit :=
  tryCatch
    (match installation_id payload with
     | None => ret tt
     | Some installationId =>
         if truthy_num installationId then
           (octokit <-
              call (EvGetInstallationOctokit installationId)
                (fun n => getInstallationOctokit w n installationId) ;;
            let body :=
              "‚ùå Open SWE encountered an error while processing this issue. Please check the logs or try again later."
              +:+ LF +:+ LF +:+ "Error: "
              +:+ (match error with Err message => message end) in
            call (EvOctokitPostComment octokit (repository_owner_login payload)
                    (repository_name payload) (issue_number payload) body)
              (fun n => octokit_request w n octokit
                          (repository_owner_login payload)
                          (repository_name payload) (issue_number payload)
                          body))%M
         else ret tt
     end)
    (fun commentError => ret tt).

(** The handler registered with [webhooks.on("issues.labeled", ...)]. *)
Definition onIssuesLabeled (payload : LabeledPayload) : M unit :=
  match SECRETS_ENCRYPTION_KEY w with
  | None => throw (Err "SECRETS_ENCRYPTION_KEY environment variable is required")
  | Some encryptionKey =>
      if negb (truthy_str encryptionKey) then
        throw (Err "SECRETS_ENCRYPTION_KEY environment variable is required")
      else if notOpenSWELabel payload then ret tt
      else
        let name := default "" (label_name payload) in
        let isAutoAcceptLabel :=
          String.eqb name (getOpenSWEAutoAcceptLabel lib)
          || String.eqb name (getOpenSWEMaxAutoAcceptLabel lib) in
        let isMaxLabel :=
          String.eqb name (getOpenSWEMaxLabel lib)
          || String.eqb name (getOpenSWEMaxAutoAcceptLabel lib) in
        tryCatch
          (processLabel payload encryptionKey isAutoAcceptLabel isMaxLabel)
          (reportError payload)
  end.

End Nodes.

(** ** Reading the result of a node *)

Definition outcome {A} (r : Outcome A * list Event * Clock) : Outcome A :=
  fst (fst r).

Definition trace {A} (r : Outcome A * list Event * Clock) : list Event :=
  snd (fst r).

Definition clock {A} (r : Outcome A * list Event * Clock) : Clock := snd r.

Definition isCreateIssueComment (e : Event) : bool :=
  match e with
  | EvCreateIssueComment _ _ _ _ _ => true
  | _ => false
  end.

Definition isOctokitPostComment (e : Event) : bool :=
  match e with
  | EvOctokitPostComment _ _ _ _ _ => true
  | _ => false
  end.

Definition isRunsCreate (e : Event) : bool :=
  match e with
  | EvRunsCreate _ _ _ _ => true
  | _ => false
  end.

Definition isInvoke (e : Event) : bool :=
  match e with
  | EvInvoke _ _ _ _ _ => true
  | _ => false
  end.

(** ** Predicates on the runs of a node *)

(** [emits S m]: every request sent by [m] satisfies [S]. *)
Definition emits {A} (S : Event -> Prop) (m : M A) : Prop :=
  forall c, Forall S (trace (m c)).

(** [returns Q m]: whenever [m] returns, its value satisfies [Q]. *)
Definition returns {A} (Q : A -> Prop) (m : M A) : Prop :=
  forall c a, outcome (m c) = Return a -> Q a.

(** The planner session of a returned delta, if any, is on the thread of
    the session of the state. *)
Definition keepsThread (state : ManagerGraphState) (cmd : Command) : Prop :=
  forall s', u_plannerSession (update cmd) = Some s' ->
  exists s, plannerSession state = Some s /\ threadId s' = threadId s.

(** The delta holds one message, the reply that links to thread [tid], and
    no other key. *)
Definition onlyReply (tid : string) (u : ManagerGraphUpdate) : Prop :=
  exists replyId,
    u_messages u = Some [newSessionResponse replyId tid] /\
    u_githubIssueId u = None /\ u_targetRepository u = None /\
    u_taskPlan u = None /\ u_plannerSession u = None /\
    u_programmerSession u = None /\ u_autoAcceptPlan u = None /\
    u_branchName u = None.

(** ** A concrete deployment, used to run the nodes *)

Module Example.

(** Decimal digits: what [Number.prototype.toString] gives for an integer
    below [10^21] in absolute value, as the ids of the examples are; above,
    the platform writes an exponent, which [decimal] does not. *)
Definition decimal (n : Z) : string := pretty n.

Definition lib : Lib :=
  {| GITHUB_PAT := "x-github-pat";
     GITHUB_INSTALLATION_ID := "x-github-installation-id";
     GITHUB_INSTALLATION_NAME := "x-github-installation-name";
     GITHUB_INSTALLATION_TOKEN_COOKIE := "x-github-installation-token";
     GITHUB_USER_ID_HEADER := "x-github-user-id";
     GITHUB_USER_LOGIN_HEADER := "x-github-user-login";
     LOCAL_MODE_HEADER := "x-local-mode";
     MANAGER_GRAPH_ID := "manager";
     PLANNER_GRAPH_ID := "planner";
     ISSUE_TITLE_OPEN_TAG := "<open-swe-issue-title>";
     ISSUE_TITLE_CLOSE_TAG := "</open-swe-issue-title>";
     ISSUE_CONTENT_OPEN_TAG := "<open-swe-issue-content>";
     ISSUE_CONTENT_CLOSE_TAG := "</open-swe-issue-content>";
     GITHUB_ISSUE_WEBHOOK := "github_issue_webhook";
     getOpenSWELabel := "open-swe";
     getOpenSWEAutoAcceptLabel := "open-swe-auto";
     getOpenSWEMaxLabel := "open-swe-max";
     getOpenSWEMaxAutoAcceptLabel := "open-swe-max-auto";
     isAllowedUser := fun login => String.eqb login "alice";
     getOpenSweAppUrl := fun thread => "https://swe.example/chat/" +:+ thread;
     encryptSecret := fun secret key => key +:+ ":" +:+ secret;
     JSON_stringify :=
       fun kvs => String.concat "," (map (fun kv => fst kv +:+ "=" +:+ snd kv) kvs);
     isLocalMode := fun config => bool_decide (is_Some (configurable config !! "x-local-mode"));
     getDefaultHeaders := fun config => configurable config;
     getCustomConfigurableFields := fun config => configurable config;
     getBranchName := fun _ => "open-swe/branch";
     getGitHubTokensFromConfig :=
       fun _ => Return {| githubAccessToken := "user-token";
                          githubInstallationToken := "installation-token" |};
     getMessageContentString := fun content => content;
     extractContentWithoutDetailsFromIssueBody := fun body => body;
     extractIssueTitleAndContentFromMessage := fun content => (None, content);
     formatContentForIssueBody := fun body => body;
     extractTasksFromIssueContent := fun _ => None;
     getMessageContentFromIssue :=
       fun issue => issue_title issue +:+ default "" (issue_body issue);
     createClassificationPromptAndToolSchema :=
       fun inputs =>
         (match ci_taskPlan inputs with
          | Some plan => String.concat ";" (tasks plan)
          | None => "no plan"
          end,
          ["no_op"; "create_new_issue"; "start_planner"]);
     supportsParallelToolCallsParam := fun _ => true;
     getRecentUserRequest := fun ms _ => List.find isHumanMessage (rev ms);
     Number_toString := decimal |}.

Definition human (i text : string) (kw : gmap string JsVal) : BaseMessage :=
  HumanMessage {| id := Some i; content := text; additional_kwargs := kw |}.

Definition reply (r : string) : BaseMessage :=
  AIMessage {| id := Some "reply"; content := "ok"; additional_kwargs := ∅ |}
    [ {| tc_name := "respond_and_route";
         args := {| route := r; response := "ok"; internal_reasoning := "" |} |} ].

Definition issuePlan : TaskPlan :=
  {| tasks := ["edited in the issue"]; activeTaskIndex := 0 |}.

Definition statePlan : TaskPlan :=
  {| tasks := ["kept in memory"]; activeTaskIndex := 0 |}.

(** A world where the planner thread has status [st], the router answers
    [answer] and the installation token service answers [accessToken];
    every other service succeeds. *)
Definition worldWith (st : ThreadStatus) (answer : BaseMessage)
    (accessToken : Outcome string) : World :=
  {| uuid := fun n => "uuid-" +:+ pretty n;
     SECRETS_ENCRYPTION_KEY := Some "key";
     threads_get := fun _ _ _ => Return {| status := st; values := None |};
     runs_create :=
       fun n _ _ _ _ => Return {| run_id := "run-" +:+ pretty n;
                                  run_status := "pending" |};
     getPlansFromIssue :=
       fun _ _ _ => Return (Some {| ip_taskPlan := Some issuePlan;
                                    ip_proposedPlan := None |});
     loadModel := fun _ _ => Return "router";
     invoke := fun _ _ _ _ _ _ => Return answer;
     createIssueFieldsFromMessages := fun _ _ _ => Return ("title", "body");
     createIssue :=
       fun _ _ _ _ _ _ => Return (Some {| number := 8; html_url := "url" |});
     createIssueComment :=
       fun n _ _ _ _ _ => Return (Some {| comment_id := 100 + Z.of_nat n |});
     getIssue :=
       fun _ _ _ _ _ => Return (Some {| issue_title := "t";
                                        issue_body := Some "b";
                                        issue_state := "open" |});
     regenerateInstallationToken := fun _ _ => Return "fresh-token";
     getInstallationOctokit := fun _ _ => Return "octokit";
     getInstallationAccessToken := fun _ _ => accessToken;
     octokit_request := fun _ _ _ _ _ _ => Return tt;
     settle := fun l => rev l |}.

(** Every service answers and the router chooses the route [r]. *)
Definition world (st : ThreadStatus) (r : string) : World :=
  worldWith st (reply r) (Return "installation-token").

(** The installation token cannot be obtained. *)
Definition tokenOutage : World :=
  worldWith idle (reply "no_op") (Throw (Err "token service unavailable")).

(** The router answers in plain text, without a tool call. *)
Definition plainAnswer : BaseMessage :=
  AIMessage {| id := Some "reply"; content := "hello";
               additional_kwargs := ∅ |} [].

Definition mute : World :=
  worldWith idle plainAnswer (Return "installation-token").

(** The label [open-swe] put on issue 7 by [login]. *)
Definition labeled (login : string) : LabeledPayload :=
  {| label_name := Some "open-swe";
     installation_id := Some 42;
     repository_owner_login := "acme";
     repository_name := "shop";
     issue_number := 7;
     payload_issue_title := "Fix the login bug";
     payload_issue_body := Some "It fails";
     sender_id := 1;
     sender_login := login |}.

Definition config : GraphConfig :=
  {| configurable := {[ "x-github-installation-id" := "42" ]} |}.

Definition tagged : gmap string JsVal :=
  {[ "githubIssueId" := JNum 7; "isOriginalIssue" := JBool true ]}.

(** Issue 7, two human messages of which the second is not mirrored yet,
    and a planner session. *)
Definition state : ManagerGraphState :=
  {| messages := [ human "m1" "Fix the login bug" tagged;
                   AIMessage {| id := Some "a1"; content := "On it";
                                additional_kwargs := ∅ |} [];
                   human "m2" "Also fix logout" ∅ ];
     githubIssueId := Some 7;
     targetRepository := {| owner := "acme"; repo := "shop" |};
     taskPlan := Some statePlan;
     plannerSession := Some {| threadId := "planner-thread"; runId := "run-0" |};
     programmerSession := None;
     autoAcceptPlan := None;
     branchName := None |}.

(** Issue 7 and a single human message that was never mirrored. *)
Definition single : ManagerGraphState :=
  {| messages := [ human "m1" "Fix the login bug" ∅ ];
     githubIssueId := Some 7;
     targetRepository := {| owner := "acme"; repo := "shop" |};
     taskPlan := None;
     plannerSession := Some {| threadId := "planner-thread"; runId := "run-0" |};
     programmerSession := None;
     autoAcceptPlan := None;
     branchName := None |}.

(** A history without any human message. *)
Definition unanswered : ManagerGraphState :=
  {| messages := [ AIMessage {| id := Some "a1"; content := "Hello";
                                additional_kwargs := ∅ |} [] ];
     githubIssueId := None;
     targetRepository := {| owner := "acme"; repo := "shop" |};
     taskPlan := None;
     plannerSession := None;
     programmerSession := None;
     autoAcceptPlan := None;
     branchName := None |}.

(** What the example world lets [classifyMessage] gather, request and
    receive on the states above. *)
Definition gathered (st : ThreadStatus) : Context :=
  {| plannerThread := Some {| status := st; values := None |};
     programmerThread := None;
     langGraphClient := Some (configurable config);
     issuePlans := Some {| ip_taskPlan := Some issuePlan;
                           ip_proposedPlan := None |} |}.

Definition contextRequests : list Event :=
  [ EvThreadsGet (configurable config) "planner-thread";
    EvGetPlansFromIssue (Some 7) ].

Definition routerRequests (s : ManagerGraphState) (userMessage : BaseMessage)
    (st : ThreadStatus) : list Event :=
  [ EvLoadModel; routerRequest lib s config userMessage (gathered st) "router" ].

Definition chosen (r : string) : ToolCallArgs :=
  {| route := r; response := "ok"; internal_reasoning := "" |}.

Definition afterContext : Clock := {| calls := 2; uuids := 0 |}.

Definition afterRouter : Clock := {| calls := 4; uuids := 0 |}.

End Example.

(** ** Predicates used in the further properties *)

(** The routes [routeToNode] knows. *)
Definition knownRoute (route : string) : bool :=
  String.eqb route "update_programmer"
  || String.eqb route "update_planner"
  || String.eqb route "resume_and_update_planner"
  || String.eqb route "start_planner"
  || String.eqb route "start_planner_for_followup".

(** The requests [classifyMessage] still sends in local mode. *)
Definition isLocalRequest (e : Event) : bool :=
  match e with
  | EvGetPlansFromIssue _ | EvLoadModel | EvInvoke _ _ _ _ _ => true
  | _ => false
  end.

Definition isCreateIssue (e : Event) : bool :=
  match e with
  | EvCreateIssue _ _ _ _ _ => true
  | _ => false
  end.

Definition isGetIssue (e : Event) : bool :=
  match e with
  | EvGetIssue _ _ _ _ => true
  | _ => false
  end.

Definition isRegenerate (e : Event) : bool :=
  match e with
  | EvRegenerateInstallationToken _ => true
  | _ => false
  end.

(** ** The HTTP entry of the webhook *)

(** What [getHeaders] returns: the four GitHub headers. *)
Record EventHeaders := {
  eh_id : string;
  eh_name : string;
  eh_installationId : string;
  eh_targetType : string
}.

(** [c.json(body, { status })] *)
Inductive JsonBody :=
| ErrorBody (error : string)
| ReceivedBody (received : bool).

Record HttpResponse := {
  http_body : JsonBody;
  http_status : Z
}.

(** [headers[key] || ""] *)
Definition headerOrEmpty (headers : gmap string string) (key : string)
  : string :=
  default "" (headers !! key).

(** The four headers, or [null] when one of them is missing or empty. *)
Definition getHeaders (headers : gmap string string) : option EventHeaders :=
  let webhookId := headerOrEmpty headers "x-github-delivery" in
  let webhookEvent := headerOrEmpty headers "x-github-event" in
  let installationId :=
    headerOrEmpty headers "x-github-hook-installation-target-id" in
  let targetType :=
    headerOrEmpty headers "x-github-hook-installation-target-type" in
  if negb (truthy_str webhookId) || negb (truthy_str webhookEvent)
     || negb (truthy_str installationId) || negb (truthy_str targetType)
  then None
  else Some {| eh_id := webhookId; eh_name := webhookEvent;
               eh_installationId := installationId;
               eh_targetType := targetType |}.

Section HttpIngress.

(** The values of [JSON.parse], which is [None] when it throws; [isNull]
    tells [null], on which reading [payload.action] throws, and [toBoolean]
    is the truthiness of a value.  [receive] is [webhooks.receive] of the
    Octokit library, which runs the registered handlers. *)
Variable Json : Type.
Variable JSON_parse : string -> option Json.
Variable isNull : Json -> bool.
Variable toBoolean : Json -> bool.
Variable receive : string -> string -> Json -> M unit.

(** The parsed body, or [null] when parsing or the logging of its fields
    throws. *)
Definition getPayload (body : string) : option Json :=
  match JSON_parse body with
  | Some payload => if isNull payload then None else Some payload
  | None => None
  end.

Definition issueWebhookHandler (requestBody : string)
    (headers : gmap string string) : M HttpResponse :=
  match getPayload requestBody with
  | None =>
      ret {| http_body := ErrorBody "Missing payload"; http_status := 400 |}
  | Some payload =>
      if negb (toBoolean payload) then
        ret {| http_body := ErrorBody "Missing payload"; http_status := 400 |}
      else
        match getHeaders headers with
        | None =>
            ret {| http_body := ErrorBody "Missing webhook headers";
                   http_status := 400 |}
        | Some eventHeaders =>
            tryCatch
              (receive (eh_id eventHeaders) (eh_name eventHeaders) payload ;;;
               ret {| http_body := ReceivedBody true; http_status := 200 |})%M
              (fun error =>
                 ret {| http_body := ErrorBody "Webhook processing failed";
                        http_status := 400 |})
        end
  end.

End HttpIngress.

(** ** More deployments *)

Module Scenario.

(** The world [w] with another answer of the run service. *)
Definition withRuns (answer : Outcome Run) (w : World) : World :=
  {| uuid := uuid w;
     SECRETS_ENCRYPTION_KEY := SECRETS_ENCRYPTION_KEY w;
     threads_get := threads_get w;
     runs_create := fun _ _ _ _ _ => answer;
     getPlansFromIssue := getPlansFromIssue w;
     loadModel := loadModel w;
     invoke := invoke w;
     createIssueFieldsFromMessages := createIssueFieldsFromMessages w;
     createIssue := createIssue w;
     createIssueComment := createIssueComment w;
     getIssue := getIssue w;
     regenerateInstallationToken := regenerateInstallationToken w;
     getInstallationOctokit := getInstallationOctokit w;
     getInstallationAccessToken := getInstallationAccessToken w;
     octokit_request := octokit_request w;
     settle := settle w |}.

(** The world [w] with another answer to the creation of issues. *)
Definition withIssues (answer : Outcome (option NewIssue)) (w : World)
  : World :=
  {| uuid := uuid w;
     SECRETS_ENCRYPTION_KEY := SECRETS_ENCRYPTION_KEY w;
     threads_get := threads_get w;
     runs_create := runs_create w;
     getPlansFromIssue := getPlansFromIssue w;
     loadModel := loadModel w;
     invoke := invoke w;
     createIssueFieldsFromMessages := createIssueFieldsFromMessages w;
     createIssue := fun _ _ _ _ _ _ => answer;
     createIssueComment := createIssueComment w;
     getIssue := getIssue w;
     regenerateInstallationToken := regenerateInstallationToken w;
     getInstallationOctokit := getInstallationOctokit w;
     getInstallationAccessToken := getInstallationAccessToken w;
     octokit_request := octokit_request w;
     settle := settle w |}.

(** The world [w] where the comment requested by call number [n] is not
    created. *)
Definition withoutComment (n : nat) (w : World) : World :=
  {| uuid := uuid w;
     SECRETS_ENCRYPTION_KEY := SECRETS_ENCRYPTION_KEY w;
     threads_get := threads_get w;
     runs_create := runs_create w;
     getPlansFromIssue := getPlansFromIssue w;
     loadModel := loadModel w;
     invoke := invoke w;
     createIssueFieldsFromMessages := createIssueFieldsFromMessages w;
     createIssue := createIssue w;
     createIssueComment :=
       fun k o r i b t =>
         if Nat.eqb k n then Return None else createIssueComment w k o r i b t;
     getIssue := getIssue w;
     regenerateInstallationToken := regenerateInstallationToken w;
     getInstallationOctokit := getInstallationOctokit w;
     getInstallationAccessToken := getInstallationAccessToken w;
     octokit_request := octokit_request w;
     settle := settle w |}.

(** The world [w] with another answer to the regeneration of the token. *)
Definition withRegeneration (answer : Outcome string) (w : World) : World :=
  {| uuid := uuid w;
     SECRETS_ENCRYPTION_KEY := SECRETS_ENCRYPTION_KEY w;
     threads_get := threads_get w;
     runs_create := runs_create w;
     getPlansFromIssue := getPlansFromIssue w;
     loadModel := loadModel w;
     invoke := invoke w;
     createIssueFieldsFromMessages := createIssueFieldsFromMessages w;
     createIssue := createIssue w;
     createIssueComment := createIssueComment w;
     getIssue := getIssue w;
     regenerateInstallationToken := fun _ _ => answer;
     getInstallationOctokit := getInstallationOctokit w;
     getInstallationAccessToken := getInstallationAccessToken w;
     octokit_request := octokit_request w;
     settle := settle w |}.

(** The world [w] with another encryption key in the environment. *)
Definition withKey (key : option string) (w : World) : World :=
  {| uuid := uuid w;
     SECRETS_ENCRYPTION_KEY := key;
     threads_get := threads_get w;
     runs_create := runs_create w;
     getPlansFromIssue := getPlansFromIssue w;
     loadModel := loadModel w;
     invoke := invoke w;
     createIssueFieldsFromMessages := createIssueFieldsFromMessages w;
     createIssue := createIssue w;
     createIssueComment := createIssueComment w;
     getIssue := getIssue w;
     regenerateInstallationToken := regenerateInstallationToken w;
     getInstallationOctokit := getInstallationOctokit w;
     getInstallationAccessToken := getInstallationAccessToken w;
     octokit_request := octokit_request w;
     settle := settle w |}.

(** The world [w] with another answer to the fetch of an issue. *)
Definition withIssue (answer : Outcome (option Issue)) (w : World) : World :=
  {| uuid := uuid w;
     SECRETS_ENCRYPTION_KEY := SECRETS_ENCRYPTION_KEY w;
     threads_get := threads_get w;
     runs_create := runs_create w;
     getPlansFromIssue := getPlansFromIssue w;
     loadModel := loadModel w;
     invoke := invoke w;
     createIssueFieldsFromMessages := createIssueFieldsFromMessages w;
     createIssue := createIssue w;
     createIssueComment := createIssueComment w;
     getIssue := fun _ _ _ _ _ => answer;
     regenerateInstallationToken := regenerateInstallationToken w;
     getInstallationOctokit := getInstallationOctokit w;
     getInstallationAccessToken := getInstallationAccessToken w;
     octokit_request := octokit_request w;
     settle := settle w |}.

(** A first request: one human message, no issue yet, no session. *)
Definition fresh : ManagerGraphState :=
  {| messages := [ Example.human "m1" "Fix the login bug" ∅ ];
     githubIssueId := None;
     targetRepository := {| owner := "acme"; repo := "shop" |};
     taskPlan := None;
     plannerSession := None;
     programmerSession := None;
     autoAcceptPlan := None;
     branchName := None |}.

(** A thread opened for issue 7 that has no message yet. *)
Definition opened : ManagerGraphState :=
  {| messages := [];
     githubIssueId := Some 7;
     targetRepository := {| owner := "acme"; repo := "shop" |};
     taskPlan := Some Example.statePlan;
     plannerSession := None;
     programmerSession := None;
     autoAcceptPlan := None;
     branchName := None |}.

(** What the first node receives from a run started with the number of an
    issue and nothing else. *)
Definition bare : ManagerGraphInput :=
  {| in_messages := [];
     in_githubIssueId := Some 7;
     in_targetRepository := None;
     in_taskPlan := None |}.

(** Local mode. *)
Definition localConfig : GraphConfig :=
  {| configurable := {[ "x-local-mode" := "true" ]} |}.

(** A configuration that carries a personal access token. *)
Definition patConfig : GraphConfig :=
  {| configurable := {[ "x-github-pat" := "pat";
                        "x-github-installation-id" := "42" ]} |}.

(** What is gathered for a state without issue and without session. *)
Definition nothingGathered (client : option (gmap string string)) : Context :=
  {| plannerThread := None; programmerThread := None;
     langGraphClient := client; issuePlans := None |}.

(** A library whose issue bodies hold the plan [Example.issuePlan] when
    they are ["plan"]. *)
Definition planLib : Lib :=
  {| GITHUB_PAT := GITHUB_PAT Example.lib;
     GITHUB_INSTALLATION_ID := GITHUB_INSTALLATION_ID Example.lib;
     GITHUB_INSTALLATION_NAME := GITHUB_INSTALLATION_NAME Example.lib;
     GITHUB_INSTALLATION_TOKEN_COOKIE :=
       GITHUB_INSTALLATION_TOKEN_COOKIE Example.lib;
     GITHUB_USER_ID_HEADER := GITHUB_USER_ID_HEADER Example.lib;
     GITHUB_USER_LOGIN_HEADER := GITHUB_USER_LOGIN_HEADER Example.lib;
     LOCAL_MODE_HEADER := LOCAL_MODE_HEADER Example.lib;
     MANAGER_GRAPH_ID := MANAGER_GRAPH_ID Example.lib;
     PLANNER_GRAPH_ID := PLANNER_GRAPH_ID Example.lib;
     ISSUE_TITLE_OPEN_TAG := ISSUE_TITLE_OPEN_TAG Example.lib;
     ISSUE_TITLE_CLOSE_TAG := ISSUE_TITLE_CLOSE_TAG Example.lib;
     ISSUE_CONTENT_OPEN_TAG := ISSUE_CONTENT_OPEN_TAG Example.lib;
     ISSUE_CONTENT_CLOSE_TAG := ISSUE_CONTENT_CLOSE_TAG Example.lib;
     GITHUB_ISSUE_WEBHOOK := GITHUB_ISSUE_WEBHOOK Example.lib;
     getOpenSWELabel := getOpenSWELabel Example.lib;
     getOpenSWEAutoAcceptLabel := getOpenSWEAutoAcceptLabel Example.lib;
     getOpenSWEMaxLabel := getOpenSWEMaxLabel Example.lib;
     getOpenSWEMaxAutoAcceptLabel := getOpenSWEMaxAutoAcceptLabel Example.lib;
     isAllowedUser := isAllowedUser Example.lib;
     getOpenSweAppUrl := getOpenSweAppUrl Example.lib;
     encryptSecret := encryptSecret Example.lib;
     JSON_stringify := JSON_stringify Example.lib;
     isLocalMode := isLocalMode Example.lib;
     getDefaultHeaders := getDefaultHeaders Example.lib;
     getCustomConfigurableFields := getCustomConfigurableFields Example.lib;
     getBranchName := getBranchName Example.lib;
     getGitHubTokensFromConfig := getGitHubTokensFromConfig Example.lib;
     getMessageContentString := getMessageContentString Example.lib;
     extractContentWithoutDetailsFromIssueBody :=
       extractContentWithoutDetailsFromIssueBody Example.lib;
     extractIssueTitleAndContentFromMessage :=
       extractIssueTitleAndContentFromMessage Example.lib;
     formatContentForIssueBody := formatContentForIssueBody Example.lib;
     extractTasksFromIssueContent :=
       fun body =>
         if String.eqb body "plan" then Some Example.issuePlan else None;
     getMessageContentFromIssue := getMessageContentFromIssue Example.lib;
     createClassificationPromptAndToolSchema :=
       createClassificationPromptAndToolSchema Example.lib;
     supportsParallelToolCallsParam :=
       supportsParallelToolCallsParam Example.lib;
     getRecentUserRequest := getRecentUserRequest Example.lib;
     Number_toString := Number_toString Example.lib |}.

(** The headers GitHub sends with a delivery. *)
Definition delivery : gmap string string :=
  {[ "x-github-delivery" := "d-1";
     "x-github-event" := "issues";
     "x-github-hook-installation-target-id" := "42";
     "x-github-hook-installation-target-type" := "integration" ]}.

(** A toy [JSON.parse]: the body ["null"] is [null], the body ["0"] is the
    number zero, a body that starts with a brace is an object, anything else
    is refused. *)
Inductive ToyJson := ToyNull | ToyZero | ToyObject (text : string).

Definition toyParse (body : string) : option ToyJson :=
  if String.eqb body "null" then Some ToyNull
  else if String.eqb body "0" then Some ToyZero
  else if String.prefix "{" body then Some (ToyObject body)
  else None.

Definition toyIsNull (j : ToyJson) : bool :=
  match j with ToyNull => true | _ => false end.

Definition toyToBoolean (j : ToyJson) : bool :=
  match j with ToyObject _ => true | _ => false end.

(** A [receive] that runs the handler of labeled events on the payload
    [Example.labeled login], whatever the delivery. *)
Definition toyReceive (w : World) (login : string)
    (i n : string) (payload : ToyJson) : M unit :=
  onIssuesLabeled Example.lib w (Example.labeled login).

End Scenario.

(** ** Parts of the [issues.labeled] handler *)

(** The flags the handler derives from the label. *)
Definition isAutoAcceptLabel (lib : Lib) (payload : LabeledPayload) : bool :=
  let name := default "" (label_name payload) in
  String.eqb name (getOpenSWEAutoAcceptLabel lib)
  || String.eqb name (getOpenSWEMaxAutoAcceptLabel lib).

Definition isMaxLabel (lib : Lib) (payload : LabeledPayload) : bool :=
  let name := default "" (label_name payload) in
  String.eqb name (getOpenSWEMaxLabel lib)
  || String.eqb name (getOpenSWEMaxAutoAcceptLabel lib).

(** The [defaultHeaders] of the client that creates the run; the two ids
    are written by [Number.prototype.toString]. *)
Definition webhookClient (lib : Lib) (payload : LabeledPayload)
    (installationId : Z) (token encryptionKey : string) : gmap string string :=
  <[GITHUB_INSTALLATION_ID lib := Number_toString lib installationId]>
    (<[GITHUB_USER_LOGIN_HEADER lib := sender_login payload]>
       (<[GITHUB_USER_ID_HEADER lib :=
            Number_toString lib (sender_id payload)]>
          (<[GITHUB_INSTALLATION_NAME lib := repository_owner_login payload]>
             (<[GITHUB_INSTALLATION_TOKEN_COOKIE lib :=
                  encryptSecret lib token encryptionKey]> ∅)))).

(** The body of the comment posted once the run is created. *)
Definition triggeredComment (lib : Lib) (payload : LabeledPayload)
    (runId threadId : string) : string :=
  let appUrl := getOpenSweAppUrl lib threadId in
  let appUrlCommentText :=
    if truthy_str appUrl
    then "View run in Open SWE [here](" +:+ appUrl
         +:+ ") (this URL will only work for @" +:+ sender_login payload
         +:+ ")"
    else "" in
  "ü§ñ Open SWE has been triggered for this issue. Processing..."
  +:+ LF +:+ LF +:+ appUrlCommentText +:+ LF +:+ LF
  +:+ createDevMetadataComment lib runId threadId.

(** The body of the comment posted when the processing failed. *)
Definition errorComment (error : Error) : string :=
  "‚ùå Open SWE encountered an error while processing this issue. Please check the logs or try again later."
  +:+ LF +:+ LF +:+ "Error: "
  +:+ (match error with Err message => message end).

(** The requests for the client and the token of an installation. *)
Definition authRequests (installationId : Z) : list Event :=
  [ EvGetInstallationOctokit installationId;
    EvGetInstallationAccessToken installationId ].


(** The clock after [n] more requests. *)
Definition afterCalls (n : nat) (c : Clock) : Clock :=
  {| calls := n + calls c; uuids := uuids c |}.

(** ** The callback of the GitHub App *)

Module Callback.

(** The options of [response.cookies.set]. *)
Record CookieOptions := {
  httpOnly : option bool;
  secure : option bool;
  sameSite : option string;
  maxAge : option Z;
  expires : option Z;
  path : option string
}.

(** One call of [response.cookies.set]; the value is [None] when the
    answer of GitHub has no such field. *)
Record Cookie := {
  name : string;
  value : option string;
  options : CookieOptions
}.

(** [NextResponse.redirect(url)] and the cookies set on it, in order. *)
Record Response := {
  location : string;
  cookies : list Cookie
}.

(** Constants of the shared package, the cookie options of [@/lib/auth]
    and the functions of the platform: [origin url] is
    [new URL(url).origin], [resolve path base] is [new URL(path, base)];
    they and [encodeURIComponent] are [None] when they throw. *)
Record Platform := {
  GITHUB_AUTH_STATE_COOKIE : string;
  GITHUB_INSTALLATION_ID_COOKIE : string;
  GITHUB_TOKEN_TYPE_COOKIE : string;
  GITHUB_TOKEN_COOKIE : string;
  getInstallationCookieOptions : CookieOptions;
  origin : string -> option string;
  resolve : string -> string -> option string;
  encodeURIComponent : string -> option string
}.

(** [process.env] *)
Record Env := {
  GITHUB_APP_REDIRECT_URI : option string;
  NEXT_PUBLIC_GITHUB_APP_CLIENT_ID : option string;
  GITHUB_APP_CLIENT_SECRET : option string;
  NODE_ENV : option string
}.

(** The request: its URL, the four search parameters ([null] when absent)
    and the value of the state cookie. *)
Record Request := {
  url : string;
  code : option string;
  state : option string;
  error : option string;
  installation_id : option string;
  storedState : option string
}.

(** The JSON body posted to [https://github.com/login/oauth/access_token]. *)
Record TokenRequest := {
  client_id : string;
  client_secret : string;
  tr_code : string;
  redirect_uri : string
}.

(** The fields read from the JSON answer, strings when present, as GitHub
    answers them. *)
Record TokenData := {
  td_error : option string;
  access_token : option string;
  token_type : option string
}.

(** What [fetch] does: it rejects; or answers without [ok], with a text
    that may fail to be read; or answers with [ok] and a JSON body, [None]
    when [json()] rejects or yields [null]. *)
Inductive FetchResult :=
| Rejected
| NotOk (text : option string)
| Ok (json : option TokenData).

Section Handler.

Variable p : Platform.
Variable env : Env.
Variable fetch : TokenRequest -> FetchResult.
Variable request : Request.

(** [NextResponse.redirect(new URL(path, baseUrl))] *)
Definition redirect (path baseUrl : string) : option Response :=
  match resolve p path baseUrl with
  | Some href => Some {| location := href; cookies := [] |}
  | None => None
  end.

(** [redirectUri ? new URL(redirectUri).origin : new URL(request.url).origin] *)
Definition baseUrlOf : option string :=
  match GITHUB_APP_REDIRECT_URI env with
  | Some redirectUri =>
      if truthy_str redirectUri then origin p redirectUri
      else origin p (url request)
  | None => origin p (url request)
  end.

(** [storedState && state !== storedState] *)
Definition stateMismatch : bool :=
  match storedState request with
  | Some stored =>
      truthy_str stored
      && negb (match state request with
               | Some s => String.eqb s stored
               | None => false
               end)
  | None => false
  end.

(** The options of the two token cookies. *)
Definition tokenCookieOptions : CookieOptions :=
  {| httpOnly := Some true;
     secure := Some (bool_decide (NODE_ENV env = Some "production"));
     sameSite := Some "lax";
     maxAge := Some (60 * 60 * 24 * 30);
     expires := None;
     path := Some "/" |}.

(** The cookies of the success response. *)
Definition sessionCookies (tokenData : TokenData) : list Cookie :=
  [ {| name := GITHUB_AUTH_STATE_COOKIE p;
       value := Some "";
       options := {| httpOnly := None; secure := None; sameSite := None;
                     maxAge := None; expires := Some 0; path := Some "/" |} |};
    {| name := GITHUB_TOKEN_COOKIE p;
       value := access_token tokenData;
       options := tokenCookieOptions |};
    {| name := GITHUB_TOKEN_TYPE_COOKIE p;
       value :=
         Some (if truthy_opt truthy_str (token_type tokenData)
               then default "" (token_type tokenData)
               else "bearer");
       options := tokenCookieOptions |} ]
  ++ (if truthy_opt truthy_str (installation_id request)
      then [ {| name := GITHUB_INSTALLATION_ID_COOKIE p;
                value := installation_id request;
                options := getInstallationCookieOptions p |} ]
      else []).

(** What follows the answer of GitHub. *)
Definition afterExchange (baseUrl : string) (answer : FetchResult)
  : option Response :=
  match answer with
  | Rejected => None
  | NotOk None => None
  | NotOk (Some _) => redirect "/?error=token_exchange_failed" baseUrl
  | Ok None => None
  | Ok (Some tokenData) =>
      if truthy_opt truthy_str (td_error tokenData) then
        match encodeURIComponent p (default "" (td_error tokenData)) with
        | Some e => redirect ("/?error=" +:+ e) baseUrl
        | None => None
        end
      else
        match resolve p "/chat" baseUrl with
        | Some href =>
            Some {| location := href; cookies := sessionCookies tokenData |}
        | None => None
        end
  end.

(** The [try] block: the response ([None] when it throws) and the token
    requests sent. *)
Definition attempt : option Response * list TokenRequest :=
  match origin p (url request) with
  | None => (None, [])
  | Some _ =>
      match baseUrlOf with
      | None => (None, [])
      | Some baseUrl =>
          if truthy_opt truthy_str (error request) then
            (match encodeURIComponent p (default "" (error request)) with
             | Some e => redirect ("/?error=" +:+ e) baseUrl
             | None => None
             end, [])
          else if negb (truthy_opt truthy_str (code request)) then
            (redirect "/?error=missing_code_parameter" baseUrl, [])
          else if stateMismatch then
            (redirect "/?error=invalid_state" baseUrl, [])
          else if negb (truthy_opt truthy_str
                          (NEXT_PUBLIC_GITHUB_APP_CLIENT_ID env))
                  || negb (truthy_opt truthy_str
                             (GITHUB_APP_CLIENT_SECRET env))
                  || negb (truthy_opt truthy_str
                             (GITHUB_APP_REDIRECT_URI env))
          then (redirect "/?error=configuration_missing" baseUrl, [])
          else
            let tokenRequest :=
              {| client_id :=
                   default "" (NEXT_PUBLIC_GITHUB_APP_CLIENT_ID env);
                 client_secret := default "" (GITHUB_APP_CLIENT_SECRET env);
                 tr_code := default "" (code request);
                 redirect_uri := default "" (GITHUB_APP_REDIRECT_URI env) |} in
            (afterExchange baseUrl (fetch tokenRequest), [tokenRequest])
      end
  end.

(** The handler: the [catch] block redirects to the same base; [None] is
    an error thrown by the [catch] block itself. *)
Definition GET : option Response * list TokenRequest :=
  match attempt with
  | (Some response, sent) => (Some response, sent)
  | (None, sent) =>
      (match baseUrlOf with
       | Some fallbackBaseUrl =>
           redirect "/?error=callback_failed" fallbackBaseUrl
       | None => None
       end, sent)
  end.

End Handler.

(** A deployment and a callback for the examples. *)
Definition platform : Platform :=
  {| GITHUB_AUTH_STATE_COOKIE := "github_auth_state";
     GITHUB_INSTALLATION_ID_COOKIE := "github_installation_id";
     GITHUB_TOKEN_TYPE_COOKIE := "github_token_type";
     GITHUB_TOKEN_COOKIE := "github_token";
     getInstallationCookieOptions :=
       {| httpOnly := Some false; secure := Some true;
          sameSite := Some "lax"; maxAge := Some 2592000; expires := None;
          path := Some "/" |};
     origin :=
       fun u => if String.prefix "https://" u then Some "https://swe.example"
                else None;
     resolve := fun path base => Some (base +:+ path);
     encodeURIComponent := fun text => Some text |}.

Definition production : Env :=
  {| GITHUB_APP_REDIRECT_URI := Some "https://swe.example/api/auth/callback";
     NEXT_PUBLIC_GITHUB_APP_CLIENT_ID := Some "client";
     GITHUB_APP_CLIENT_SECRET := Some "secret";
     NODE_ENV := Some "production" |}.

Definition github (tokenRequest : TokenRequest) : FetchResult :=
  if String.eqb (tr_code tokenRequest) "good"
  then Ok (Some {| td_error := None; access_token := Some "gho_1";
                   token_type := None |})
  else Ok (Some {| td_error := Some "bad_verification_code";
                   access_token := None; token_type := None |}).

Definition callback (c : string) (s stored : option string) : Request :=
  {| url := "https://swe.example/api/auth/callback";
     code := Some c;
     state := s;
     error := None;
     installation_id := Some "42";
     storedState := stored |}.

(** The request with another [state] parameter. *)
Definition withState (s : option string) (r : Request) : Request :=
  {| url := url r; code := code r; state := s; error := error r;
     installation_id := installation_id r; storedState := storedState r |}.

End Callback.

(** * Properties *)

(** ** The monad *)

Section MonadFacts.

Context {A B : Type}.

Lemma outcome_bind (m : M A) (k : A -> M B) c :
  outcome (bind m k c) =
  match outcome (m c) with
  | Return a => outcome (k a (clock (m c)))
  | Throw e => Throw e
  end.
Proof.
  unfold bind, outcome, clock.
  destruct (m c) as [[[a|e] t1] c1]; simpl; [|reflexivity].
  destruct (k a c1) as [[r t2] c2]; reflexivity.
Qed.

Lemma trace_bind (m : M A) (k : A -> M B) c :
  trace (bind m k c) =
  trace (m c) ++
  match outcome (m c) with
  | Return a => trace (k a (clock (m c)))
  | Throw e => []
  end.
Proof.
  unfold bind, outcome, trace, clock.
  destruct (m c) as [[[a|e] t1] c1]; simpl.
  - destruct (k a c1) as [[r t2] c2]; reflexivity.
  - symmetry; apply app_nil_r.
Qed.

Lemma clock_bind (m : M A) (k : A -> M B) c :
  clock (bind m k c) =
  match outcome (m c) with
  | Return a => clock (k a (clock (m c)))
  | Throw e => clock (m c)
  end.
Proof.
  unfold bind, outcome, clock.
  destruct (m c) as [[[a|e] t1] c1]; simpl; [|reflexivity].
  destruct (k a c1) as [[r t2] c2]; reflexivity.
Qed.

(** A step that returns is followed by its continuation. *)
Lemma bind_Return (m : M A) (k : A -> M B) c a t1 c1 :
  m c = (Return a, t1, c1) ->
  bind m k c = (outcome (k a c1), t1 ++ trace (k a c1), clock (k a c1)).
Proof.
  intros H. unfold bind. rewrite H.
  destruct (k a c1) as [[r t2] c2]; reflexivity.
Qed.

(** A step that throws ends the computation. *)
Lemma bind_Throw (m : M A) (k : A -> M B) c e t1 c1 :
  m c = (Throw e, t1, c1) -> bind m k c = (Throw e, t1, c1).
Proof. intros H. unfold bind. rewrite H. reflexivity. Qed.

End MonadFacts.

Section Emits.

Variable S : Event -> Prop.

Lemma emits_ret {A} (a : A) : emits S (ret a).
Proof. intros c; constructor. Qed.

Lemma emits_throw {A} (e : Error) : emits S (@throw A e).
Proof. intros c; constructor. Qed.

Lemma emits_lift {A} (o : Outcome A) : emits S (lift o).
Proof. intros c; constructor. Qed.

Lemma emits_call {A} ev (answer : nat -> Outcome A) :
  S ev -> emits S (call ev answer).
Proof. intros H c; repeat constructor; exact H. Qed.

Lemma emits_bind {A B} (m : M A) (k : A -> M B) :
  emits S m -> (forall a, emits S (k a)) -> emits S (bind m k).
Proof.
  intros Hm Hk c. rewrite trace_bind. apply Forall_app; split; [apply Hm|].
  destruct (outcome (m c)); [apply Hk | constructor].
Qed.

Lemma emits_tryCatch {A} (m : M A) (h : Error -> M A) :
  emits S m -> (forall e, emits S (h e)) -> emits S (tryCatch m h).
Proof.
  intros Hm Hh c. unfold tryCatch, trace.
  specialize (Hm c). unfold trace in Hm.
  destruct (m c) as [[[a|e] t1] c1]; simpl in *; [exact Hm|].
  specialize (Hh e c1). unfold trace in Hh.
  destruct (h e c1) as [[r t2] c2]; simpl in *.
  apply Forall_app; split; assumption.
Qed.

Lemma emits_promise {A} (m : M A) : emits S m -> emits S (promise m).
Proof.
  intros Hm c. specialize (Hm c). unfold promise, trace in *.
  destruct (m c) as [[r t] c']; exact Hm.
Qed.

Lemma emits_mapM {A B} (f : A -> M B) (l : list A) :
  (forall a, emits S (f a)) -> emits S (mapM f l).
Proof.
  intros Hf. induction l as [|a l IH]; simpl.
  - apply emits_ret.
  - apply emits_bind; [apply Hf|]. intros b.
    apply emits_bind; [exact IH|]. intros bs. apply emits_ret.
Qed.

End Emits.

(** Requests rejected by [P] leave no [P]-request in the trace. *)
Lemma emits_filter {A} (P : Event -> bool) (m : M A) c :
  emits (fun e => P e = false) m -> List.filter P (trace (m c)) = [].
Proof.
  intros H. specialize (H c). induction H as [|e t He _ IH]; simpl.
  - reflexivity.
  - rewrite He. exact IH.
Qed.

(** A computation that can send no request has an empty trace. *)
Lemma emits_none {A} (m : M A) c :
  emits (fun _ => False) m -> trace (m c) = [].
Proof. intros H. destruct (H c); [reflexivity | contradiction]. Qed.

(** Splits an [emits] goal along the structure of the node. *)
Ltac emits_step :=
  match goal with
  | |- emits _ (bind _ _) => apply emits_bind; [|intros ?]
  | |- emits _ (tryCatch _ _) => apply emits_tryCatch; [|intros ?]
  | |- emits _ (ret _) => apply emits_ret
  | |- emits _ (throw _) => apply emits_throw
  | |- emits _ (lift _) => apply emits_lift
  | |- emits _ (promise _) => apply emits_promise
  | |- emits _ (mapM _ _) => apply emits_mapM; intros ?
  | |- emits _ (call _ _) => apply emits_call
  | |- emits _ (if ?b then _ else _) => destruct b
  | |- emits _ (match ?x with _ => _ end) => destruct x
  end.

Ltac emits_auto := repeat emits_step; auto.

(** ** The parts of [classifyMessage] and the requests they send *)

Section ClassifyParts.

Variable lib : Lib.
Variable w : World.
Variable state : ManagerGraphState.
Variable config : GraphConfig.

Lemma gatherContext_emits (S : Event -> Prop) :
  (forall h t, S (EvThreadsGet h t)) ->
  (forall i, S (EvGetPlansFromIssue i)) ->
  emits S (gatherContext lib w state config).
Proof.
  intros H1 H2. unfold gatherContext, fetchThreads, fetchIssuePlans.
  emits_auto.
Qed.

Lemma askRouter_emits (S : Event -> Prop) userMessage ctx :
  S EvLoadModel ->
  (forall model, S (routerRequest lib state config userMessage ctx model)) ->
  emits S (askRouter lib w state config userMessage ctx).
Proof. intros H1 H2. unfold askRouter. emits_auto. Qed.

Lemma createIssueForRequest_emits (S : Event -> Prop) userMessage token :
  (forall ms cfg, S (EvCreateIssueFields ms cfg)) ->
  (forall o r t b k, S (EvCreateIssue o r t b k)) ->
  emits S (createIssueForRequest lib w state config userMessage token).
Proof. intros H1 H2. unfold createIssueForRequest. emits_auto. Qed.

Lemma joinComments_emits (S : Event -> Prop) gid route settled :
  emits S (joinComments gid route settled).
Proof.
  induction settled as [|[message [[created|]|e]] rest IH]; simpl.
  - apply emits_ret.
  - destruct (truthy_num (comment_id created)); [|apply emits_throw].
    apply emits_bind; [exact IH|]. intros pushed. apply emits_ret.
  - apply emits_throw.
  - apply emits_throw.
Qed.

Lemma resumePlanner_emits (S : Event -> Prop) plannerStatus client :
  (forall h t g p, S (EvRunsCreate h t g p)) ->
  emits S (resumePlanner lib w state plannerStatus client).
Proof. intros H. unfold resumePlanner. emits_auto. Qed.

Lemma routeToNode_emits (S : Event -> Prop) newMessages gid route :
  emits S (routeToNode newMessages gid route).
Proof. unfold routeToNode. emits_auto. Qed.

(** All comment requests are sent, in the order of the messages, whatever
    the world answers. *)
Lemma sendComments_run gid token notInIssue c :
  sendComments lib w state gid token notInIssue c =
  (Return (commentAnswers lib w state gid token (calls c) notInIssue),
   map (commentRequest lib state gid token) notInIssue,
   {| calls := (calls c + length notInIssue)%nat; uuids := uuids c |}).
Proof.
  unfold sendComments. revert c.
  induction notInIssue as [|message rest IH]; intros c; simpl.
  - unfold ret. destruct c; simpl. rewrite Nat.add_0_r. reflexivity.
  - unfold bind at 1. unfold promise at 1, call at 1. simpl.
    unfold bind at 1. rewrite IH. simpl. unfold ret. simpl.
    rewrite Nat.add_succ_r, app_nil_r. reflexivity.
Qed.

Lemma length_commentAnswers gid token n notInIssue :
  length (commentAnswers lib w state gid token n notInIssue)
  = length notInIssue.
Proof.
  revert n. induction notInIssue as [|m rest IH]; intros n; simpl;
    [reflexivity | rewrite IH; reflexivity].
Qed.

(** The trace of the mirroring step: one comment request per message of
    [messagesNotInIssue], and nothing else. *)
Lemma trace_mirrorMessages route gid token c :
  trace (mirrorMessages lib w state route gid token c)
  = map (commentRequest lib state gid token) (messagesNotInIssue state).
Proof.
  unfold mirrorMessages. rewrite trace_bind.
  rewrite sendComments_run. unfold outcome, trace at 1, clock; simpl.
  rewrite (emits_none _ _ (joinComments_emits _ gid route _)).
  apply app_nil_r.
Qed.

End ClassifyParts.

(** The [P]-requests of [bind m k] are those of [k] when [m] sends none. *)
Lemma filter_trace_bind {A B} (P : Event -> bool) (m : M A) (k : A -> M B) c :
  emits (fun e => P e = false) m ->
  List.filter P (trace (bind m k c)) =
  match outcome (m c) with
  | Return a => List.filter P (trace (k a (clock (m c))))
  | Throw _ => []
  end.
Proof.
  intros H. rewrite trace_bind, List.filter_app, (emits_filter P m c H).
  simpl. destruct (outcome (m c)); reflexivity.
Qed.

(** ** Mirroring selects the messages without the issue tag (C1) *)

Section Mirroring.

Variable lib : Lib.
Variable w : World.
Variable state : ManagerGraphState.
Variable config : GraphConfig.

Lemma filter_commentRequests gid token l :
  List.filter isCreateIssueComment (map (commentRequest lib state gid token) l)
  = map (commentRequest lib state gid token) l.
Proof.
  induction l as [|m l IH]; simpl; [reflexivity | rewrite IH; reflexivity].
Qed.

Lemma comments_mirrorAndResume ctx response route gid token c :
  List.filter isCreateIssueComment
    (trace (mirrorAndResume lib w state ctx response route gid token c))
  = map (commentRequest lib state gid token) (messagesNotInIssue state).
Proof.
  unfold mirrorAndResume.
  rewrite trace_bind, List.filter_app, trace_mirrorMessages,
    filter_commentRequests.
  destruct (outcome _) as [pushed|e]; [|apply app_nil_r].
  rewrite emits_filter; [apply app_nil_r|].
  apply emits_bind; [|intros; apply emits_ret].
  apply resumePlanner_emits. reflexivity.
Qed.

Lemma truthy_issue (o : option Z) :
  truthy_opt truthy_num o = true -> exists g, o = Some g /\ g <> 0.
Proof.
  destruct o as [g|]; simpl; [|discriminate].
  unfold truthy_num. rewrite negb_true_iff, Z.eqb_neq. eauto.
Qed.

Lemma comments_actOnRoute userMessage ctx response route c :
  let comments :=
    List.filter isCreateIssueComment
      (trace (actOnRoute lib w state config userMessage ctx response route c)) in
  comments = [] \/
  exists gid token,
    githubIssueId state = Some gid /\ gid <> 0 /\
    comments = map (commentRequest lib state gid token)
                 (messagesNotInIssue state).
Proof.
  unfold actOnRoute.
  destruct (String.eqb route "no_op"); [left; reflexivity|].
  destruct (String.eqb route "create_new_issue"); [left; reflexivity|].
  destruct (isLocalMode lib config).
  { destruct (_ || _); left; reflexivity. }
  simpl. rewrite filter_trace_bind by apply emits_lift.
  destruct (outcome _) as [tokens|e]; [|left; reflexivity].
  destruct (negb _) eqn:Hid.
  - left. apply emits_filter.
    apply emits_bind; [|intros; apply routeToNode_emits].
    apply createIssueForRequest_emits; reflexivity.
  - apply negb_false_iff, truthy_issue in Hid. destruct Hid as (g & Hg & Hnz).
    destruct (1 <? _)%nat.
    + right. exists g, (githubAccessToken tokens).
      split; [exact Hg|]. split; [exact Hnz|].
      rewrite Hg. apply comments_mirrorAndResume.
    + left. apply emits_filter, routeToNode_emits.
Qed.

Lemma comments_classifyMessage c :
  let comments :=
    List.filter isCreateIssueComment
      (trace (classifyMessage lib w state config c)) in
  comments = [] \/
  exists gid token,
    githubIssueId state = Some gid /\ gid <> 0 /\
    comments = map (commentRequest lib state gid token)
                 (messagesNotInIssue state).
Proof.
  unfold classifyMessage.
  destruct (findLast _ _) as [userMessage|]; [|left; reflexivity].
  unfold classifyFor. simpl.
  rewrite filter_trace_bind
    by (apply gatherContext_emits; reflexivity).
  destruct (outcome _) as [ctx|e]; [|left; reflexivity].
  rewrite filter_trace_bind
    by (apply askRouter_emits; reflexivity).
  destruct (outcome _) as [routed|e]; [|left; reflexivity].
  apply comments_actOnRoute.
Qed.

(** A message is selected only if it is human, in the state, and without a
    truthy [githubIssueId]. *)
Lemma messagesNotInIssue_spec m :
  In m (messagesNotInIssue state) <->
  In m (messages state) /\ isHumanMessage m = true /\
  truthy_opt truthy (kwarg "githubIssueId" m) = false.
Proof.
  unfold messagesNotInIssue. rewrite !List.filter_In, negb_true_iff.
  tauto.
Qed.

(** The copy that replaces a mirrored message carries the issue tag. *)
Lemma mirrored_copy_tagged m gid cid route :
  gid <> 0 ->
  truthy_opt truthy
    (kwarg "githubIssueId" (copyWith m (mirroredKwargs gid cid route))) = true.
Proof.
  intros Hgid. unfold kwarg, copyWith, mirroredKwargs. simpl.
  assert (truthy (JNum gid) = true) as Ht
    by (simpl; unfold truthy_num; apply negb_true_iff, Z.eqb_neq; exact Hgid).
  destruct (String.eqb route "start_planner_for_followup");
    simplify_map_eq; exact Ht.
Qed.

End Mirroring.

(** C1. Mirroring is idempotent on tagged messages.  In any pass of
    [classifyMessage], the comment-creation requests are either none or
    exactly one per message of [messagesNotInIssue], in order, on the issue
    of the state; a message is in [messagesNotInIssue] only if it is a human
    message of the state whose [additional_kwargs] have no truthy
    [githubIssueId], so a message that carries the tag gets no comment; and
    the copy that replaces a mirrored message carries the tag, so the next
    pass does not select it either. *)
Theorem mirroring_skips_tagged_messages
    (lib : Lib) (w : World) (state : ManagerGraphState) (config : GraphConfig)
    (c : Clock) :
  (let comments :=
     List.filter isCreateIssueComment
       (trace (classifyMessage lib w state config c)) in
   comments = [] \/
   exists gid token,
     githubIssueId state = Some gid /\ gid <> 0 /\
     comments = map (commentRequest lib state gid token)
                  (messagesNotInIssue state))
  /\ (forall m,
        In m (messagesNotInIssue state) ->
        In m (messages state) /\ isHumanMessage m = true /\
        truthy_opt truthy (kwarg "githubIssueId" m) = false)
  /\ (forall m,
        truthy_opt truthy (kwarg "githubIssueId" m) = true ->
        ~ In m (messagesNotInIssue state))
  /\ (forall m gid cid route,
        gid <> 0 ->
        truthy_opt truthy
          (kwarg "githubIssueId" (copyWith m (mirroredKwargs gid cid route)))
        = true).
Proof.
  split; [apply comments_classifyMessage|].
  split; [intros m; apply messagesNotInIssue_spec|].
  split.
  - intros m Htag Hin. apply messagesNotInIssue_spec in Hin.
    destruct Hin as (_ & _ & Hno). congruence.
  - intros m gid cid route. apply mirrored_copy_tagged.
Qed.

(** On the example state: only the untagged [m2] is selected. *)
Lemma mirroring_skips_tagged_messages_witness :
  messagesNotInIssue Example.state
  = [Example.human "m2" "Also fix logout" ∅]
  /\ ~ In (Example.human "m1" "Fix the login bug" Example.tagged)
        (messagesNotInIssue Example.state).
Proof.
  split; [reflexivity|].
  exact (proj1 (proj2 (proj2
    (mirroring_skips_tagged_messages Example.lib (Example.world idle "no_op")
       Example.state Example.config start)))
    (Example.human "m1" "Fix the login bug" Example.tagged) eq_refl).
Defined.

(** ** What a node returns *)

Lemma returns_ret {A} (Q : A -> Prop) a : Q a -> returns Q (ret a).
Proof. intros H c a' Ha. inversion Ha; subst; exact H. Qed.

Lemma returns_throw {A} (Q : A -> Prop) e : returns Q (throw e).
Proof. intros c a Ha. discriminate Ha. Qed.

Lemma returns_bind {A B} (Q : B -> Prop) (m : M A) (k : A -> M B) :
  (forall a, returns Q (k a)) -> returns Q (bind m k).
Proof.
  intros Hk c b Hb. rewrite outcome_bind in Hb.
  destruct (outcome (m c)) as [a|e]; [|discriminate].
  exact (Hk a _ b Hb).
Qed.

(** ** The planner thread keeps its identity (C2) *)

Section SessionIdentity.

Variable lib : Lib.
Variable w : World.
Variable state : ManagerGraphState.
Variable config : GraphConfig.

(** [startPlanner], run: the thread is the one of the session when there is
    one, a fresh identifier otherwise. *)
Lemma startPlanner_run c :
  let plannerThreadId :=
    match plannerSession state with
    | Some s => threadId s
    | None => uuid w (uuids c)
    end in
  let c0 :=
    match plannerSession state with
    | Some _ => c
    | None => {| calls := calls c; uuids := Datatypes.S (uuids c) |}
    end in
  let h := headersForRun lib w config c0 in
  startPlanner lib w state config c =
  match outcome h with
  | Return headers =>
      (match runs_create w (calls (clock h)) headers plannerThreadId
               (PLANNER_GRAPH_ID lib) (plannerRunConfig lib state config) with
       | Return run =>
           Return
             {| u_messages := None; u_githubIssueId := None;
                u_targetRepository := None; u_taskPlan := None;
                u_plannerSession :=
                  Some {| threadId := plannerThreadId; runId := run_id run |};
                u_programmerSession := None; u_autoAcceptPlan := None;
                u_branchName := None |}
       | Throw e => Throw e
       end,
       trace h ++
       [EvRunsCreate headers plannerThreadId (PLANNER_GRAPH_ID lib)
          (plannerRunConfig lib state config)],
       {| calls := Datatypes.S (calls (clock h)); uuids := uuids (clock h) |})
  | Throw e => (Throw e, trace h, clock h)
  end.
Proof.
  unfold startPlanner.
  destruct (plannerSession state) as [s|]; simpl.
  - unfold bind at 1. unfold ret at 1. unfold bind at 1.
    destruct (headersForRun lib w config c) as [[[headers|e] t] c1];
      simpl; [|reflexivity].
    unfold tryCatch, bind, call, ret, throw. simpl.
    destruct (runs_create _ _ _ _ _ _) as [run|e];
      simpl; rewrite ?app_nil_r; reflexivity.
  - unfold bind at 1. unfold uuidv4 at 1. unfold bind at 1.
    destruct (headersForRun lib w config _) as [[[headers|e] t] c1];
      simpl; [|reflexivity].
    unfold tryCatch, bind, call, ret, throw. simpl.
    destruct (runs_create _ _ _ _ _ _) as [run|e];
      simpl; rewrite ?app_nil_r; reflexivity.
Qed.

Lemma headersForRun_no_run (S : Event -> Prop) :
  (forall i, S (EvRegenerateInstallationToken i)) ->
  emits S (headersForRun lib w config).
Proof. intros H. unfold headersForRun. emits_auto. Qed.

(** The runs created by [classifyMessage]: none, or a single resume on the
    thread of the planner session. *)
Lemma runs_resumePlanner plannerStatus client c :
  let runs :=
    List.filter isRunsCreate
      (trace (resumePlanner lib w state plannerStatus client c)) in
  runs = [] \/
  exists s h,
    plannerSession state = Some s /\ plannerStatus = interrupted /\
    client = Some h /\
    runs = [EvRunsCreate h (threadId s) (PLANNER_GRAPH_ID lib) resumePayload].
Proof.
  unfold resumePlanner.
  destruct plannerStatus; simpl; try (left; reflexivity).
  destruct (plannerSession state) as [s|]; [|left; reflexivity].
  destruct (truthy_str (threadId s)); [|left; reflexivity].
  destruct client as [h|]; [|left; reflexivity].
  right. exists s, h. repeat split; try reflexivity.
  rewrite trace_bind. unfold call, outcome, trace. simpl.
  destruct (runs_create _ _ _ _ _ _); reflexivity.
Qed.

Lemma runs_mirrorAndResume ctx response route gid token c :
  let runs :=
    List.filter isRunsCreate
      (trace (mirrorAndResume lib w state ctx response route gid token c)) in
  runs = [] \/
  exists s h,
    plannerSession state = Some s /\
    statusOf (plannerThread ctx) = interrupted /\
    langGraphClient ctx = Some h /\
    runs = [EvRunsCreate h (threadId s) (PLANNER_GRAPH_ID lib) resumePayload].
Proof.
  unfold mirrorAndResume. simpl.
  rewrite filter_trace_bind.
  2:{ intros c'. rewrite trace_mirrorMessages.
      apply List.Forall_forall. intros e He. apply List.in_map_iff in He.
      destruct He as (m & <- & _). reflexivity. }
  destruct (outcome _) as [pushed|e]; [|left; reflexivity].
  rewrite trace_bind, List.filter_app.
  destruct (runs_resumePlanner (statusOf (plannerThread ctx))
              (langGraphClient ctx)
              (clock (mirrorMessages lib w state route gid token c)))
    as [Hnil|(s & h & Hs & Hst & Hcl & Hruns)].
  - left. simpl in Hnil. rewrite Hnil. simpl.
    destruct (outcome _); reflexivity.
  - right. exists s, h. repeat split; try assumption.
    simpl in Hruns. rewrite Hruns. simpl.
    destruct (outcome _); reflexivity.
Qed.

Lemma runs_actOnRoute userMessage ctx response route c :
  let runs :=
    List.filter isRunsCreate
      (trace (actOnRoute lib w state config userMessage ctx response route c)) in
  runs = [] \/
  exists s h,
    plannerSession state = Some s /\
    statusOf (plannerThread ctx) = interrupted /\
    langGraphClient ctx = Some h /\
    runs = [EvRunsCreate h (threadId s) (PLANNER_GRAPH_ID lib) resumePayload].
Proof.
  unfold actOnRoute.
  destruct (String.eqb route "no_op"); [left; reflexivity|].
  destruct (String.eqb route "create_new_issue"); [left; reflexivity|].
  destruct (isLocalMode lib config).
  { destruct (_ || _); left; reflexivity. }
  simpl. rewrite filter_trace_bind by apply emits_lift.
  destruct (outcome _) as [tokens|e]; [|left; reflexivity].
  destruct (negb _).
  - left. apply emits_filter.
    apply emits_bind; [|intros; apply routeToNode_emits].
    apply createIssueForRequest_emits; reflexivity.
  - destruct (1 <? _)%nat.
    + apply runs_mirrorAndResume.
    + left. apply emits_filter, routeToNode_emits.
Qed.

Lemma runs_classifyMessage c :
  let runs :=
    List.filter isRunsCreate (trace (classifyMessage lib w state config c)) in
  runs = [] \/
  exists s h,
    plannerSession state = Some s /\
    runs = [EvRunsCreate h (threadId s) (PLANNER_GRAPH_ID lib) resumePayload].
Proof.
  unfold classifyMessage.
  destruct (findLast _ _) as [userMessage|]; [|left; reflexivity].
  unfold classifyFor. simpl.
  rewrite filter_trace_bind by (apply gatherContext_emits; reflexivity).
  destruct (outcome _) as [ctx|e]; [|left; reflexivity].
  rewrite filter_trace_bind by (apply askRouter_emits; reflexivity).
  destruct (outcome _) as [routed|e]; [|left; reflexivity].
  destruct (runs_actOnRoute userMessage ctx (fst routed) (route (snd routed))
              (clock (askRouter lib w state config userMessage ctx
                        (clock (gatherContext lib w state config c)))))
    as [Hnil|(s & h & Hs & _ & _ & Hruns)].
  - left. exact Hnil.
  - right. exists s, h. split; assumption.
Qed.

Lemma resumedSession_thread newPlannerId s' :
  resumedSession state newPlannerId = Some s' ->
  exists s, plannerSession state = Some s /\ threadId s' = threadId s
            /\ newPlannerId = Some (runId s').
Proof.
  unfold resumedSession.
  destruct newPlannerId as [rid|]; [|discriminate].
  destruct (plannerSession state) as [s|]; [|discriminate].
  destruct (_ && _); [|discriminate].
  intros H. inversion H; subst; simpl. eauto.
Qed.

Lemma classifyMessage_keepsThread :
  returns (keepsThread state) (classifyMessage lib w state config).
Proof.
  assert (forall ms n,
            keepsThread state {| update := messagesUpdate ms; goto := n |})
    as Hmsg by (intros ms n s' H; discriminate H).
  assert (forall ms gid r, returns (keepsThread state) (routeToNode ms gid r)) as Hroute.
  { intros ms gid r. unfold routeToNode.
    destruct (_ || _); [apply returns_ret; intros s' H; discriminate H|].
    destruct (_ || _); [apply returns_ret; intros s' H; discriminate H|].
    apply returns_throw. }
  unfold classifyMessage.
  destruct (findLast _ _) as [userMessage|]; [|apply returns_throw].
  unfold classifyFor.
  apply returns_bind; intros ctx. apply returns_bind; intros routed.
  unfold actOnRoute.
  destruct (String.eqb _ "no_op"); [apply returns_ret, Hmsg|].
  destruct (String.eqb _ "create_new_issue"); [apply returns_ret, Hmsg|].
  destruct (isLocalMode lib config).
  { destruct (_ || _); [apply returns_ret, Hmsg | apply returns_throw]. }
  apply returns_bind; intros tokens.
  destruct (negb _).
  { apply returns_bind; intros created. apply Hroute. }
  destruct (1 <? _)%nat; [|apply Hroute].
  unfold mirrorAndResume.
  apply returns_bind; intros pushed. apply returns_bind; intros newPlannerId.
  apply returns_ret. intros s' Hs'. simpl in Hs'.
  apply resumedSession_thread in Hs'. destruct Hs' as (s & Hs & Ht & _).
  eauto.
Qed.

End SessionIdentity.

(** C2. The thread of an existing planner session never changes.  When the
    state has a planner session [s]: [startPlanner] creates its run on
    [threadId s] and, when the run is created, returns the session pointer
    [{ threadId s, run_id }] (it throws exactly when the token regeneration
    or the run creation throws); every run that [classifyMessage] creates is
    a resume on [threadId s]; and a planner session in the delta returned by
    [classifyMessage] has the thread [threadId s].  Without a planner
    session, [startPlanner] draws a fresh identifier for the thread. *)
Theorem planner_thread_unchanged
    (lib : Lib) (w : World) (state : ManagerGraphState) (config : GraphConfig)
    (s : Session) (c : Clock) :
  plannerSession state = Some s ->
  (let h := headersForRun lib w config c in
   startPlanner lib w state config c =
   match outcome h with
   | Return headers =>
       (match runs_create w (calls (clock h)) headers (threadId s)
                (PLANNER_GRAPH_ID lib) (plannerRunConfig lib state config) with
        | Return run =>
            Return
              {| u_messages := None; u_githubIssueId := None;
                 u_targetRepository := None; u_taskPlan := None;
                 u_plannerSession :=
                   Some {| threadId := threadId s; runId := run_id run |};
                 u_programmerSession := None; u_autoAcceptPlan := None;
                 u_branchName := None |}
        | Throw e => Throw e
        end,
        trace h ++
        [EvRunsCreate headers (threadId s) (PLANNER_GRAPH_ID lib)
           (plannerRunConfig lib state config)],
        {| calls := Datatypes.S (calls (clock h)); uuids := uuids (clock h) |})
   | Throw e => (Throw e, trace h, clock h)
   end)
  /\ (let runs :=
        List.filter isRunsCreate
          (trace (classifyMessage lib w state config c)) in
      runs = [] \/
      exists h,
        runs = [EvRunsCreate h (threadId s) (PLANNER_GRAPH_ID lib)
                  resumePayload])
  /\ (forall cmd s',
        outcome (classifyMessage lib w state config c) = Return cmd ->
        u_plannerSession (update cmd) = Some s' ->
        threadId s' = threadId s)
  /\ (forall state' h t g p,
        plannerSession state' = None ->
        In (EvRunsCreate h t g p) (trace (startPlanner lib w state' config c)) ->
        t = uuid w (uuids c)).
Proof.
  intros Hs. split; [|split; [|split]].
  - pose proof (startPlanner_run lib w state config c) as H.
    rewrite Hs in H. exact H.
  - destruct (runs_classifyMessage lib w state config c)
      as [Hnil|(s0 & h & Hs0 & Hruns)]; [left; exact Hnil|].
    right. exists h. rewrite Hs0 in Hs. inversion Hs; subst. exact Hruns.
  - intros cmd s' Hcmd Hs'.
    destruct (classifyMessage_keepsThread lib w state config c cmd Hcmd s' Hs')
      as (s0 & Hs0 & Ht).
    rewrite Hs0 in Hs. inversion Hs; subst. exact Ht.
  - intros state' h t g p Hnone Hin.
    pose proof (startPlanner_run lib w state' config c) as H.
    rewrite Hnone in H. simpl in H. rewrite H in Hin.
    pose proof (headersForRun_no_run lib w config
                  (fun e => isRunsCreate e = false) (fun _ => eq_refl)
                  {| calls := calls c; uuids := Datatypes.S (uuids c) |})
      as Hq.
    rewrite List.Forall_forall in Hq.
    destruct (outcome _) as [headers|e]; unfold trace at 1 in Hin;
      simpl in Hin.
    + apply in_app_or in Hin. destruct Hin as [Hin|[Heq|[]]].
      * apply Hq in Hin. discriminate Hin.
      * inversion Heq; reflexivity.
    + apply Hq in Hin. discriminate Hin.
Qed.

(** On the example state, resumed by the example world. *)
Lemma planner_thread_unchanged_witness :
  plannerSession Example.state
  = Some {| threadId := "planner-thread"; runId := "run-0" |}
  /\ (forall cmd s',
        outcome (classifyMessage Example.lib
                   (Example.world interrupted "update_planner")
                   Example.state Example.config start) = Return cmd ->
        u_plannerSession (update cmd) = Some s' ->
        threadId s' = "planner-thread").
Proof.
  split; [reflexivity|].
  exact (proj1 (proj2 (proj2
    (planner_thread_unchanged Example.lib
       (Example.world interrupted "update_planner") Example.state
       Example.config {| threadId := "planner-thread"; runId := "run-0" |}
       start eq_refl)))).
Defined.

(** ** The latest human message and the single router call (C7, C8) *)

Section Router.

Variable lib : Lib.
Variable w : World.
Variable state : ManagerGraphState.
Variable config : GraphConfig.

Lemma find_app_skip {A} (p : A -> bool) (l1 l2 : list A) :
  existsb p l1 = false -> List.find p (l1 ++ l2) = List.find p l2.
Proof.
  induction l1 as [|x l1 IH]; simpl; [reflexivity|].
  intros H. apply orb_false_iff in H. destruct H as [Hx Hl].
  rewrite Hx. exact (IH Hl).
Qed.

Lemma existsb_rev {A} (p : A -> bool) (l : list A) :
  existsb p (rev l) = existsb p l.
Proof.
  induction l as [|x l IH]; simpl; [reflexivity|].
  rewrite existsb_app, IH. simpl. rewrite orb_false_r. apply orb_comm.
Qed.

Lemma findLast_none {A} (p : A -> bool) (l : list A) :
  existsb p l = false -> findLast p l = None.
Proof.
  intros H. unfold findLast.
  rewrite <- (app_nil_r (rev l)), find_app_skip; [reflexivity|].
  rewrite existsb_rev. exact H.
Qed.

Lemma findLast_last {A} (p : A -> bool) (pre post : list A) x :
  p x = true -> existsb p post = false ->
  findLast p (pre ++ x :: post) = Some x.
Proof.
  intros Hx Hpost. unfold findLast.
  rewrite rev_app_distr. simpl. rewrite <- app_assoc.
  rewrite find_app_skip by (rewrite existsb_rev; exact Hpost).
  simpl. rewrite Hx. reflexivity.
Qed.

Lemma mirrorMessages_emits (S : Event -> Prop) route gid token :
  (forall o r i b k, S (EvCreateIssueComment o r i b k)) ->
  emits S (mirrorMessages lib w state route gid token).
Proof.
  intros H c. rewrite trace_mirrorMessages.
  apply List.Forall_forall. intros e He. apply List.in_map_iff in He.
  destruct He as (m & <- & _). apply H.
Qed.

Lemma actOnRoute_emits (S : Event -> Prop) userMessage ctx response route :
  (forall ms cfg, S (EvCreateIssueFields ms cfg)) ->
  (forall o r t b k, S (EvCreateIssue o r t b k)) ->
  (forall o r i b k, S (EvCreateIssueComment o r i b k)) ->
  (forall h t g p, S (EvRunsCreate h t g p)) ->
  emits S (actOnRoute lib w state config userMessage ctx response route).
Proof.
  intros H1 H2 H3 H4. unfold actOnRoute.
  destruct (String.eqb route "no_op"); [apply emits_ret|].
  destruct (String.eqb route "create_new_issue"); [apply emits_ret|].
  destruct (isLocalMode lib config).
  { destruct (_ || _); [apply emits_ret | apply emits_throw]. }
  apply emits_bind; [apply emits_lift|]. intros tokens.
  destruct (negb _).
  { apply emits_bind; [|intros; apply routeToNode_emits].
    apply createIssueForRequest_emits; assumption. }
  destruct (1 <? _)%nat; [|apply routeToNode_emits].
  unfold mirrorAndResume.
  apply emits_bind; [apply mirrorMessages_emits; assumption|]. intros pushed.
  apply emits_bind; [apply resumePlanner_emits; assumption|]. intros rid.
  apply emits_ret.
Qed.

(** The router requests of the node once the latest human message is
    known: the single request built from that message when the context is
    gathered and the model loaded, none otherwise. *)
Lemma invokes_classifyFor userMessage c :
  List.filter isInvoke (trace (classifyFor lib w state config userMessage c))
  = match outcome (gatherContext lib w state config c) with
    | Return ctx =>
        match loadModel w (calls (clock (gatherContext lib w state config c)))
                config with
        | Return model => [routerRequest lib state config userMessage ctx model]
        | Throw _ => []
        end
    | Throw _ => []
    end.
Proof.
  unfold classifyFor. simpl.
  rewrite filter_trace_bind by (apply gatherContext_emits; reflexivity).
  destruct (outcome (gatherContext lib w state config c)) as [ctx|e];
    [|reflexivity].
  rewrite trace_bind, List.filter_app.
  set (c1 := clock (gatherContext lib w state config c)).
  set (asked := askRouter lib w state config userMessage ctx c1).
  assert (List.filter isInvoke
            match outcome asked with
            | Return a =>
                trace (actOnRoute lib w state config userMessage ctx (fst a)
                         (route (snd a)) (clock asked))
            | Throw _ => []
            end = []) as Hrest.
  { destruct (outcome asked) as [routed|e]; [|reflexivity].
    apply emits_filter, actOnRoute_emits; reflexivity. }
  rewrite Hrest, app_nil_r. subst asked.
  unfold askRouter. cbv zeta. unfold bind, call, trace. simpl.
  destruct (loadModel w (calls c1) config) as [model|e]; [|reflexivity].
  destruct (invoke _ _ _ _ _ _ _) as [response|e]; [|reflexivity].
  destruct (head _); reflexivity.
Qed.

(** The node, run up to a reply of the router that carries no tool call. *)
Lemma classifyFor_no_tool_call userMessage ctx t1 c1 model response c :
  gatherContext lib w state config c = (Return ctx, t1, c1) ->
  loadModel w (calls c1) config = Return model ->
  invoke w (Datatypes.S (calls c1)) model
    (respondAndRouteTool lib (classificationInputs state userMessage ctx))
    (parallel_tool_calls lib config)
    (routerPrompt lib (classificationInputs state userMessage ctx))
    (userContentOf lib userMessage) = Return response ->
  head (tool_calls response) = None ->
  classifyFor lib w state config userMessage c =
  (Throw (Err "No tool call found."),
   t1 ++ [EvLoadModel; routerRequest lib state config userMessage ctx model],
   {| calls := Datatypes.S (Datatypes.S (calls c1)); uuids := uuids c1 |}).
Proof.
  intros Hctx Hmodel Hreply Hnone. unfold classifyFor.
  rewrite (bind_Return _ _ _ _ _ _ Hctx).
  assert (askRouter lib w state config userMessage ctx c1 =
          (Throw (Err "No tool call found."),
           [EvLoadModel; routerRequest lib state config userMessage ctx model],
           {| calls := Datatypes.S (Datatypes.S (calls c1));
              uuids := uuids c1 |})) as Hask.
  { unfold askRouter. cbv zeta. unfold bind at 1, call at 1. rewrite Hmodel.
    unfold bind, call. simpl. rewrite Hreply, Hnone. reflexivity. }
  rewrite (bind_Throw _ _ _ _ _ _ Hask). reflexivity.
Qed.

End Router.

(** C7. Without a human message in the history, [classifyMessage] throws
    "No human message found." before any request is sent and without
    returning a delta.  With one, it runs on the latest human message: the
    node is [classifyFor] of that message, and the content sent to the
    router model is the content of that message. *)
Theorem classification_needs_a_human_message
    (lib : Lib) (w : World) (state : ManagerGraphState) (config : GraphConfig)
    (c : Clock) :
  (existsb isHumanMessage (messages state) = false ->
   classifyMessage lib w state config c
   = (Throw (Err "No human message found."), [], c))
  /\ (forall pre userMessage post,
        messages state = pre ++ userMessage :: post ->
        isHumanMessage userMessage = true ->
        existsb isHumanMessage post = false ->
        classifyMessage lib w state config c
        = classifyFor lib w state config userMessage c
        /\ forall model tool parallel prompt userContent,
             In (EvInvoke model tool parallel prompt userContent)
               (trace (classifyMessage lib w state config c)) ->
             userContent = userContentOf lib userMessage).
Proof.
  split.
  - intros Hnone. unfold classifyMessage.
    rewrite (findLast_none _ _ Hnone). reflexivity.
  - intros pre userMessage post Hms Hhuman Hpost.
    assert (classifyMessage lib w state config c
            = classifyFor lib w state config userMessage c) as Heq.
    { unfold classifyMessage.
      rewrite Hms, (findLast_last _ _ _ _ Hhuman Hpost). reflexivity. }
    split; [exact Heq|].
    intros model tool parallel prompt userContent Hin.
    rewrite Heq in Hin.
    assert (In (EvInvoke model tool parallel prompt userContent)
              (List.filter isInvoke
                 (trace (classifyFor lib w state config userMessage c))))
      as Hf by (apply List.filter_In; split; [exact Hin | reflexivity]).
    rewrite invokes_classifyFor in Hf.
    destruct (outcome _) as [ctx|e]; [|destruct Hf].
    destruct (loadModel _ _ _) as [model'|e]; [|destruct Hf].
    destruct Hf as [Hf|[]].
    unfold routerRequest in Hf. inversion Hf; reflexivity.
Qed.

(** On the example states: a history without human message is refused
    before any request; the other runs on its latest human message. *)
Lemma classification_needs_a_human_message_witness :
  classifyMessage Example.lib (Example.world idle "no_op") Example.unanswered
    Example.config start
  = (Throw (Err "No human message found."), [], start)
  /\ classifyMessage Example.lib (Example.world idle "no_op") Example.state
       Example.config start
     = classifyFor Example.lib (Example.world idle "no_op") Example.state
         Example.config (Example.human "m2" "Also fix logout" ∅) start.
Proof.
  split.
  - exact (proj1 (classification_needs_a_human_message Example.lib
                    (Example.world idle "no_op") Example.unanswered
                    Example.config start) eq_refl).
  - exact (proj1 (proj2 (classification_needs_a_human_message Example.lib
                           (Example.world idle "no_op") Example.state
                           Example.config start)
                    (firstn 2 (messages Example.state))
                    (Example.human "m2" "Also fix logout" ∅) []
                    eq_refl eq_refl eq_refl)).
Defined.

(** C8. The router model is called exactly once in a pass of
    [classifyMessage] that reaches it (there is a human message, the context
    is gathered and the model is loaded) and never otherwise, so at most
    once in any pass; and when its reply carries no tool call the pass
    throws "No tool call found." right after that single call: nothing is
    retried and nothing else is requested. *)
Theorem router_called_once_and_must_choose
    (lib : Lib) (w : World) (state : ManagerGraphState) (config : GraphConfig)
    (c : Clock) :
  (length (List.filter isInvoke (trace (classifyMessage lib w state config c)))
   <= 1)%nat
  /\ (forall userMessage,
        findLast isHumanMessage (messages state) = Some userMessage ->
        List.filter isInvoke (trace (classifyMessage lib w state config c))
        = match outcome (gatherContext lib w state config c) with
          | Return ctx =>
              match loadModel w
                      (calls (clock (gatherContext lib w state config c)))
                      config with
              | Return model =>
                  [routerRequest lib state config userMessage ctx model]
              | Throw _ => []
              end
          | Throw _ => []
          end)
  /\ (forall userMessage ctx t1 c1 model response,
        findLast isHumanMessage (messages state) = Some userMessage ->
        gatherContext lib w state config c = (Return ctx, t1, c1) ->
        loadModel w (calls c1) config = Return model ->
        invoke w (Datatypes.S (calls c1)) model
          (respondAndRouteTool lib (classificationInputs state userMessage ctx))
          (parallel_tool_calls lib config)
          (routerPrompt lib (classificationInputs state userMessage ctx))
          (userContentOf lib userMessage) = Return response ->
        head (tool_calls response) = None ->
        classifyMessage lib w state config c =
        (Throw (Err "No tool call found."),
         t1 ++ [EvLoadModel;
                routerRequest lib state config userMessage ctx model],
         {| calls := Datatypes.S (Datatypes.S (calls c1)); uuids := uuids c1 |})).
Proof.
  split; [|split].
  - unfold classifyMessage.
    destruct (findLast _ _) as [userMessage|]; [|simpl; lia].
    rewrite invokes_classifyFor.
    destruct (outcome _) as [ctx|e]; [|simpl; lia].
    destruct (loadModel _ _ _) as [model|e]; simpl; lia.
  - intros userMessage Hlast. unfold classifyMessage. rewrite Hlast.
    apply invokes_classifyFor.
  - intros userMessage ctx t1 c1 model response Hlast Hctx Hmodel Hreply Hnone.
    unfold classifyMessage. rewrite Hlast.
    eapply classifyFor_no_tool_call; eassumption.
Qed.

(** On the example state, with a router that answers in plain text. *)
Lemma router_called_once_and_must_choose_witness :
  head (tool_calls Example.plainAnswer) = None
  /\ classifyMessage Example.lib Example.mute Example.state Example.config
       start
     = (Throw (Err "No tool call found."),
        Example.contextRequests
        ++ Example.routerRequests Example.state
             (Example.human "m2" "Also fix logout" ∅) idle,
        Example.afterRouter).
Proof.
  split; [reflexivity|].
  exact (proj2 (proj2 (router_called_once_and_must_choose Example.lib
                         Example.mute Example.state Example.config start))
           (Example.human "m2" "Also fix logout" ∅) (Example.gathered idle)
           Example.contextRequests Example.afterContext "router"
           Example.plainAnswer eq_refl eq_refl eq_refl eq_refl eq_refl).
Defined.

(** ** The plan of the issue comes first (C5) *)

Section PlanSource.

Variable lib : Lib.
Variable w : World.
Variable state : ManagerGraphState.
Variable config : GraphConfig.

(** Where the plans of a gathered context come from. *)
Lemma gatherContext_plans c ctx :
  outcome (gatherContext lib w state config c) = Return ctx ->
  (truthy_opt truthy_num (githubIssueId state) = false /\
   issuePlans ctx = None)
  \/ (truthy_opt truthy_num (githubIssueId state) = true /\
      In (EvGetPlansFromIssue (githubIssueId state))
        (trace (gatherContext lib w state config c)) /\
      exists n, getPlansFromIssue w n state config = Return (issuePlans ctx)).
Proof.
  unfold gatherContext. rewrite outcome_bind, trace_bind.
  destruct (outcome (fetchThreads lib w state config c)) as [threads|e];
    [|discriminate].
  set (c1 := clock (fetchThreads lib w state config c)).
  unfold fetchIssuePlans.
  destruct (truthy_opt truthy_num (githubIssueId state)).
  - unfold bind, call, ret, outcome, trace. simpl.
    destruct (getPlansFromIssue w (calls c1) state config) as [plans|e] eqn:Hp;
      simpl; [|discriminate].
    intros H. inversion H; subst; simpl. right.
    split; [reflexivity|]. split; [|eauto].
    apply in_or_app. right. left. reflexivity.
  - unfold bind, ret, outcome. simpl.
    intros H. inversion H; subst; simpl. left. split; reflexivity.
Qed.

(** [initializeGithubIssue] on a state with a human message and an issue:
    the plan of the delta is read from the issue body. *)
Lemma initializeGithubIssue_reads_plan tokens issueNumber issue c :
  isLocalMode lib config = false ->
  getGitHubTokensFromConfig lib config = Return tokens ->
  existsb isHumanMessage (messages state) = true ->
  githubIssueId state = Some issueNumber ->
  issueNumber <> 0 ->
  getIssue w (calls c) (owner (targetRepository state))
    (repo (targetRepository state)) issueNumber
    (githubInstallationToken tokens) = Return (Some issue) ->
  outcome (initializeGithubIssue lib w (received state) config c)
  = Return (taskPlanUpdate None (planFromIssue lib issue (taskPlan state))).
Proof.
  intros Hlocal Htok Hhuman Hid Hnz Hissue.
  unfold initializeGithubIssue, received. simpl.
  rewrite Hlocal, Htok, Hhuman, Hid.
  assert (truthy_num issueNumber = true) as ->
    by (apply negb_true_iff, Z.eqb_neq; exact Hnz).
  assert ((0 <? length (messages state))%nat = true) as ->.
  { destruct (messages state); [discriminate Hhuman|reflexivity]. }
  unfold fetchIssue, bind, lift, call, ret, outcome. simpl.
  rewrite Hissue. reflexivity.
Qed.

End PlanSource.

(** C5. The task plan given to the classifier.  Whenever [classifyMessage]
    calls the router model, the prompt and the tool schema are built from
    classification inputs whose task plan is: the plan of the state when the
    state has no (truthy) issue id; otherwise the plan that
    [getPlansFromIssue] extracted from the issue, and the plan of the state
    only if the issue yields none. *)
Theorem issue_plan_has_priority
    (lib : Lib) (w : World) (state : ManagerGraphState) (config : GraphConfig)
    (c : Clock) (model : string) (tool : Tool) (parallel : option bool)
    (prompt userContent : string) :
  In (EvInvoke model tool parallel prompt userContent)
    (trace (classifyMessage lib w state config c)) ->
  exists inputs,
    prompt = routerPrompt lib inputs /\
    tool = respondAndRouteTool lib inputs /\
    ((truthy_opt truthy_num (githubIssueId state) = false /\
      ci_taskPlan inputs = taskPlan state)
     \/ (truthy_opt truthy_num (githubIssueId state) = true /\
         exists n plans,
           getPlansFromIssue w n state config = Return plans /\
           ci_taskPlan inputs =
           match plans ≫= ip_taskPlan with
           | Some issuePlan => Some issuePlan
           | None => taskPlan state
           end)).
Proof.
  intros Hin.
  assert (In (EvInvoke model tool parallel prompt userContent)
            (List.filter isInvoke
               (trace (classifyMessage lib w state config c)))) as Hf
    by (apply List.filter_In; split; [exact Hin | reflexivity]).
  unfold classifyMessage in Hf.
  destruct (findLast _ _) as [userMessage|]; [|destruct Hf].
  rewrite invokes_classifyFor in Hf.
  destruct (outcome (gatherContext lib w state config c)) as [ctx|e] eqn:Hctx;
    [|destruct Hf].
  destruct (loadModel _ _ _) as [model'|e]; [|destruct Hf].
  destruct Hf as [Hf|[]].
  unfold routerRequest in Hf. inversion Hf; subst.
  exists (classificationInputs state userMessage ctx).
  split; [reflexivity|]. split; [reflexivity|].
  destruct (gatherContext_plans lib w state config c ctx Hctx)
    as [(Hno & Hplans)|(Hyes & _ & n & Hplans)].
  - left. split; [exact Hno|]. simpl. unfold classificationTaskPlan.
    rewrite Hplans. reflexivity.
  - right. split; [exact Hyes|]. exists n, (issuePlans ctx).
    split; [exact Hplans | reflexivity].
Qed.

(** On the example state: the issue holds an edited plan, the state an older
    one, and the prompt is built from the plan of the issue. *)
Lemma issue_plan_has_priority_witness :
  In (EvInvoke "router"
        (respondAndRouteTool Example.lib
           (classificationInputs Example.state
              (Example.human "m2" "Also fix logout" ∅)
              {| plannerThread := Some {| status := interrupted; values := None |};
                 programmerThread := None;
                 langGraphClient := Some (configurable Example.config);
                 issuePlans := Some {| ip_taskPlan := Some Example.issuePlan;
                                       ip_proposedPlan := None |} |}))
        (Some false) "edited in the issue" "Also fix logout")
    (trace (classifyMessage Example.lib
              (Example.world interrupted "update_planner") Example.state
              Example.config start))
  /\ exists inputs,
       "edited in the issue" = routerPrompt Example.lib inputs /\
       ci_taskPlan inputs = Some Example.issuePlan.
Proof.
  assert (In (EvInvoke "router"
        (respondAndRouteTool Example.lib
           (classificationInputs Example.state
              (Example.human "m2" "Also fix logout" ∅)
              {| plannerThread := Some {| status := interrupted; values := None |};
                 programmerThread := None;
                 langGraphClient := Some (configurable Example.config);
                 issuePlans := Some {| ip_taskPlan := Some Example.issuePlan;
                                       ip_proposedPlan := None |} |}))
        (Some false) "edited in the issue" "Also fix logout")
    (trace (classifyMessage Example.lib
              (Example.world interrupted "update_planner") Example.state
              Example.config start))) as Hin
    by (vm_compute; do 3 right; left; reflexivity).
  split; [exact Hin|].
  destruct (issue_plan_has_priority _ _ _ _ _ _ _ _ _ _ Hin)
    as (inputs & Hprompt & _ & [(Hno & _)|(_ & n & plans & Hplans & Hplan)]).
  - discriminate Hno.
  - exists inputs. split; [exact Hprompt|].
    inversion Hplans; subst. exact Hplan.
Defined.

(** ** Forking a conversation leaves the parent alone (C6) *)

Section Fork.

Variable lib : Lib.
Variable w : World.
Variable state : ManagerGraphState.
Variable config : GraphConfig.

(** [createNewSession], run. *)
Lemma createNewSession_run c :
  let fieldsRequest :=
    EvCreateIssueFields (messages state) (configurable config) in
  let after1 := {| calls := Datatypes.S (calls c); uuids := uuids c |} in
  createNewSession lib w state config c =
  match createIssueFieldsFromMessages w (calls c) (messages state)
          (configurable config) with
  | Throw e => (Throw e, [fieldsRequest], after1)
  | Return titleAndContent =>
      match getGitHubTokensFromConfig lib config with
      | Throw e => (Throw e, [fieldsRequest], after1)
      | Return tokens =>
          let issueRequest :=
            EvCreateIssue (owner (targetRepository state))
              (repo (targetRepository state)) (fst titleAndContent)
              (formatContentForIssueBody lib (snd titleAndContent))
              (githubAccessToken tokens) in
          let after2 :=
            {| calls := Datatypes.S (Datatypes.S (calls c));
               uuids := uuids c |} in
          match createIssue w (Datatypes.S (calls c))
                  (owner (targetRepository state))
                  (repo (targetRepository state)) (fst titleAndContent)
                  (formatContentForIssueBody lib (snd titleAndContent))
                  (githubAccessToken tokens) with
          | Throw e => (Throw e, [fieldsRequest; issueRequest], after2)
          | Return None =>
              (Throw (Err "Failed to create new issue"),
               [fieldsRequest; issueRequest], after2)
          | Return (Some newIssue) =>
              let h :=
                headersForRun lib w config
                  {| calls := Datatypes.S (Datatypes.S (calls c));
                     uuids := Datatypes.S (Datatypes.S (uuids c)) |} in
              match outcome h with
              | Throw e =>
                  (Throw e, [fieldsRequest; issueRequest] ++ trace h, clock h)
              | Return headers =>
                  let newManagerThreadId := uuid w (uuids (clock h)) in
                  let runConfig :=
                    newSessionRunConfig lib config
                      (newSessionUpdate lib state config (fst titleAndContent)
                         (snd titleAndContent) newIssue (uuid w (uuids c))
                         (uuid w (Datatypes.S (uuids c)))) in
                  let runRequest :=
                    EvRunsCreate headers newManagerThreadId
                      (MANAGER_GRAPH_ID lib) runConfig in
                  match runs_create w (calls (clock h)) headers
                          newManagerThreadId (MANAGER_GRAPH_ID lib)
                          runConfig with
                  | Throw e =>
                      (Throw e,
                       [fieldsRequest; issueRequest] ++ trace h ++ [runRequest],
                       {| calls := Datatypes.S (calls (clock h));
                          uuids := Datatypes.S (uuids (clock h)) |})
                  | Return run =>
                      (Return
                         (messagesUpdate
                            [newSessionResponse
                               (uuid w (Datatypes.S (uuids (clock h))))
                               newManagerThreadId]),
                       [fieldsRequest; issueRequest] ++ trace h ++ [runRequest],
                       {| calls := Datatypes.S (calls (clock h));
                          uuids :=
                            Datatypes.S (Datatypes.S (uuids (clock h))) |})
                  end
              end
          end
      end
  end.
Proof.
  cbv zeta. unfold createNewSession.
  unfold bind at 1, call at 1.
  destruct (createIssueFieldsFromMessages _ _ _ _) as [titleAndContent|e];
    simpl; [|reflexivity].
  unfold bind at 1, lift at 1.
  destruct (getGitHubTokensFromConfig lib config) as [tokens|e];
    simpl; [|reflexivity].
  unfold bind at 1, call at 1.
  destruct (createIssue _ _ _ _ _ _ _) as [[newIssue|]|e];
    simpl; [|reflexivity|reflexivity].
  unfold bind at 1, uuidv4 at 1. unfold bind at 1, uuidv4 at 1.
  unfold bind at 1. simpl.
  destruct (headersForRun lib w config _) as [[[headers|e] t] c3];
    simpl; [|reflexivity].
  unfold bind, uuidv4, call, ret. simpl.
  destruct (runs_create _ _ _ _ _ _) as [run|e]; simpl;
    rewrite ?app_nil_r; reflexivity.
Qed.

End Fork.

(** C6. The fork returns to the parent only the confirmation reply.  When
    [createNewSession] returns a delta, the delta has a single message, the
    reply that links to the new thread, and no other key: no issue id, no
    session, no task plan, no repository.  The new issue number, the
    repository and the restated history are the state of exactly one run,
    created on that new thread, a freshly drawn identifier, of the manager
    graph, and sent to [start-planner]. *)
Theorem fork_returns_only_the_reply
    (lib : Lib) (w : World) (state : ManagerGraphState) (config : GraphConfig)
    (c : Clock) (u : ManagerGraphUpdate) :
  outcome (createNewSession lib w state config c) = Return u ->
  exists newManagerThreadId headers title body newIssue humanId aiId n,
    onlyReply newManagerThreadId u /\
    newManagerThreadId = uuid w n /\
    List.filter isRunsCreate (trace (createNewSession lib w state config c))
    = [EvRunsCreate headers newManagerThreadId (MANAGER_GRAPH_ID lib)
         (newSessionRunConfig lib config
            (newSessionUpdate lib state config title body newIssue humanId
               aiId))] /\
    In (EvCreateIssue (owner (targetRepository state))
          (repo (targetRepository state)) title
          (formatContentForIssueBody lib body)
          (match getGitHubTokensFromConfig lib config with
           | Return tokens => githubAccessToken tokens
           | Throw _ => ""
           end))
      (trace (createNewSession lib w state config c)).
Proof.
  rewrite createNewSession_run. cbv zeta.
  destruct (createIssueFieldsFromMessages _ _ _ _) as [titleAndContent|e];
    [|discriminate].
  destruct (getGitHubTokensFromConfig lib config) as [tokens|e];
    [|discriminate].
  destruct (createIssue _ _ _ _ _ _ _) as [[newIssue|]|e];
    [|discriminate|discriminate].
  pose proof (emits_filter isRunsCreate (headersForRun lib w config)
                {| calls := Datatypes.S (Datatypes.S (calls c));
                   uuids := Datatypes.S (Datatypes.S (uuids c)) |}
                (headersForRun_no_run lib w config _ (fun _ => eq_refl)))
    as Hq.
  destruct (outcome (headersForRun lib w config _)) as [headers|e];
    [|discriminate].
  destruct (runs_create _ _ _ _ _ _) as [run|e]; [|discriminate].
  unfold outcome, trace at 1 2. simpl. intros H. inversion H; subst.
  eexists _, headers, (fst titleAndContent), (snd titleAndContent), newIssue,
    _, _, _.
  split; [eexists; repeat split|].
  split; [reflexivity|]. split.
  - rewrite List.filter_app, Hq. reflexivity.
  - right. left. reflexivity.
Qed.

(** On the example state: the parent gets the reply, the new thread gets
    issue 8. *)
Lemma fork_returns_only_the_reply_witness :
  outcome (createNewSession Example.lib (Example.world idle "create_new_issue")
             Example.state Example.config start)
  = Return (messagesUpdate [newSessionResponse "uuid-3" "uuid-2"])
  /\ exists newManagerThreadId,
       onlyReply newManagerThreadId
         (messagesUpdate [newSessionResponse "uuid-3" "uuid-2"]).
Proof.
  assert (outcome (createNewSession Example.lib
                     (Example.world idle "create_new_issue")
                     Example.state Example.config start)
          = Return (messagesUpdate [newSessionResponse "uuid-3" "uuid-2"]))
    as Hrun by (vm_compute; reflexivity).
  split; [exact Hrun|].
  destruct (fork_returns_only_the_reply _ _ _ _ _ _ Hrun)
    as (tid & _ & _ & _ & _ & _ & _ & _ & Honly & _).
  exists tid. exact Honly.
Defined.

(** ** Labels and senders the webhook ignores (C9) *)

Section Webhook.

Variable lib : Lib.
Variable w : World.
Variable payload : LabeledPayload.

Lemma truthy_str_true (s : string) : s <> "" -> truthy_str s = true.
Proof.
  intros H. unfold truthy_str. apply negb_true_iff, String.eqb_neq. exact H.
Qed.

(** The [catch] block never throws. *)
Lemma reportError_returns e c :
  outcome (reportError w payload e c) = Return tt.
Proof.
  unfold reportError, tryCatch, outcome.
  destruct (match installation_id payload with _ => _ end c)
    as [[[[]|e'] t] c']; reflexivity.
Qed.

Lemma reportError_emits (S : Event -> Prop) e :
  (forall i, S (EvGetInstallationOctokit i)) ->
  (forall k o r i b, S (EvOctokitPostComment k o r i b)) ->
  emits S (reportError w payload e).
Proof. intros H1 H2. unfold reportError. emits_auto. Qed.

(** With the key configured the handler always returns. *)
Lemma onIssuesLabeled_returns key c :
  SECRETS_ENCRYPTION_KEY w = Some key -> key <> "" ->
  outcome (onIssuesLabeled lib w payload c) = Return tt.
Proof.
  intros Hkey Hne. unfold onIssuesLabeled.
  rewrite Hkey, (truthy_str_true _ Hne). simpl.
  destruct (notOpenSWELabel lib payload); [reflexivity|].
  unfold tryCatch, outcome.
  destruct (processLabel _ _ _ _ _ _ c) as [[[[]|e] t] c1]; [reflexivity|].
  pose proof (reportError_returns e c1) as H. unfold outcome in H.
  destruct (reportError w payload e c1) as [[r t2] c2]. exact H.
Qed.

(** What the [try] block does for a sender who is not allowed: the two
    installation requests, and nothing else. *)
Lemma processLabel_not_allowed key auto max c :
  isAllowedUser lib (sender_login payload) = false ->
  match installation_id payload with
  | Some installationId =>
      if truthy_num installationId then
        trace (processLabel lib w payload key auto max c)
        = [EvGetInstallationOctokit installationId;
           EvGetInstallationAccessToken installationId]
        /\ outcome (processLabel lib w payload key auto max c)
           = match getInstallationOctokit w (calls c) installationId with
             | Return _ =>
                 match getInstallationAccessToken w (Datatypes.S (calls c))
                         installationId with
                 | Return _ => Return tt
                 | Throw e => Throw e
                 end
             | Throw e => Throw e
             end
      else processLabel lib w payload key auto max c = (Return tt, [], c)
  | None => processLabel lib w payload key auto max c = (Return tt, [], c)
  end.
Proof.
  intros Hallowed. unfold processLabel.
  destruct (installation_id payload) as [installationId|]; [|reflexivity].
  destruct (truthy_num installationId); simpl; [|reflexivity].
  unfold bind, promise, call, lift, trace, outcome. simpl.
  rewrite Hallowed. simpl.
  destruct (getInstallationOctokit w (calls c) installationId);
    destruct (getInstallationAccessToken w (Datatypes.S (calls c))
                installationId); simpl; split; reflexivity.
Qed.

End Webhook.

(** The path on which ignored events are dropped in silence.  With the
    encryption key configured: an event whose label is not one of the four
    Open SWE labels is dropped before any request is sent; an event whose
    sender is not allowed starts no run and raises no error, and it creates
    no comment on the issue when the installation client and token are
    obtained (or the payload has no installation id). *)
Theorem ignored_events_start_nothing
    (lib : Lib) (w : World) (payload : LabeledPayload) (key : string)
    (c : Clock) :
  SECRETS_ENCRYPTION_KEY w = Some key ->
  key <> "" ->
  (notOpenSWELabel lib payload = true ->
   onIssuesLabeled lib w payload c = (Return tt, [], c))
  /\ (isAllowedUser lib (sender_login payload) = false ->
      outcome (onIssuesLabeled lib w payload c) = Return tt /\
      List.filter isRunsCreate (trace (onIssuesLabeled lib w payload c)) = [] /\
      (match installation_id payload with
       | Some installationId =>
           truthy_num installationId = false \/
           exists octokit token,
             getInstallationOctokit w (calls c) installationId
             = Return octokit /\
             getInstallationAccessToken w (Datatypes.S (calls c))
               installationId = Return token
       | None => True
       end ->
       List.filter isOctokitPostComment
         (trace (onIssuesLabeled lib w payload c)) = [])).
Proof.
  intros Hkey Hne. split.
  - intros Hlabel. unfold onIssuesLabeled.
    rewrite Hkey, (truthy_str_true _ Hne), Hlabel. reflexivity.
  - intros Hallowed.
    split; [exact (onIssuesLabeled_returns lib w payload key c Hkey Hne)|].
    unfold onIssuesLabeled. rewrite Hkey, (truthy_str_true _ Hne). simpl.
    destruct (notOpenSWELabel lib payload); [split; reflexivity|].
    set (auto := _ || _). set (max := _ || _).
    pose proof (processLabel_not_allowed lib w payload key auto max c Hallowed)
      as Hrun.
    assert (forall P : Event -> bool,
              P (EvGetInstallationOctokit 0) = false ->
              (forall i, P (EvGetInstallationOctokit i) = false) ->
              (forall i, P (EvGetInstallationAccessToken i) = false) ->
              (outcome (processLabel lib w payload key auto max c) = Return tt
               \/ forall k o r i b, P (EvOctokitPostComment k o r i b) = false) ->
              List.filter P
                (trace (tryCatch (processLabel lib w payload key auto max)
                          (reportError w payload) c)) = []) as Hquiet.
    { intros P _ Ho Ht Hcase.
      assert (List.filter P (trace (processLabel lib w payload key auto max c))
              = []) as Hq.
      { destruct (installation_id payload) as [installationId|].
        - destruct (truthy_num installationId).
          + destruct Hrun as [-> _]. simpl. rewrite Ho, Ht. reflexivity.
          + rewrite Hrun. reflexivity.
        - rewrite Hrun. reflexivity. }
      unfold tryCatch, trace, outcome in *.
      destruct (processLabel lib w payload key auto max c)
        as [[[[]|e] t] c1]; simpl in *; [exact Hq|].
      destruct Hcase as [Hcase|Hcase]; [discriminate Hcase|].
      pose proof (emits_filter P (reportError w payload e) c1
                    (reportError_emits w payload _ e Ho Hcase)) as Hr.
      unfold trace in Hr.
      destruct (reportError w payload e c1) as [[r t2] c2]; simpl in *.
      rewrite List.filter_app, Hq, Hr. reflexivity. }
    split.
    + apply Hquiet; try reflexivity. right. reflexivity.
    + intros Hauth. apply Hquiet; try reflexivity. left.
      destruct (installation_id payload) as [installationId|].
      * destruct (truthy_num installationId).
        -- destruct Hauth as [Hf|(octokit & token & Ho & Ht)];
             [discriminate Hf|].
           destruct Hrun as [_ ->]. rewrite Ho, Ht. reflexivity.
        -- rewrite Hrun. reflexivity.
      * rewrite Hrun. reflexivity.
Qed.

(** On the example deployment, a label put by [mallory], who is not
    allowed: two installation requests and nothing else. *)
Lemma ignored_events_start_nothing_witness :
  SECRETS_ENCRYPTION_KEY (Example.world idle "no_op") = Some "key"
  /\ "key" <> ""
  /\ isAllowedUser Example.lib (sender_login (Example.labeled "mallory")) = false
  /\ List.filter isRunsCreate
       (trace (onIssuesLabeled Example.lib (Example.world idle "no_op")
                 (Example.labeled "mallory") start)) = []
  /\ List.filter isOctokitPostComment
       (trace (onIssuesLabeled Example.lib (Example.world idle "no_op")
                 (Example.labeled "mallory") start)) = [].
Proof.
  assert ("key" <> "") as Hne by discriminate.
  split; [reflexivity|]. split; [exact Hne|]. split; [reflexivity|].
  destruct (proj2 (ignored_events_start_nothing Example.lib
                     (Example.world idle "no_op") (Example.labeled "mallory")
                     "key" start eq_refl Hne) eq_refl)
    as (_ & Hruns & Hcomments).
  split; [exact Hruns|].
  apply Hcomments. right. exists "octokit", "installation-token".
  split; reflexivity.
Defined.

(** C9.  The handler at the failing input.  [mallory], who is not on the
    allow-list, labels issue 7 while the installation token cannot be
    obtained: the handler posts its error comment on the issue, although
    the sender is not allowed.  The same event with the token service up is
    dropped without a comment: the allow-list is tested only after the
    token is obtained, inside the block whose failures are reported on the
    issue. *)
Lemma ignored_events_counterexample :
  isAllowedUser Example.lib (sender_login (Example.labeled "mallory")) = false
  /\ List.filter isOctokitPostComment
       (trace (onIssuesLabeled Example.lib Example.tokenOutage
                 (Example.labeled "mallory") start))
     = [EvOctokitPostComment "octokit" "acme" "shop" 7
          (errorComment (Err "token service unavailable"))]
  /\ List.filter isOctokitPostComment
       (trace (onIssuesLabeled Example.lib (Example.world idle "no_op")
                 (Example.labeled "mallory") start))
     = [].
Proof. repeat split; vm_compute; reflexivity. Qed.

(** ** The branch that mirrors and resumes (C3, C4, C10) *)

Section MirrorAndResume.

Variable lib : Lib.
Variable w : World.
Variable state : ManagerGraphState.
Variable config : GraphConfig.

(** The node, run up to the answer of the router. *)
Lemma classifyMessage_routed c userMessage ctx t1 c1 response toolCallArgs t2 c2 :
  findLast isHumanMessage (messages state) = Some userMessage ->
  gatherContext lib w state config c = (Return ctx, t1, c1) ->
  askRouter lib w state config userMessage ctx c1
  = (Return (response, toolCallArgs), t2, c2) ->
  let r :=
    actOnRoute lib w state config userMessage ctx response
      (route toolCallArgs) c2 in
  classifyMessage lib w state config c
  = (outcome r, t1 ++ t2 ++ trace r, clock r).
Proof.
  intros Hlast Hctx Hask. cbv zeta. unfold classifyMessage, classifyFor.
  rewrite Hlast, (bind_Return _ _ _ _ _ _ Hctx).
  rewrite (bind_Return _ _ _ _ _ _ Hask). unfold outcome, trace, clock.
  simpl. rewrite app_assoc. reflexivity.
Qed.

(** A planner thread was fetched only outside local mode, for a session
    with a truthy thread id, through the client of the configuration. *)
Lemma fetchThreads_planner c threads :
  outcome (fetchThreads lib w state config c) = Return threads ->
  fst (fst threads) <> None ->
  isLocalMode lib config = false /\
  snd threads = Some (getDefaultHeaders lib config) /\
  exists s, plannerSession state = Some s /\ truthy_str (threadId s) = true.
Proof.
  unfold fetchThreads.
  destruct (isLocalMode lib config); simpl.
  { unfold ret, outcome. simpl. intros H. inversion H; subst. simpl.
    congruence. }
  rewrite outcome_bind.
  destruct (plannerSession state) as [s|].
  - destruct (truthy_str (threadId s)) eqn:Htid.
    + intros Hout _. repeat split; [|eauto].
      destruct (outcome _) as [plannerThread|e]; [|discriminate].
      rewrite outcome_bind in Hout.
      destruct (outcome _) as [programmerThread|e]; [|discriminate].
      unfold ret, outcome in Hout. simpl in Hout. inversion Hout; reflexivity.
    + unfold ret at 1, outcome at 1. simpl. rewrite outcome_bind.
      unfold ret at 1, outcome at 1. simpl.
      unfold ret, outcome. simpl. intros H. inversion H; subst. simpl.
      congruence.
  - unfold ret at 1, outcome at 1. simpl. rewrite outcome_bind.
    unfold ret at 1, outcome at 1. simpl.
    unfold ret, outcome. simpl. intros H. inversion H; subst. simpl.
    congruence.
Qed.

Lemma gatherContext_interrupted c ctx :
  outcome (gatherContext lib w state config c) = Return ctx ->
  statusOf (plannerThread ctx) = interrupted ->
  isLocalMode lib config = false /\
  langGraphClient ctx = Some (getDefaultHeaders lib config) /\
  exists s, plannerSession state = Some s /\ truthy_str (threadId s) = true.
Proof.
  unfold gatherContext. rewrite outcome_bind.
  destruct (outcome (fetchThreads lib w state config c)) as [threads|e] eqn:Hth;
    [|discriminate].
  rewrite outcome_bind.
  destruct (outcome (fetchIssuePlans w state config _)) as [plans|e];
    [|discriminate].
  unfold ret, outcome at 1. simpl. intros H. inversion H; subst. simpl.
  intros Hst. apply (fetchThreads_planner c threads Hth).
  destruct (fst (fst threads)); [discriminate | discriminate Hst].
Qed.

(** With an issue, outside local mode, for a route that is neither [no_op]
    nor [create_new_issue]: the number of human messages decides. *)
Lemma actOnRoute_with_issue userMessage ctx response route tokens gid c :
  route <> "no_op" ->
  route <> "create_new_issue" ->
  isLocalMode lib config = false ->
  getGitHubTokensFromConfig lib config = Return tokens ->
  githubIssueId state = Some gid ->
  gid <> 0 ->
  actOnRoute lib w state config userMessage ctx response route c =
  if (1 <? length (List.filter isHumanMessage (messages state)))%nat
  then mirrorAndResume lib w state ctx response route gid
         (githubAccessToken tokens) c
  else routeToNode [response] (Some gid) route c.
Proof.
  intros Hnoop Hnew Hlocal Htokens Hgid Hnz. unfold actOnRoute.
  apply String.eqb_neq in Hnoop, Hnew. rewrite Hnoop, Hnew, Hlocal, Htokens, Hgid.
  assert (truthy_num gid = true) as Ht
    by (apply negb_true_iff, Z.eqb_neq; exact Hnz).
  unfold bind, lift. simpl. rewrite Ht. simpl.
  destruct (1 <? _)%nat.
  - destruct (mirrorAndResume _ _ _ _ _ _ _ _ c) as [[r t] c']. reflexivity.
  - destruct (routeToNode _ _ _ c) as [[r t] c']. reflexivity.
Qed.

Lemma joinComments_run gid route settled c :
  Forall (fun mo => createdId (snd mo) <> None) settled ->
  joinComments gid route settled c
  = (Return (pushedMessages gid route settled), [], c).
Proof.
  intros Hall. induction Hall as [|[message o] rest Ho _ IH]; [reflexivity|].
  simpl in Ho. unfold pushedMessages. simpl. unfold replacement at 1. simpl.
  destruct o as [[created|]|e]; simpl in *; try congruence.
  destruct (truthy_num (comment_id created)); [|congruence].
  unfold bind. rewrite IH. reflexivity.
Qed.

Lemma Forall_combine_created (ms : list BaseMessage)
    (answers : list (Outcome (option IssueComment))) :
  Forall (fun o => createdId o <> None) answers ->
  Forall (fun mo => createdId (snd mo) <> None) (combine ms answers).
Proof.
  intros H. apply List.Forall_forall. intros [m o] Hin.
  apply in_combine_r in Hin. rewrite List.Forall_forall in H.
  exact (H o Hin).
Qed.

(** The mirroring step when every comment is created. *)
Lemma mirrorMessages_run route gid token c :
  let answers :=
    commentAnswers lib w state gid token (calls c) (messagesNotInIssue state) in
  let settled := settle w (combine (messagesNotInIssue state) answers) in
  Forall (fun o => createdId o <> None) answers ->
  Permutation settled (combine (messagesNotInIssue state) answers) ->
  mirrorMessages lib w state route gid token c
  = (Return (pushedMessages gid route settled),
     map (commentRequest lib state gid token) (messagesNotInIssue state),
     {| calls := (calls c + length (messagesNotInIssue state))%nat;
        uuids := uuids c |}).
Proof.
  intros answers settled Hall Hperm. unfold mirrorMessages.
  rewrite (bind_Return _ _ _ _ _ _ (sendComments_run lib w state gid token _ c)).
  fold answers. fold settled.
  rewrite joinComments_run.
  - unfold outcome, trace, clock. simpl. rewrite app_nil_r. reflexivity.
  - apply (Permutation_Forall (Permutation_sym Hperm)).
    apply Forall_combine_created. exact Hall.
Qed.

Lemma resumePlanner_not_interrupted plannerStatus client c :
  plannerStatus <> interrupted ->
  resumePlanner lib w state plannerStatus client c = (Return None, [], c).
Proof.
  intros H. unfold resumePlanner.
  destruct plannerStatus; simpl; try reflexivity. congruence.
Qed.

Lemma resumePlanner_interrupted s client run c :
  plannerSession state = Some s ->
  truthy_str (threadId s) = true ->
  runs_create w (calls c) client (threadId s) (PLANNER_GRAPH_ID lib)
    resumePayload = Return run ->
  resumePlanner lib w state interrupted (Some client) c
  = (Return (Some (run_id run)),
     [EvRunsCreate client (threadId s) (PLANNER_GRAPH_ID lib) resumePayload],
     {| calls := Datatypes.S (calls c); uuids := uuids c |}).
Proof.
  intros Hs Htid Hrun. unfold resumePlanner. simpl. rewrite Hs, Htid.
  unfold bind, call, ret. rewrite Hrun. reflexivity.
Qed.

(** What the replaced messages are, whatever the order of settlement. *)
Lemma pushedMessages_In gid route settled l m o cid :
  Permutation settled l ->
  In (m, o) l ->
  createdId o = Some cid ->
  In (RemoveMessage (idOrEmpty m)) (pushedMessages gid route settled) /\
  In (copyWith m (mirroredKwargs gid cid route))
    (pushedMessages gid route settled).
Proof.
  intros Hperm Hin Hcid.
  apply (Permutation_in _ (Permutation_sym Hperm)) in Hin.
  unfold pushedMessages.
  split; apply in_flat_map; exists (m, o); (split; [exact Hin|]);
    unfold replacement; simpl; rewrite Hcid; simpl; auto.
Qed.

Lemma length_pushedMessages gid route settled :
  Forall (fun mo => createdId (snd mo) <> None) settled ->
  length (pushedMessages gid route settled) = (2 * length settled)%nat.
Proof.
  intros Hall. induction Hall as [|mo rest Ho _ IH]; [reflexivity|].
  unfold pushedMessages in *. simpl. rewrite length_app, IH.
  unfold replacement. destruct (createdId (snd mo)); [simpl; lia|congruence].
Qed.

Lemma commentAnswers_nth gid token n ms i m :
  nth_error ms i = Some m ->
  In (m, createIssueComment w (n + i) (owner (targetRepository state))
           (repo (targetRepository state)) gid
           (getMessageContentString lib (content (fields m))) token)
    (combine ms (commentAnswers lib w state gid token n ms)).
Proof.
  revert n i. induction ms as [|m0 ms IH]; intros n i Hi.
  - destruct i; discriminate Hi.
  - destruct i as [|i]; simpl in *.
    + inversion Hi; subst. left. rewrite Nat.add_0_r. reflexivity.
    + right. rewrite Nat.add_succ_r. exact (IH (Datatypes.S n) i Hi).
Qed.

Lemma createdId_Some o cid :
  createdId o = Some cid ->
  exists created, o = Return (Some created) /\ comment_id created = cid
                  /\ truthy_num cid = true.
Proof.
  destruct o as [[created|]|e]; simpl; try discriminate.
  destruct (truthy_num (comment_id created)) eqn:Ht; [|discriminate].
  intros H. inversion H; subst. eauto.
Qed.

End MirrorAndResume.

Lemma returns_bind_with {A B} (P : A -> Prop) (Q : B -> Prop)
    (m : M A) (k : A -> M B) :
  returns P m -> (forall a, P a -> returns Q (k a)) -> returns Q (bind m k).
Proof.
  intros Hm Hk c b Hb. rewrite outcome_bind in Hb.
  destruct (outcome (m c)) as [a|e] eqn:Ha; [|discriminate].
  exact (Hk a (Hm c a Ha) _ b Hb).
Qed.

Section Routed.

Variable lib : Lib.
Variable w : World.
Variable state : ManagerGraphState.
Variable config : GraphConfig.
Variables (c c1 c2 : Clock) (t1 t2 : list Event).
Variables (userMessage response : BaseMessage).
Variable ctx : Context.
Variable toolCallArgs : ToolCallArgs.

Hypothesis Hlast :
  findLast isHumanMessage (messages state) = Some userMessage.
Hypothesis Hctx : gatherContext lib w state config c = (Return ctx, t1, c1).
Hypothesis Hask :
  askRouter lib w state config userMessage ctx c1
  = (Return (response, toolCallArgs), t2, c2).

(** Requests that neither the context nor the router phase can send are
    those of the last phase. *)
Lemma filter_classifyMessage_routed (P : Event -> bool) :
  (forall h t, P (EvThreadsGet h t) = false) ->
  (forall i, P (EvGetPlansFromIssue i) = false) ->
  P EvLoadModel = false ->
  (forall m t p q u, P (EvInvoke m t p q u) = false) ->
  List.filter P (trace (classifyMessage lib w state config c))
  = List.filter P
      (trace (actOnRoute lib w state config userMessage ctx response
                (route toolCallArgs) c2)).
Proof.
  intros H1 H2 H3 H4.
  rewrite (classifyMessage_routed lib w state config c _ _ _ _ _ _ _ _
             Hlast Hctx Hask).
  unfold trace at 1. simpl. rewrite !List.filter_app.
  pose proof (emits_filter P (gatherContext lib w state config) c
                (gatherContext_emits lib w state config _ H1 H2)) as Hq1.
  rewrite Hctx in Hq1. unfold trace in Hq1. simpl in Hq1.
  pose proof (emits_filter P (askRouter lib w state config userMessage ctx) c1
                (askRouter_emits lib w state config _ userMessage ctx H3
                   (fun model => H4 _ _ _ _ _))) as Hq2.
  rewrite Hask in Hq2. unfold trace in Hq2. simpl in Hq2.
  rewrite Hq1, Hq2. reflexivity.
Qed.

(** The node, run through the mirroring step when every comment is
    created. *)
Lemma classifyMessage_mirror_run tokens gid :
  route toolCallArgs <> "no_op" ->
  route toolCallArgs <> "create_new_issue" ->
  isLocalMode lib config = false ->
  getGitHubTokensFromConfig lib config = Return tokens ->
  githubIssueId state = Some gid ->
  gid <> 0 ->
  (1 < length (List.filter isHumanMessage (messages state)))%nat ->
  let token := githubAccessToken tokens in
  let answers :=
    commentAnswers lib w state gid token (calls c2) (messagesNotInIssue state) in
  let settled := settle w (combine (messagesNotInIssue state) answers) in
  Forall (fun o => createdId o <> None) answers ->
  Permutation settled (combine (messagesNotInIssue state) answers) ->
  let r :=
    resumePlanner lib w state (statusOf (plannerThread ctx))
      (langGraphClient ctx)
      {| calls := (calls c2 + length (messagesNotInIssue state))%nat;
         uuids := uuids c2 |} in
  classifyMessage lib w state config c =
  (match outcome r with
   | Return newPlannerId =>
       Return (mirroredCommand state
                 (response :: pushedMessages gid (route toolCallArgs) settled)
                 newPlannerId (route toolCallArgs))
   | Throw e => Throw e
   end,
   t1 ++ t2 ++ map (commentRequest lib state gid token)
                 (messagesNotInIssue state) ++ trace r,
   clock r).
Proof.
  intros Hnoop Hnew Hlocal Htokens Hgid Hnz Hmany token answers settled
    Hall Hperm r.
  rewrite (classifyMessage_routed lib w state config c _ _ _ _ _ _ _ _
             Hlast Hctx Hask). cbv zeta.
  rewrite (actOnRoute_with_issue lib w state config userMessage ctx response
             _ tokens gid c2 Hnoop Hnew Hlocal Htokens Hgid Hnz).
  apply Nat.ltb_lt in Hmany. rewrite Hmany.
  unfold mirrorAndResume.
  rewrite (bind_Return _ _ _ _ _ _
             (mirrorMessages_run lib w state (route toolCallArgs) gid token c2
                Hall Hperm)).
  subst r answers settled token.
  unfold bind, ret, outcome, trace, clock. simpl.
  destruct (resumePlanner _ _ _ _ _ _) as [[[newPlannerId|e] t] c']; simpl;
    rewrite ?app_nil_r; reflexivity.
Qed.

End Routed.

(** ** Mirroring replaces the untagged messages (C4) *)

(** C4, as the code has it.  When the state has an issue and more than one
    human message, outside local mode, and the router chose a route other
    than [no_op] and [create_new_issue]: exactly one comment is requested
    for each human message without the tag, on the issue of the state; and
    when every comment is created, the returned messages are the reply
    followed, for each such message, by the removal of the untagged entry
    and a copy tagged with the issue and the id of its comment (in the order
    in which the comments settle).  The node returns them unless a resume of
    the planner throws. *)
Theorem mirroring_replaces_untagged_messages
    (lib : Lib) (w : World) (state : ManagerGraphState) (config : GraphConfig)
    (c c1 c2 : Clock) (t1 t2 : list Event)
    (userMessage response : BaseMessage) (ctx : Context)
    (toolCallArgs : ToolCallArgs) (tokens : Tokens) (gid : Z) :
  findLast isHumanMessage (messages state) = Some userMessage ->
  gatherContext lib w state config c = (Return ctx, t1, c1) ->
  askRouter lib w state config userMessage ctx c1
  = (Return (response, toolCallArgs), t2, c2) ->
  route toolCallArgs <> "no_op" ->
  route toolCallArgs <> "create_new_issue" ->
  isLocalMode lib config = false ->
  getGitHubTokensFromConfig lib config = Return tokens ->
  githubIssueId state = Some gid ->
  gid <> 0 ->
  (1 < length (List.filter isHumanMessage (messages state)))%nat ->
  let token := githubAccessToken tokens in
  let answers :=
    commentAnswers lib w state gid token (calls c2) (messagesNotInIssue state) in
  let settled := settle w (combine (messagesNotInIssue state) answers) in
  let pushed := pushedMessages gid (route toolCallArgs) settled in
  List.filter isCreateIssueComment
    (trace (classifyMessage lib w state config c))
  = map (commentRequest lib state gid token) (messagesNotInIssue state)
  /\ (Forall (fun o => createdId o <> None) answers ->
      Permutation settled (combine (messagesNotInIssue state) answers) ->
      (forall cmd,
         outcome (classifyMessage lib w state config c) = Return cmd ->
         u_messages (update cmd) = Some (response :: pushed))
      /\ (statusOf (plannerThread ctx) <> interrupted ->
          outcome (classifyMessage lib w state config c)
          = Return (mirroredCommand state (response :: pushed) None
                      (route toolCallArgs)))
      /\ length pushed = (2 * length (messagesNotInIssue state))%nat
      /\ (forall i message,
            nth_error (messagesNotInIssue state) i = Some message ->
            exists created,
              createIssueComment w (calls c2 + i)
                (owner (targetRepository state))
                (repo (targetRepository state)) gid
                (getMessageContentString lib (content (fields message)))
                token = Return (Some created) /\
              In (RemoveMessage (idOrEmpty message)) pushed /\
              In (copyWith message
                    (mirroredKwargs gid (comment_id created)
                       (route toolCallArgs))) pushed)).
Proof.
  intros Hlast Hctx Hask Hnoop Hnew Hlocal Htokens Hgid Hnz Hmany
    token answers settled pushed.
  split.
  - rewrite (filter_classifyMessage_routed lib w state config c c1 c2 t1 t2
               userMessage response ctx toolCallArgs Hlast Hctx Hask)
      by reflexivity.
    rewrite (actOnRoute_with_issue lib w state config userMessage ctx response
               _ tokens gid c2 Hnoop Hnew Hlocal Htokens Hgid Hnz).
    apply Nat.ltb_lt in Hmany. rewrite Hmany.
    apply comments_mirrorAndResume.
  - intros Hall Hperm.
    pose proof (classifyMessage_mirror_run lib w state config c c1 c2 t1 t2
                  userMessage response ctx toolCallArgs Hlast Hctx Hask
                  tokens gid Hnoop Hnew Hlocal Htokens Hgid Hnz Hmany
                  Hall Hperm) as Hrun.
    cbv zeta in Hrun. fold token answers settled pushed in Hrun.
    split; [|split; [|split]].
    + intros cmd. rewrite Hrun. unfold outcome at 1. simpl.
      destruct (outcome _) as [newPlannerId|e]; [|discriminate].
      intros H. inversion H; reflexivity.
    + intros Hst. rewrite Hrun.
      rewrite (resumePlanner_not_interrupted lib w state _ _ _ Hst).
      reflexivity.
    + unfold pushed. rewrite length_pushedMessages.
      * rewrite (Permutation_length Hperm), length_combine.
        unfold answers. rewrite length_commentAnswers. lia.
      * apply (Permutation_Forall (Permutation_sym Hperm)).
        apply Forall_combine_created. exact Hall.
    + intros i message Hi.
      pose proof (commentAnswers_nth lib w state gid token (calls c2) _ i
                    message Hi) as Hin.
      fold answers in Hin.
      assert (createdId
                (createIssueComment w (calls c2 + i)
                   (owner (targetRepository state))
                   (repo (targetRepository state)) gid
                   (getMessageContentString lib (content (fields message)))
                   token) <> None) as Hsome.
      { rewrite List.Forall_forall in Hall. apply Hall.
        exact (in_combine_r _ _ _ _ Hin). }
      destruct (createdId _) as [cid|] eqn:Hcid; [|congruence].
      destruct (createdId_Some _ _ Hcid) as (created & Hcreated & Hid & _).
      exists created. split; [exact Hcreated|]. rewrite Hid.
      exact (pushedMessages_In gid (route toolCallArgs) settled _ message _
               cid Hperm Hin Hcid).
Qed.

(** On the example state: message [m2] is mirrored as comment 104. *)
Lemma mirroring_replaces_untagged_messages_witness :
  findLast isHumanMessage (messages Example.state)
  = Some (Example.human "m2" "Also fix logout" ∅)
  /\ githubIssueId Example.state = Some 7
  /\ (1 < length (List.filter isHumanMessage (messages Example.state)))%nat
  /\ List.filter isCreateIssueComment
       (trace (classifyMessage Example.lib (Example.world idle "update_planner")
                 Example.state Example.config start))
     = [EvCreateIssueComment "acme" "shop" 7 "Also fix logout" "user-token"]
  /\ outcome (classifyMessage Example.lib (Example.world idle "update_planner")
                Example.state Example.config start)
     = Return (mirroredCommand Example.state
                 [ Example.reply "update_planner";
                   RemoveMessage "m2";
                   copyWith (Example.human "m2" "Also fix logout" ∅)
                     (mirroredKwargs 7 104 "update_planner") ]
                 None "update_planner").
Proof.
  assert (7 <> 0) as Hnz by discriminate.
  assert ("update_planner" <> "no_op") as Hnoop by discriminate.
  assert ("update_planner" <> "create_new_issue") as Hnew by discriminate.
  assert (1 < length (List.filter isHumanMessage (messages Example.state)))%nat
    as Hmany by (vm_compute; lia).
  assert (idle <> interrupted) as Hidle by discriminate.
  destruct (mirroring_replaces_untagged_messages Example.lib
              (Example.world idle "update_planner") Example.state
              Example.config start Example.afterContext Example.afterRouter
              Example.contextRequests
              (Example.routerRequests Example.state
                 (Example.human "m2" "Also fix logout" ∅) idle)
              (Example.human "m2" "Also fix logout" ∅)
              (Example.reply "update_planner") (Example.gathered idle)
              (Example.chosen "update_planner")
              {| githubAccessToken := "user-token";
                 githubInstallationToken := "installation-token" |}
              7 eq_refl eq_refl eq_refl Hnoop Hnew eq_refl eq_refl eq_refl
              Hnz Hmany)
    as (Hcomments & Hrest).
  destruct Hrest as (_ & Hreturned & _).
  { repeat constructor. discriminate. }
  { apply Permutation_refl. }
  split; [reflexivity|]. split; [reflexivity|]. split; [exact Hmany|].
  split; [exact Hcomments|].
  exact (Hreturned Hidle).
Defined.

(** C4, as stated, fails: the state has issue 7 and its only human message
    carries no tag, yet no comment is requested and the message is returned
    neither removed nor tagged. *)
Lemma mirroring_counterexample :
  githubIssueId Example.single = Some 7
  /\ messagesNotInIssue Example.single
     = [Example.human "m1" "Fix the login bug" ∅]
  /\ List.filter isCreateIssueComment
       (trace (classifyMessage Example.lib (Example.world idle "update_planner")
                 Example.single Example.config start)) = []
  /\ exists cmd,
       outcome (classifyMessage Example.lib (Example.world idle "update_planner")
                  Example.single Example.config start) = Return cmd
       /\ u_messages (update cmd) = Some [Example.reply "update_planner"].
Proof.
  split; [reflexivity|]. split; [reflexivity|]. split; [reflexivity|].
  eexists. split; [vm_compute; reflexivity | reflexivity].
Qed.

(** ** Resuming an interrupted planner (C10, C3) *)

(** C10, as the code has it.  When the state has an issue and more than one
    human message, the planner thread is interrupted and the router chose a
    route other than [no_op] and [create_new_issue]: once the comments are
    created, the node resumes the planner, after the comment requests, on
    the thread of the planner session, and the delta carries the id of the
    new run under that thread. *)
Theorem interrupted_planner_is_resumed_after_mirroring
    (lib : Lib) (w : World) (state : ManagerGraphState) (config : GraphConfig)
    (c c1 c2 : Clock) (t1 t2 : list Event)
    (userMessage response : BaseMessage) (ctx : Context)
    (toolCallArgs : ToolCallArgs) (tokens : Tokens) (gid : Z)
    (s : Session) (run : Run) :
  findLast isHumanMessage (messages state) = Some userMessage ->
  gatherContext lib w state config c = (Return ctx, t1, c1) ->
  askRouter lib w state config userMessage ctx c1
  = (Return (response, toolCallArgs), t2, c2) ->
  route toolCallArgs <> "no_op" ->
  route toolCallArgs <> "create_new_issue" ->
  statusOf (plannerThread ctx) = interrupted ->
  getGitHubTokensFromConfig lib config = Return tokens ->
  githubIssueId state = Some gid ->
  gid <> 0 ->
  (1 < length (List.filter isHumanMessage (messages state)))%nat ->
  let token := githubAccessToken tokens in
  let answers :=
    commentAnswers lib w state gid token (calls c2) (messagesNotInIssue state) in
  let settled := settle w (combine (messagesNotInIssue state) answers) in
  Forall (fun o => createdId o <> None) answers ->
  Permutation settled (combine (messagesNotInIssue state) answers) ->
  plannerSession state = Some s ->
  runs_create w (calls c2 + length (messagesNotInIssue state))%nat
    (getDefaultHeaders lib config) (threadId s) (PLANNER_GRAPH_ID lib)
    resumePayload = Return run ->
  run_id run <> "" ->
  classifyMessage lib w state config c =
  (Return
     {| update :=
          {| u_messages :=
               Some (response
                     :: pushedMessages gid (route toolCallArgs) settled);
             u_githubIssueId := None;
             u_targetRepository := None;
             u_taskPlan := None;
             u_plannerSession :=
               Some {| threadId := threadId s; runId := run_id run |};
             u_programmerSession := None;
             u_autoAcceptPlan := None;
             u_branchName := None |};
        goto :=
          if String.eqb (route toolCallArgs) "start_planner_for_followup"
          then start_planner else END |},
   t1 ++ t2
   ++ map (commentRequest lib state gid token) (messagesNotInIssue state)
   ++ [EvRunsCreate (getDefaultHeaders lib config) (threadId s)
         (PLANNER_GRAPH_ID lib) resumePayload],
   {| calls := Datatypes.S (calls c2 + length (messagesNotInIssue state));
      uuids := uuids c2 |}).
Proof.
  intros Hlast Hctx Hask Hnoop Hnew Hst Htokens Hgid Hnz Hmany
    token answers settled Hall Hperm Hs Hrun Hrid.
  assert (outcome (gatherContext lib w state config c) = Return ctx) as Hout
    by (rewrite Hctx; reflexivity).
  destruct (gatherContext_interrupted lib w state config c ctx Hout Hst)
    as (Hlocal & Hclient & s0 & Hs0 & Htid).
  rewrite Hs in Hs0. inversion Hs0; subst s0.
  rewrite (classifyMessage_mirror_run lib w state config c c1 c2 t1 t2
             userMessage response ctx toolCallArgs Hlast Hctx Hask
             tokens gid Hnoop Hnew Hlocal Htokens Hgid Hnz Hmany Hall Hperm).
  rewrite Hst, Hclient.
  rewrite (resumePlanner_interrupted lib w state s _ run
             {| calls := (calls c2 + length (messagesNotInIssue state))%nat;
                uuids := uuids c2 |} Hs Htid Hrun).
  unfold outcome, trace, clock, mirroredCommand, resumedSession. simpl.
  rewrite Hs, Htid, (truthy_str_true _ Hrid). reflexivity.
Qed.

(** On the example state, with the planner interrupted and the route
    [update_planner]: the comment, then the resume on the planner thread. *)
Lemma interrupted_planner_is_resumed_after_mirroring_witness :
  statusOf (plannerThread (Example.gathered interrupted)) = interrupted
  /\ plannerSession Example.state
     = Some {| threadId := "planner-thread"; runId := "run-0" |}
  /\ List.filter isRunsCreate
       (trace (classifyMessage Example.lib
                 (Example.world interrupted "update_planner") Example.state
                 Example.config start))
     = [EvRunsCreate (configurable Example.config) "planner-thread" "planner"
          resumePayload]
  /\ exists cmd,
       outcome (classifyMessage Example.lib
                  (Example.world interrupted "update_planner") Example.state
                  Example.config start) = Return cmd
       /\ u_plannerSession (update cmd)
          = Some {| threadId := "planner-thread"; runId := "run-5" |}.
Proof.
  assert (7 <> 0) as Hnz by discriminate.
  assert ("update_planner" <> "no_op") as Hnoop by discriminate.
  assert ("update_planner" <> "create_new_issue") as Hnew by discriminate.
  assert (1 < length (List.filter isHumanMessage (messages Example.state)))%nat
    as Hmany by (vm_compute; lia).
  assert ("run-5" <> "") as Hrid by discriminate.
  pose proof (interrupted_planner_is_resumed_after_mirroring Example.lib
                (Example.world interrupted "update_planner") Example.state
                Example.config start Example.afterContext Example.afterRouter
                Example.contextRequests
                (Example.routerRequests Example.state
                   (Example.human "m2" "Also fix logout" ∅) interrupted)
                (Example.human "m2" "Also fix logout" ∅)
                (Example.reply "update_planner") (Example.gathered interrupted)
                (Example.chosen "update_planner")
                {| githubAccessToken := "user-token";
                   githubInstallationToken := "installation-token" |}
                7 {| threadId := "planner-thread"; runId := "run-0" |}
                {| run_id := "run-5"; run_status := "pending" |}
                eq_refl eq_refl eq_refl Hnoop Hnew eq_refl eq_refl eq_refl
                Hnz Hmany
                ltac:(repeat constructor; discriminate)
                (Permutation_refl _) eq_refl eq_refl Hrid) as Hrun.
  split; [reflexivity|]. split; [reflexivity|].
  rewrite Hrun. split; [reflexivity|].
  eexists. split; reflexivity.
Defined.

(** C10, as stated, fails: issue 7, two human messages, the planner
    interrupted, and the router chose [no_op]: the node returns the reply
    and ends without resuming anything. *)
Lemma interrupted_planner_counterexample :
  githubIssueId Example.state = Some 7
  /\ length (List.filter isHumanMessage (messages Example.state)) = 2%nat
  /\ outcome (gatherContext Example.lib (Example.world interrupted "no_op")
                Example.state Example.config start)
     = Return (Example.gathered interrupted)
  /\ List.filter isRunsCreate
       (trace (classifyMessage Example.lib (Example.world interrupted "no_op")
                 Example.state Example.config start)) = []
  /\ outcome (classifyMessage Example.lib (Example.world interrupted "no_op")
                Example.state Example.config start)
     = Return {| update := messagesUpdate [Example.reply "no_op"];
                 goto := END |}.
Proof. repeat split; vm_compute; reflexivity. Qed.

Section ResumeRoute.

Variable lib : Lib.
Variable w : World.
Variable state : ManagerGraphState.
Variable config : GraphConfig.

(** With the route [resume_and_update_planner] and a planner that is not
    interrupted, whatever the node returns ends the graph and carries no
    planner session. *)
Lemma actOnRoute_resume_route_ends userMessage ctx response :
  statusOf (plannerThread ctx) <> interrupted ->
  returns (fun cmd => goto cmd = END /\ u_plannerSession (update cmd) = None)
    (actOnRoute lib w state config userMessage ctx response
       "resume_and_update_planner").
Proof.
  intros Hst. unfold actOnRoute. simpl.
  destruct (isLocalMode lib config); [apply returns_throw|].
  apply returns_bind; intros tokens.
  assert (forall ms gid,
            returns
              (fun cmd => goto cmd = END /\ u_plannerSession (update cmd) = None)
              (routeToNode ms gid "resume_and_update_planner")) as Hroute
    by (intros ms gid; unfold routeToNode; simpl; apply returns_ret;
        split; reflexivity).
  destruct (negb _).
  { apply returns_bind; intros created. apply Hroute. }
  destruct (1 <? _)%nat; [|apply Hroute].
  unfold mirrorAndResume. apply returns_bind; intros pushed.
  apply (returns_bind_with (fun newPlannerId => newPlannerId = None)).
  - intros c newPlannerId.
    rewrite (resumePlanner_not_interrupted lib w state _ _ c Hst).
    unfold outcome. simpl. intros H. inversion H; reflexivity.
  - intros newPlannerId ->. apply returns_ret. split; reflexivity.
Qed.

End ResumeRoute.

(** C3, as the code has it.  When the router chose
    [resume_and_update_planner]: a run is created only if the planner thread
    is interrupted, and it is then a resume on the thread of the planner
    session; when the planner thread is not interrupted no run is created or
    resumed, whatever the node returns ends the graph without a planner
    session, and the node does not fail for that: with an issue and at most
    one human message, outside local mode, it returns the reply and ends. *)
Theorem resume_route_resumes_only_when_interrupted
    (lib : Lib) (w : World) (state : ManagerGraphState) (config : GraphConfig)
    (c c1 c2 : Clock) (t1 t2 : list Event)
    (userMessage response : BaseMessage) (ctx : Context)
    (toolCallArgs : ToolCallArgs) :
  findLast isHumanMessage (messages state) = Some userMessage ->
  gatherContext lib w state config c = (Return ctx, t1, c1) ->
  askRouter lib w state config userMessage ctx c1
  = (Return (response, toolCallArgs), t2, c2) ->
  route toolCallArgs = "resume_and_update_planner" ->
  (forall e,
     In e (trace (classifyMessage lib w state config c)) ->
     isRunsCreate e = true ->
     statusOf (plannerThread ctx) = interrupted /\
     exists h s,
       plannerSession state = Some s /\
       e = EvRunsCreate h (threadId s) (PLANNER_GRAPH_ID lib) resumePayload)
  /\ (statusOf (plannerThread ctx) <> interrupted ->
      List.filter isRunsCreate (trace (classifyMessage lib w state config c))
      = []
      /\ (forall cmd,
            outcome (classifyMessage lib w state config c) = Return cmd ->
            goto cmd = END /\ u_plannerSession (update cmd) = None)
      /\ (forall tokens gid,
            isLocalMode lib config = false ->
            getGitHubTokensFromConfig lib config = Return tokens ->
            githubIssueId state = Some gid ->
            gid <> 0 ->
            (length (List.filter isHumanMessage (messages state)) <= 1)%nat ->
            classifyMessage lib w state config c
            = (Return
                 {| update :=
                      {| u_messages := Some [response];
                         u_githubIssueId := Some gid;
                         u_targetRepository := None;
                         u_taskPlan := None;
                         u_plannerSession := None;
                         u_programmerSession := None;
                         u_autoAcceptPlan := None;
                         u_branchName := None |};
                    goto := END |},
               t1 ++ t2, c2))).
Proof.
  intros Hlast Hctx Hask Hroute.
  pose proof (filter_classifyMessage_routed lib w state config c c1 c2 t1 t2
                userMessage response ctx toolCallArgs Hlast Hctx Hask
                isRunsCreate (fun _ _ => eq_refl) (fun _ => eq_refl) eq_refl
                (fun _ _ _ _ _ => eq_refl)) as Hruns.
  pose proof (runs_actOnRoute lib w state config userMessage ctx response
                (route toolCallArgs) c2) as Hcases.
  simpl in Hcases. rewrite <- Hruns in Hcases.
  split.
  - intros e Hin He.
    assert (In e (List.filter isRunsCreate
                    (trace (classifyMessage lib w state config c)))) as Hf
      by (apply List.filter_In; split; assumption).
    destruct Hcases as [Hnil|(s & h & Hs & Hst & _ & Hone)].
    + rewrite Hnil in Hf. destruct Hf.
    + rewrite Hone in Hf. destruct Hf as [<-|[]]. eauto.
  - intros Hst. split; [|split].
    + destruct Hcases as [Hnil|(s & h & _ & Hint & _)];
        [exact Hnil | contradiction].
    + intros cmd.
      rewrite (classifyMessage_routed lib w state config c _ _ _ _ _ _ _ _
                 Hlast Hctx Hask). cbv zeta. unfold outcome at 1. simpl.
      rewrite Hroute.
      apply (actOnRoute_resume_route_ends lib w state config userMessage ctx
               response Hst).
    + intros tokens gid Hlocal Htokens Hgid Hnz Hfew.
      rewrite (classifyMessage_routed lib w state config c _ _ _ _ _ _ _ _
                 Hlast Hctx Hask). cbv zeta.
      rewrite (actOnRoute_with_issue lib w state config userMessage ctx
                 response _ tokens gid c2); try assumption;
        try (rewrite Hroute; discriminate).
      apply Nat.ltb_ge in Hfew. rewrite Hfew, Hroute.
      unfold routeToNode, outcome, trace, clock, ret. simpl.
      assert (truthy_num gid = true) as ->
        by (apply negb_true_iff, Z.eqb_neq; exact Hnz).
      rewrite !app_nil_r. reflexivity.
Qed.

(** On the example state with a single human message and an idle planner:
    the node returns the reply and ends. *)
Lemma resume_route_resumes_only_when_interrupted_witness :
  route (Example.chosen "resume_and_update_planner")
  = "resume_and_update_planner"
  /\ statusOf (plannerThread (Example.gathered idle)) <> interrupted
  /\ List.filter isRunsCreate
       (trace (classifyMessage Example.lib
                 (Example.world idle "resume_and_update_planner")
                 Example.single Example.config start)) = []
  /\ forall cmd,
       outcome (classifyMessage Example.lib
                  (Example.world idle "resume_and_update_planner")
                  Example.single Example.config start) = Return cmd ->
       goto cmd = END /\ u_plannerSession (update cmd) = None.
Proof.
  assert (statusOf (plannerThread (Example.gathered idle)) <> interrupted)
    as Hidle by discriminate.
  destruct (resume_route_resumes_only_when_interrupted Example.lib
              (Example.world idle "resume_and_update_planner") Example.single
              Example.config start Example.afterContext Example.afterRouter
              Example.contextRequests
              (Example.routerRequests Example.single
                 (Example.human "m1" "Fix the login bug" ∅) idle)
              (Example.human "m1" "Fix the login bug" ∅)
              (Example.reply "resume_and_update_planner")
              (Example.gathered idle)
              (Example.chosen "resume_and_update_planner")
              eq_refl eq_refl eq_refl eq_refl) as (_ & Hrest).
  destruct (Hrest Hidle) as (Hnone & Hend & _).
  split; [reflexivity|]. split; [exact Hidle|]. split; assumption.
Defined.

(** C3, as stated, fails: the router chose [resume_and_update_planner], the
    planner thread is idle, and the node returns normally: the reply is
    appended and the graph ends, no error is thrown. *)
Lemma resume_route_counterexample :
  outcome (gatherContext Example.lib
             (Example.world idle "resume_and_update_planner") Example.single
             Example.config start)
  = Return (Example.gathered idle)
  /\ outcome (askRouter Example.lib
                (Example.world idle "resume_and_update_planner")
                Example.single Example.config
                (Example.human "m1" "Fix the login bug" ∅)
                (Example.gathered idle) Example.afterContext)
     = Return (Example.reply "resume_and_update_planner",
               Example.chosen "resume_and_update_planner")
  /\ outcome (classifyMessage Example.lib
                (Example.world idle "resume_and_update_planner")
                Example.single Example.config start)
     = Return
         {| update :=
              {| u_messages := Some [Example.reply "resume_and_update_planner"];
                 u_githubIssueId := Some 7;
                 u_targetRepository := None;
                 u_taskPlan := None;
                 u_plannerSession := None;
                 u_programmerSession := None;
                 u_autoAcceptPlan := None;
                 u_branchName := None |};
            goto := END |}.
Proof. repeat split; vm_compute; reflexivity. Qed.

(** * Further properties of the nodes *)

(** ** [classifyMessage]: the routes that end early, the first request *)

Section RouteFacts.

Variable lib : Lib.
Variable w : World.
Variable state : ManagerGraphState.
Variable config : GraphConfig.

(** Without an issue, outside local mode, for a route that is neither
    [no_op] nor [create_new_issue]: the issue is created first. *)
Lemma actOnRoute_without_issue userMessage ctx response route tokens c :
  route <> "no_op" ->
  route <> "create_new_issue" ->
  isLocalMode lib config = false ->
  getGitHubTokensFromConfig lib config = Return tokens ->
  truthy_opt truthy_num (githubIssueId state) = false ->
  actOnRoute lib w state config userMessage ctx response route c =
  bind (createIssueForRequest lib w state config userMessage
          (githubAccessToken tokens))
    (fun created =>
       routeToNode (response :: snd created) (Some (fst created)) route) c.
Proof.
  intros Hnoop Hnew Hlocal Htokens Hid. unfold actOnRoute.
  apply String.eqb_neq in Hnoop, Hnew.
  rewrite Hnoop, Hnew, Hlocal, Htokens, Hid.
  unfold bind at 1, lift at 1. simpl.
  destruct (bind _ _ c) as [[r t] c']. reflexivity.
Qed.

Lemma routeToNode_start ms gid route c :
  route = "start_planner" \/ route = "start_planner_for_followup" ->
  routeToNode ms gid route c
  = (Return
       {| update :=
            {| u_messages := Some ms;
               u_githubIssueId :=
                 if truthy_opt truthy_num gid then gid else None;
               u_targetRepository := None;
               u_taskPlan := None;
               u_plannerSession := None;
               u_programmerSession := None;
               u_autoAcceptPlan := None;
               u_branchName := None |};
          goto := start_planner |}, [], c).
Proof. intros [-> | ->]; reflexivity. Qed.

Lemma routeToNode_unknown ms gid route c :
  knownRoute route = false ->
  routeToNode ms gid route c = (Throw (Err ("Invalid route: " +:+ route)), [], c).
Proof.
  unfold knownRoute, routeToNode. intros H.
  repeat (apply orb_false_iff in H; destruct H as [H ?]).
  rewrite H, H0, H1, H2, H3. reflexivity.
Qed.

End RouteFacts.

(** X1. For the routes [no_op] and [create_new_issue] the node requests
    nothing after the answer of the router, whatever the state and the
    mode: it returns the reply alone, to END for [no_op] and to
    [create-new-session] for [create_new_issue]. *)
Theorem early_routes_request_nothing
    (lib : Lib) (w : World) (state : ManagerGraphState) (config : GraphConfig)
    (c c1 c2 : Clock) (t1 t2 : list Event)
    (userMessage response : BaseMessage) (ctx : Context)
    (toolCallArgs : ToolCallArgs) :
  findLast isHumanMessage (messages state) = Some userMessage ->
  gatherContext lib w state config c = (Return ctx, t1, c1) ->
  askRouter lib w state config userMessage ctx c1
  = (Return (response, toolCallArgs), t2, c2) ->
  route toolCallArgs = "no_op" \/ route toolCallArgs = "create_new_issue" ->
  classifyMessage lib w state config c
  = (Return {| update := messagesUpdate [response];
               goto := if String.eqb (route toolCallArgs) "no_op"
                       then END else create_new_session |},
     t1 ++ t2, c2).
Proof.
  intros Hlast Hctx Hask Hroute.
  rewrite (classifyMessage_routed lib w state config c _ _ _ _ _ _ _ _
             Hlast Hctx Hask). cbv zeta.
  unfold actOnRoute.
  destruct Hroute as [-> | ->]; simpl; rewrite app_nil_r; reflexivity.
Qed.

(** On the example state, whose second message is not mirrored: with
    [create_new_issue] nothing is mirrored and the node hands over. *)
Lemma early_routes_request_nothing_witness :
  route (Example.chosen "create_new_issue") = "create_new_issue"
  /\ classifyMessage Example.lib (Example.world idle "create_new_issue")
       Example.state Example.config start
     = (Return {| update := messagesUpdate [Example.reply "create_new_issue"];
                  goto := create_new_session |},
        Example.contextRequests
        ++ Example.routerRequests Example.state
             (Example.human "m2" "Also fix logout" ∅) idle,
        Example.afterRouter).
Proof.
  split; [reflexivity|].
  exact (early_routes_request_nothing Example.lib
           (Example.world idle "create_new_issue") Example.state
           Example.config start Example.afterContext Example.afterRouter
           Example.contextRequests
           (Example.routerRequests Example.state
              (Example.human "m2" "Also fix logout" ∅) idle)
           (Example.human "m2" "Also fix logout" ∅)
           (Example.reply "create_new_issue") (Example.gathered idle)
           (Example.chosen "create_new_issue")
           eq_refl eq_refl eq_refl (or_intror eq_refl)).
Defined.

(** X2. The first request of a conversation.  When the state has no issue,
    outside local mode, and the router chose [start_planner] or
    [start_planner_for_followup]: the node asks for the issue fields, creates
    one issue whose body is taken from the latest human message, and returns
    to [start-planner] the reply, the removal of that message and its copy
    tagged with the new issue number and [isOriginalIssue]; the delta
    carries the number of the issue. *)
Theorem first_request_creates_the_issue
    (lib : Lib) (w : World) (state : ManagerGraphState) (config : GraphConfig)
    (c c1 c2 : Clock) (t1 t2 : list Event)
    (userMessage response : BaseMessage) (ctx : Context)
    (toolCallArgs : ToolCallArgs) (tokens : Tokens)
    (issueFields : string * string) (newIssue : NewIssue) :
  findLast isHumanMessage (messages state) = Some userMessage ->
  gatherContext lib w state config c = (Return ctx, t1, c1) ->
  askRouter lib w state config userMessage ctx c1
  = (Return (response, toolCallArgs), t2, c2) ->
  route toolCallArgs = "start_planner"
  \/ route toolCallArgs = "start_planner_for_followup" ->
  isLocalMode lib config = false ->
  getGitHubTokensFromConfig lib config = Return tokens ->
  truthy_opt truthy_num (githubIssueId state) = false ->
  createIssueFieldsFromMessages w (calls c2) (messages state)
    (configurable config) = Return issueFields ->
  let body :=
    formatContentForIssueBody lib
      (snd (extractIssueTitleAndContentFromMessage lib
              (getMessageContentString lib (content (fields userMessage))))) in
  createIssue w (Datatypes.S (calls c2)) (owner (targetRepository state))
    (repo (targetRepository state)) (fst issueFields) body
    (githubAccessToken tokens) = Return (Some newIssue) ->
  number newIssue <> 0 ->
  classifyMessage lib w state config c
  = (Return
       {| update :=
            {| u_messages :=
                 Some [ response;
                        RemoveMessage (idOrEmpty userMessage);
                        copyWith userMessage
                          (<["isOriginalIssue" := JBool true]>
                             (<["githubIssueId" := JNum (number newIssue)]> ∅)) ];
               u_githubIssueId := Some (number newIssue);
               u_targetRepository := None;
               u_taskPlan := None;
               u_plannerSession := None;
               u_programmerSession := None;
               u_autoAcceptPlan := None;
               u_branchName := None |};
          goto := start_planner |},
     t1 ++ t2
     ++ [ EvCreateIssueFields (messages state) (configurable config);
          EvCreateIssue (owner (targetRepository state))
            (repo (targetRepository state)) (fst issueFields) body
            (githubAccessToken tokens) ],
     {| calls := Datatypes.S (Datatypes.S (calls c2)); uuids := uuids c2 |}).
Proof.
  intros Hlast Hctx Hask Hroute Hlocal Htokens Hid Hfields body Hissue Hnz.
  rewrite (classifyMessage_routed lib w state config c _ _ _ _ _ _ _ _
             Hlast Hctx Hask). cbv zeta.
  rewrite (actOnRoute_without_issue lib w state config userMessage ctx
             response _ tokens c2); try assumption;
    try (destruct Hroute as [-> | ->]; discriminate).
  assert (createIssueForRequest lib w state config userMessage
            (githubAccessToken tokens) c2
          = (Return (number newIssue,
                     [ RemoveMessage (idOrEmpty userMessage);
                       copyWith userMessage
                         (<["isOriginalIssue" := JBool true]>
                            (<["githubIssueId" := JNum (number newIssue)]> ∅)) ]),
             [ EvCreateIssueFields (messages state) (configurable config);
               EvCreateIssue (owner (targetRepository state))
                 (repo (targetRepository state)) (fst issueFields) body
                 (githubAccessToken tokens) ],
             {| calls := Datatypes.S (Datatypes.S (calls c2));
                uuids := uuids c2 |})) as Hcreate.
  { unfold createIssueForRequest, bind, call, ret. simpl.
    rewrite Hfields. simpl. fold body. rewrite Hissue. reflexivity. }
  rewrite (bind_Return _ _ _ _ _ _ Hcreate). simpl fst. simpl snd.
  rewrite (routeToNode_start _ _ _ _ Hroute).
  unfold outcome, trace, clock. simpl.
  assert (truthy_num (number newIssue) = true) as ->
    by (apply negb_true_iff, Z.eqb_neq; exact Hnz).
  reflexivity.
Qed.

(** On a first request: issue 8 is created and the message is tagged. *)
Lemma first_request_creates_the_issue_witness :
  truthy_opt truthy_num (githubIssueId Scenario.fresh) = false
  /\ exists cmd,
       outcome (classifyMessage Example.lib (Example.world idle "start_planner")
                  Scenario.fresh Example.config start) = Return cmd
       /\ u_githubIssueId (update cmd) = Some 8
       /\ goto cmd = start_planner
       /\ List.filter isCreateIssue
            (trace (classifyMessage Example.lib
                      (Example.world idle "start_planner") Scenario.fresh
                      Example.config start))
          = [EvCreateIssue "acme" "shop" "title" "Fix the login bug"
               "user-token"].
Proof.
  assert (8 <> 0) as Hnz by discriminate.
  pose proof (first_request_creates_the_issue Example.lib
                (Example.world idle "start_planner") Scenario.fresh
                Example.config start start {| calls := 2; uuids := 0 |} []
                [ EvLoadModel;
                  routerRequest Example.lib Scenario.fresh Example.config
                    (Example.human "m1" "Fix the login bug" ∅)
                    (Scenario.nothingGathered
                       (Some (configurable Example.config))) "router" ]
                (Example.human "m1" "Fix the login bug" ∅)
                (Example.reply "start_planner")
                (Scenario.nothingGathered (Some (configurable Example.config)))
                (Example.chosen "start_planner")
                {| githubAccessToken := "user-token";
                   githubInstallationToken := "installation-token" |}
                ("title", "body") {| number := 8; html_url := "url" |}
                eq_refl eq_refl eq_refl (or_introl eq_refl) eq_refl eq_refl
                eq_refl eq_refl eq_refl Hnz) as Hrun.
  split; [reflexivity|].
  rewrite Hrun. eexists. repeat split.
Defined.

(** X3. When the issue of a first request cannot be created
    ([createIssue] answers nothing), the node throws "Failed to create
    issue." right after the request: nothing is returned, no comment is
    written and no run is resumed. *)
Theorem failed_issue_creation_is_fatal
    (lib : Lib) (w : World) (state : ManagerGraphState) (config : GraphConfig)
    (c c1 c2 : Clock) (t1 t2 : list Event)
    (userMessage response : BaseMessage) (ctx : Context)
    (toolCallArgs : ToolCallArgs) (tokens : Tokens)
    (issueFields : string * string) :
  findLast isHumanMessage (messages state) = Some userMessage ->
  gatherContext lib w state config c = (Return ctx, t1, c1) ->
  askRouter lib w state config userMessage ctx c1
  = (Return (response, toolCallArgs), t2, c2) ->
  route toolCallArgs <> "no_op" ->
  route toolCallArgs <> "create_new_issue" ->
  isLocalMode lib config = false ->
  getGitHubTokensFromConfig lib config = Return tokens ->
  truthy_opt truthy_num (githubIssueId state) = false ->
  createIssueFieldsFromMessages w (calls c2) (messages state)
    (configurable config) = Return issueFields ->
  let body :=
    formatContentForIssueBody lib
      (snd (extractIssueTitleAndContentFromMessage lib
              (getMessageContentString lib (content (fields userMessage))))) in
  createIssue w (Datatypes.S (calls c2)) (owner (targetRepository state))
    (repo (targetRepository state)) (fst issueFields) body
    (githubAccessToken tokens) = Return None ->
  classifyMessage lib w state config c
  = (Throw (Err "Failed to create issue."),
     t1 ++ t2
     ++ [ EvCreateIssueFields (messages state) (configurable config);
          EvCreateIssue (owner (targetRepository state))
            (repo (targetRepository state)) (fst issueFields) body
            (githubAccessToken tokens) ],
     {| calls := Datatypes.S (Datatypes.S (calls c2)); uuids := uuids c2 |}).
Proof.
  intros Hlast Hctx Hask Hnoop Hnew Hlocal Htokens Hid Hfields body Hissue.
  rewrite (classifyMessage_routed lib w state config c _ _ _ _ _ _ _ _
             Hlast Hctx Hask). cbv zeta.
  rewrite (actOnRoute_without_issue lib w state config userMessage ctx
             response _ tokens c2 Hnoop Hnew Hlocal Htokens Hid).
  assert (createIssueForRequest lib w state config userMessage
            (githubAccessToken tokens) c2
          = (Throw (Err "Failed to create issue."),
             [ EvCreateIssueFields (messages state) (configurable config);
               EvCreateIssue (owner (targetRepository state))
                 (repo (targetRepository state)) (fst issueFields) body
                 (githubAccessToken tokens) ],
             {| calls := Datatypes.S (Datatypes.S (calls c2));
                uuids := uuids c2 |})) as Hcreate.
  { unfold createIssueForRequest, bind, call, throw. simpl.
    rewrite Hfields. simpl. fold body. rewrite Hissue. reflexivity. }
  rewrite (bind_Throw _ _ _ _ _ _ Hcreate). reflexivity.
Qed.

(** On a first request, in a world where no issue can be created. *)
Lemma failed_issue_creation_is_fatal_witness :
  createIssue (Scenario.withIssues (Return None)
                 (Example.world idle "start_planner"))
    3 "acme" "shop" "title" "Fix the login bug" "user-token" = Return None
  /\ outcome (classifyMessage Example.lib
                (Scenario.withIssues (Return None)
                   (Example.world idle "start_planner"))
                Scenario.fresh Example.config start)
     = Throw (Err "Failed to create issue.")
  /\ List.filter isRunsCreate
       (trace (classifyMessage Example.lib
                 (Scenario.withIssues (Return None)
                    (Example.world idle "start_planner"))
                 Scenario.fresh Example.config start)) = [].
Proof.
  assert ("start_planner" <> "no_op") as Hnoop by discriminate.
  assert ("start_planner" <> "create_new_issue") as Hnew by discriminate.
  pose proof (failed_issue_creation_is_fatal Example.lib
                (Scenario.withIssues (Return None)
                   (Example.world idle "start_planner")) Scenario.fresh
                Example.config start start {| calls := 2; uuids := 0 |} []
                [ EvLoadModel;
                  routerRequest Example.lib Scenario.fresh Example.config
                    (Example.human "m1" "Fix the login bug" ∅)
                    (Scenario.nothingGathered
                       (Some (configurable Example.config))) "router" ]
                (Example.human "m1" "Fix the login bug" ∅)
                (Example.reply "start_planner")
                (Scenario.nothingGathered (Some (configurable Example.config)))
                (Example.chosen "start_planner")
                {| githubAccessToken := "user-token";
                   githubInstallationToken := "installation-token" |}
                ("title", "body")
                eq_refl eq_refl eq_refl Hnoop Hnew eq_refl eq_refl
                eq_refl eq_refl eq_refl) as Hrun.
  split; [reflexivity|]. rewrite Hrun. split; reflexivity.
Defined.

(** X4. A route the node does not know.  With an issue and at most one human
    message, outside local mode, a route that is none of the seven throws
    "Invalid route: " followed by the route, right after the answer of the
    router. *)
Theorem unknown_route_is_refused
    (lib : Lib) (w : World) (state : ManagerGraphState) (config : GraphConfig)
    (c c1 c2 : Clock) (t1 t2 : list Event)
    (userMessage response : BaseMessage) (ctx : Context)
    (toolCallArgs : ToolCallArgs) (tokens : Tokens) (gid : Z) :
  findLast isHumanMessage (messages state) = Some userMessage ->
  gatherContext lib w state config c = (Return ctx, t1, c1) ->
  askRouter lib w state config userMessage ctx c1
  = (Return (response, toolCallArgs), t2, c2) ->
  route toolCallArgs <> "no_op" ->
  route toolCallArgs <> "create_new_issue" ->
  knownRoute (route toolCallArgs) = false ->
  isLocalMode lib config = false ->
  getGitHubTokensFromConfig lib config = Return tokens ->
  githubIssueId state = Some gid ->
  gid <> 0 ->
  (length (List.filter isHumanMessage (messages state)) <= 1)%nat ->
  classifyMessage lib w state config c
  = (Throw (Err ("Invalid route: " +:+ route toolCallArgs)), t1 ++ t2, c2).
Proof.
  intros Hlast Hctx Hask Hnoop Hnew Hunknown Hlocal Htokens Hgid Hnz Hfew.
  rewrite (classifyMessage_routed lib w state config c _ _ _ _ _ _ _ _
             Hlast Hctx Hask). cbv zeta.
  rewrite (actOnRoute_with_issue lib w state config userMessage ctx response
             _ tokens gid c2 Hnoop Hnew Hlocal Htokens Hgid Hnz).
  apply Nat.ltb_ge in Hfew. rewrite Hfew.
  rewrite (routeToNode_unknown _ _ _ _ Hunknown).
  unfold outcome, trace, clock. simpl. rewrite app_nil_r. reflexivity.
Qed.

(** On the example state with a single human message and a router that
    answers [reply]. *)
Lemma unknown_route_is_refused_witness :
  knownRoute "reply" = false
  /\ classifyMessage Example.lib (Example.world idle "reply") Example.single
       Example.config start
     = (Throw (Err "Invalid route: reply"),
        Example.contextRequests
        ++ Example.routerRequests Example.single
             (Example.human "m1" "Fix the login bug" ∅) idle,
        Example.afterRouter).
Proof.
  assert ("reply" <> "no_op") as Hnoop by discriminate.
  assert ("reply" <> "create_new_issue") as Hnew by discriminate.
  assert (7 <> 0) as Hnz by discriminate.
  assert (length (List.filter isHumanMessage (messages Example.single)) <= 1)%nat
    as Hfew by (vm_compute; lia).
  split; [reflexivity|].
  exact (unknown_route_is_refused Example.lib (Example.world idle "reply")
           Example.single Example.config start Example.afterContext
           Example.afterRouter Example.contextRequests
           (Example.routerRequests Example.single
              (Example.human "m1" "Fix the login bug" ∅) idle)
           (Example.human "m1" "Fix the login bug" ∅)
           (Example.reply "reply") (Example.gathered idle)
           (Example.chosen "reply")
           {| githubAccessToken := "user-token";
              githubInstallationToken := "installation-token" |}
           7 eq_refl eq_refl eq_refl Hnoop Hnew eq_refl eq_refl eq_refl
           eq_refl Hnz Hfew).
Defined.

(** ** [classifyMessage]: a comment that is not created *)

Section FailedComment.

Variable lib : Lib.
Variable w : World.
Variable state : ManagerGraphState.

Lemma joinComments_fails gid route settled c :
  Exists (fun mo => createdId (snd mo) = None) settled ->
  exists e, joinComments gid route settled c = (Throw e, [], c).
Proof.
  induction settled as [|[message o] rest IH]; intros Hex.
  - inversion Hex.
  - simpl. destruct o as [[created|]|e]; try (eexists; reflexivity).
    destruct (truthy_num (comment_id created)) eqn:Ht;
      [|eexists; reflexivity].
    assert (Exists (fun mo => createdId (snd mo) = None) rest) as Hrest.
    { inversion Hex as [? ? Hhead|? ? Htail]; subst; [|exact Htail].
      simpl in Hhead. rewrite Ht in Hhead. discriminate Hhead. }
    destruct (IH Hrest) as (e & He). exists e.
    unfold bind. rewrite He. reflexivity.
Qed.

Lemma commentAnswers_In gid token n ms o :
  In o (commentAnswers lib w state gid token n ms) ->
  exists m, In (m, o) (combine ms (commentAnswers lib w state gid token n ms)).
Proof.
  revert n. induction ms as [|m0 ms IH]; intros n Hin; [destruct Hin|].
  simpl in Hin. destruct Hin as [<-|Hin].
  - exists m0. left. reflexivity.
  - destruct (IH _ Hin) as (m & Hm). exists m. right. exact Hm.
Qed.

(** The mirroring step when some comment is not created: every request has
    been sent, and the step throws. *)
Lemma mirrorMessages_fails route gid token c :
  let answers :=
    commentAnswers lib w state gid token (calls c) (messagesNotInIssue state) in
  let settled := settle w (combine (messagesNotInIssue state) answers) in
  Exists (fun o => createdId o = None) answers ->
  Permutation settled (combine (messagesNotInIssue state) answers) ->
  exists e,
    mirrorMessages lib w state route gid token c
    = (Throw e,
       map (commentRequest lib state gid token) (messagesNotInIssue state),
       {| calls := (calls c + length (messagesNotInIssue state))%nat;
          uuids := uuids c |}).
Proof.
  intros answers settled Hex Hperm.
  assert (Exists (fun mo => createdId (snd mo) = None) settled) as Hsettled.
  { apply List.Exists_exists in Hex. destruct Hex as (o & Hin & Ho).
    destruct (commentAnswers_In gid token _ _ o Hin) as (m & Hm).
    apply List.Exists_exists. exists (m, o). split; [|exact Ho].
    exact (Permutation_in _ (Permutation_sym Hperm) Hm). }
  destruct (joinComments_fails gid route settled
              {| calls := (calls c + length (messagesNotInIssue state))%nat;
                 uuids := uuids c |} Hsettled) as (e & He).
  exists e. unfold mirrorMessages.
  rewrite (bind_Return _ _ _ _ _ _ (sendComments_run lib w state gid token _ c)).
  fold answers. fold settled. rewrite He.
  unfold outcome, trace, clock. simpl. rewrite app_nil_r. reflexivity.
Qed.

End FailedComment.

(** X5. Mirroring is not rolled back and not partial in what it returns.
    In the mirroring branch, when one of the comments is not created, the
    node throws and returns no message; yet every comment request of the
    pass has been sent, and the planner is not resumed. *)
Theorem failed_comment_fails_the_pass
    (lib : Lib) (w : World) (state : ManagerGraphState) (config : GraphConfig)
    (c c1 c2 : Clock) (t1 t2 : list Event)
    (userMessage response : BaseMessage) (ctx : Context)
    (toolCallArgs : ToolCallArgs) (tokens : Tokens) (gid : Z) :
  findLast isHumanMessage (messages state) = Some userMessage ->
  gatherContext lib w state config c = (Return ctx, t1, c1) ->
  askRouter lib w state config userMessage ctx c1
  = (Return (response, toolCallArgs), t2, c2) ->
  route toolCallArgs <> "no_op" ->
  route toolCallArgs <> "create_new_issue" ->
  isLocalMode lib config = false ->
  getGitHubTokensFromConfig lib config = Return tokens ->
  githubIssueId state = Some gid ->
  gid <> 0 ->
  (1 < length (List.filter isHumanMessage (messages state)))%nat ->
  let token := githubAccessToken tokens in
  let answers :=
    commentAnswers lib w state gid token (calls c2) (messagesNotInIssue state) in
  let settled := settle w (combine (messagesNotInIssue state) answers) in
  Exists (fun o => createdId o = None) answers ->
  Permutation settled (combine (messagesNotInIssue state) answers) ->
  exists e,
    classifyMessage lib w state config c
    = (Throw e,
       t1 ++ t2
       ++ map (commentRequest lib state gid token) (messagesNotInIssue state),
       {| calls := (calls c2 + length (messagesNotInIssue state))%nat;
          uuids := uuids c2 |}).
Proof.
  intros Hlast Hctx Hask Hnoop Hnew Hlocal Htokens Hgid Hnz Hmany
    token answers settled Hex Hperm.
  destruct (mirrorMessages_fails lib w state (route toolCallArgs) gid token c2
              Hex Hperm) as (e & He).
  exists e.
  rewrite (classifyMessage_routed lib w state config c _ _ _ _ _ _ _ _
             Hlast Hctx Hask). cbv zeta.
  rewrite (actOnRoute_with_issue lib w state config userMessage ctx response
             _ tokens gid c2 Hnoop Hnew Hlocal Htokens Hgid Hnz).
  apply Nat.ltb_lt in Hmany. rewrite Hmany.
  unfold mirrorAndResume. rewrite (bind_Throw _ _ _ _ _ _ He). reflexivity.
Qed.

(** On the example state, in a world where the comment of call 4 is not
    created: the request is sent, the planner is interrupted but not
    resumed. *)
Lemma failed_comment_fails_the_pass_witness :
  createdId (createIssueComment
               (Scenario.withoutComment 4
                  (Example.world interrupted "update_planner"))
               4 "acme" "shop" 7 "Also fix logout" "user-token") = None
  /\ classifyMessage Example.lib
       (Scenario.withoutComment 4 (Example.world interrupted "update_planner"))
       Example.state Example.config start
     = (Throw (Err "Failed to create issue comment"),
        Example.contextRequests
        ++ Example.routerRequests Example.state
             (Example.human "m2" "Also fix logout" ∅) interrupted
        ++ [EvCreateIssueComment "acme" "shop" 7 "Also fix logout"
              "user-token"],
        {| calls := 5; uuids := 0 |}).
Proof.
  assert ("update_planner" <> "no_op") as Hnoop by discriminate.
  assert ("update_planner" <> "create_new_issue") as Hnew by discriminate.
  assert (7 <> 0) as Hnz by discriminate.
  assert (1 < length (List.filter isHumanMessage (messages Example.state)))%nat
    as Hmany by (vm_compute; lia).
  split; [reflexivity|].
  destruct (failed_comment_fails_the_pass Example.lib
              (Scenario.withoutComment 4
                 (Example.world interrupted "update_planner"))
              Example.state Example.config start Example.afterContext
              Example.afterRouter Example.contextRequests
              (Example.routerRequests Example.state
                 (Example.human "m2" "Also fix logout" ∅) interrupted)
              (Example.human "m2" "Also fix logout" ∅)
              (Example.reply "update_planner") (Example.gathered interrupted)
              (Example.chosen "update_planner")
              {| githubAccessToken := "user-token";
                 githubInstallationToken := "installation-token" |}
              7 eq_refl eq_refl eq_refl Hnoop Hnew eq_refl eq_refl eq_refl
              Hnz Hmany
              ltac:(left; reflexivity) (Permutation_refl _)) as (e & He).
  rewrite He. f_equal. f_equal.
  assert (outcome (classifyMessage Example.lib
                     (Scenario.withoutComment 4
                        (Example.world interrupted "update_planner"))
                     Example.state Example.config start)
          = Throw (Err "Failed to create issue comment")) as Hout
    by (vm_compute; reflexivity).
  rewrite He in Hout. exact Hout.
Defined.

(** ** [classifyMessage]: where the graph goes next *)

Section Goto.

Variable lib : Lib.
Variable w : World.
Variable state : ManagerGraphState.
Variable config : GraphConfig.

Lemma startRoute_spec (route : string) :
  String.eqb route "start_planner"
  || String.eqb route "start_planner_for_followup" = true ->
  route = "start_planner" \/ route = "start_planner_for_followup".
Proof.
  intros H. apply orb_true_iff in H.
  destruct H as [H|H]; apply String.eqb_eq in H; auto.
Qed.

Lemma actOnRoute_goto userMessage ctx response route :
  returns
    (fun cmd =>
       (goto cmd = create_new_session <-> route = "create_new_issue") /\
       (goto cmd = start_planner ->
        route = "start_planner" \/ route = "start_planner_for_followup"))
    (actOnRoute lib w state config userMessage ctx response route).
Proof.
  unfold actOnRoute.
  destruct (String.eqb route "no_op") eqn:E1.
  { apply String.eqb_eq in E1. subst. apply returns_ret. simpl.
    split; [split; discriminate | discriminate]. }
  destruct (String.eqb route "create_new_issue") eqn:E2.
  { apply String.eqb_eq in E2. subst. apply returns_ret. simpl.
    split; [split; reflexivity | discriminate]. }
  apply String.eqb_neq in E2.
  assert (forall m : M Command,
            returns
              (fun cmd =>
                 goto cmd <> create_new_session /\
                 (goto cmd = start_planner ->
                  route = "start_planner"
                  \/ route = "start_planner_for_followup")) m ->
            returns
              (fun cmd =>
                 (goto cmd = create_new_session <-> route = "create_new_issue")
                 /\ (goto cmd = start_planner ->
                     route = "start_planner"
                     \/ route = "start_planner_for_followup")) m) as Hweak.
  { intros m Hm c0 cmd Hcmd. destruct (Hm c0 cmd Hcmd) as [Hne Hstart].
    split; [split; intros; contradiction | exact Hstart]. }
  apply Hweak.
  assert (forall ms gid,
            returns
              (fun cmd =>
                 goto cmd <> create_new_session /\
                 (goto cmd = start_planner ->
                  route = "start_planner"
                  \/ route = "start_planner_for_followup"))
              (routeToNode ms gid route)) as Hroute.
  { intros ms gid. unfold routeToNode.
    destruct (_ || _ || _).
    { apply returns_ret. simpl. split; discriminate. }
    destruct (_ || _) eqn:E3; [|apply returns_throw].
    apply returns_ret. simpl. split; [discriminate|].
    intros _. exact (startRoute_spec route E3). }
  destruct (isLocalMode lib config).
  { destruct (_ || _) eqn:E3; [|apply returns_throw].
    apply returns_ret. simpl. split; [discriminate|].
    intros _. exact (startRoute_spec route E3). }
  apply returns_bind; intros tokens.
  destruct (negb _).
  { apply returns_bind; intros created. apply Hroute. }
  destruct (1 <? _)%nat; [|apply Hroute].
  unfold mirrorAndResume.
  apply returns_bind; intros pushed. apply returns_bind; intros newPlannerId.
  apply returns_ret. simpl.
  destruct (String.eqb route "start_planner_for_followup") eqn:E4.
  - apply String.eqb_eq in E4. split; [discriminate | auto].
  - split; discriminate.
Qed.

(** In the mirroring branch only a followup goes on to the planner. *)
Lemma mirrorAndResume_ends ctx response route gid token :
  route <> "start_planner_for_followup" ->
  returns (fun cmd => goto cmd = END /\ u_githubIssueId (update cmd) = None)
    (mirrorAndResume lib w state ctx response route gid token).
Proof.
  intros Hroute. apply String.eqb_neq in Hroute. unfold mirrorAndResume.
  apply returns_bind; intros pushed. apply returns_bind; intros newPlannerId.
  apply returns_ret. unfold mirroredCommand. simpl. rewrite Hroute.
  split; reflexivity.
Qed.

(** In local mode no thread is fetched. *)
Lemma gatherContext_local c ctx :
  isLocalMode lib config = true ->
  outcome (gatherContext lib w state config c) = Return ctx ->
  plannerThread ctx = None /\ programmerThread ctx = None /\
  langGraphClient ctx = None.
Proof.
  intros Hlocal. unfold gatherContext, fetchThreads. rewrite Hlocal. simpl.
  rewrite outcome_bind. unfold ret at 1, outcome at 1. simpl.
  rewrite outcome_bind.
  destruct (outcome (fetchIssuePlans w state config _)) as [plans|e];
    [|discriminate].
  unfold ret, outcome. simpl. intros H. inversion H; subst. auto.
Qed.

Lemma classifyMessage_local_emits :
  isLocalMode lib config = true ->
  emits (fun e => isLocalRequest e = true) (classifyMessage lib w state config).
Proof.
  intros Hlocal. unfold classifyMessage.
  destruct (findLast _ _) as [userMessage|]; [|apply emits_throw].
  unfold classifyFor.
  apply emits_bind.
  { unfold gatherContext, fetchThreads, fetchIssuePlans. rewrite Hlocal.
    simpl. emits_auto. }
  intros ctx. apply emits_bind; [apply askRouter_emits; reflexivity|].
  intros routed. unfold actOnRoute. rewrite Hlocal. emits_auto.
Qed.

Lemma classifyMessage_local_returns :
  isLocalMode lib config = true ->
  returns (fun cmd => exists response, update cmd = messagesUpdate [response])
    (classifyMessage lib w state config).
Proof.
  intros Hlocal. unfold classifyMessage.
  destruct (findLast _ _) as [userMessage|]; [|apply returns_throw].
  unfold classifyFor.
  apply returns_bind; intros ctx. apply returns_bind; intros routed.
  unfold actOnRoute. rewrite Hlocal.
  destruct (String.eqb _ "no_op"); [apply returns_ret; simpl; eauto|].
  destruct (String.eqb _ "create_new_issue"); [apply returns_ret; simpl; eauto|].
  destruct (_ || _); [apply returns_ret; simpl; eauto | apply returns_throw].
Qed.

End Goto.

(** X6. Where a returned command goes.  Whatever the state and the mode,
    the node hands over to [create-new-session] exactly when the router
    chose [create_new_issue], and to [start-planner] only when the router
    chose [start_planner] or [start_planner_for_followup]. *)
Theorem goto_follows_the_route
    (lib : Lib) (w : World) (state : ManagerGraphState) (config : GraphConfig)
    (c c1 c2 : Clock) (t1 t2 : list Event)
    (userMessage response : BaseMessage) (ctx : Context)
    (toolCallArgs : ToolCallArgs) (cmd : Command) :
  findLast isHumanMessage (messages state) = Some userMessage ->
  gatherContext lib w state config c = (Return ctx, t1, c1) ->
  askRouter lib w state config userMessage ctx c1
  = (Return (response, toolCallArgs), t2, c2) ->
  outcome (classifyMessage lib w state config c) = Return cmd ->
  (goto cmd = create_new_session <-> route toolCallArgs = "create_new_issue")
  /\ (goto cmd = start_planner ->
      route toolCallArgs = "start_planner"
      \/ route toolCallArgs = "start_planner_for_followup").
Proof.
  intros Hlast Hctx Hask.
  rewrite (classifyMessage_routed lib w state config c _ _ _ _ _ _ _ _
             Hlast Hctx Hask). cbv zeta. unfold outcome at 1. simpl.
  apply (actOnRoute_goto lib w state config userMessage ctx response
           (route toolCallArgs)).
Qed.

(** On the example state with the route [create_new_issue]. *)
Lemma goto_follows_the_route_witness :
  outcome (classifyMessage Example.lib (Example.world idle "create_new_issue")
             Example.state Example.config start)
  = Return {| update := messagesUpdate [Example.reply "create_new_issue"];
              goto := create_new_session |}
  /\ (create_new_session = create_new_session
      <-> route (Example.chosen "create_new_issue") = "create_new_issue").
Proof.
  assert (outcome (classifyMessage Example.lib
                     (Example.world idle "create_new_issue")
                     Example.state Example.config start)
          = Return {| update :=
                        messagesUpdate [Example.reply "create_new_issue"];
                      goto := create_new_session |}) as Hout
    by (vm_compute; reflexivity).
  split; [exact Hout|].
  exact (proj1 (goto_follows_the_route Example.lib
                  (Example.world idle "create_new_issue") Example.state
                  Example.config start Example.afterContext
                  Example.afterRouter Example.contextRequests
                  (Example.routerRequests Example.state
                     (Example.human "m2" "Also fix logout" ∅) idle)
                  (Example.human "m2" "Also fix logout" ∅)
                  (Example.reply "create_new_issue") (Example.gathered idle)
                  (Example.chosen "create_new_issue") _
                  eq_refl eq_refl eq_refl Hout)).
Defined.

(** X7. A second message does not start the planner again.  With an issue
    and more than one human message, outside local mode, every route but
    [start_planner_for_followup] (and the two early ones) ends the graph:
    also for [start_planner] the returned command goes to END, and its
    delta does not carry the issue id. *)
Theorem only_a_followup_restarts_the_planner
    (lib : Lib) (w : World) (state : ManagerGraphState) (config : GraphConfig)
    (c c1 c2 : Clock) (t1 t2 : list Event)
    (userMessage response : BaseMessage) (ctx : Context)
    (toolCallArgs : ToolCallArgs) (tokens : Tokens) (gid : Z) (cmd : Command) :
  findLast isHumanMessage (messages state) = Some userMessage ->
  gatherContext lib w state config c = (Return ctx, t1, c1) ->
  askRouter lib w state config userMessage ctx c1
  = (Return (response, toolCallArgs), t2, c2) ->
  route toolCallArgs <> "no_op" ->
  route toolCallArgs <> "create_new_issue" ->
  route toolCallArgs <> "start_planner_for_followup" ->
  isLocalMode lib config = false ->
  getGitHubTokensFromConfig lib config = Return tokens ->
  githubIssueId state = Some gid ->
  gid <> 0 ->
  (1 < length (List.filter isHumanMessage (messages state)))%nat ->
  outcome (classifyMessage lib w state config c) = Return cmd ->
  goto cmd = END /\ u_githubIssueId (update cmd) = None.
Proof.
  intros Hlast Hctx Hask Hnoop Hnew Hfollow Hlocal Htokens Hgid Hnz Hmany.
  rewrite (classifyMessage_routed lib w state config c _ _ _ _ _ _ _ _
             Hlast Hctx Hask). cbv zeta. unfold outcome at 1. simpl.
  rewrite (actOnRoute_with_issue lib w state config userMessage ctx response
             _ tokens gid c2 Hnoop Hnew Hlocal Htokens Hgid Hnz).
  apply Nat.ltb_lt in Hmany. rewrite Hmany.
  apply (mirrorAndResume_ends lib w state ctx response (route toolCallArgs)
           gid (githubAccessToken tokens) Hfollow).
Qed.

(** On the example state, where the router chose [start_planner]. *)
Lemma only_a_followup_restarts_the_planner_witness :
  route (Example.chosen "start_planner") = "start_planner"
  /\ exists cmd,
       outcome (classifyMessage Example.lib (Example.world idle "start_planner")
                  Example.state Example.config start) = Return cmd
       /\ goto cmd = END.
Proof.
  assert ("start_planner" <> "no_op") as Hnoop by discriminate.
  assert ("start_planner" <> "create_new_issue") as Hnew by discriminate.
  assert ("start_planner" <> "start_planner_for_followup") as Hfollow
    by discriminate.
  assert (7 <> 0) as Hnz by discriminate.
  assert (1 < length (List.filter isHumanMessage (messages Example.state)))%nat
    as Hmany by (vm_compute; lia).
  split; [reflexivity|].
  eexists. split; [vm_compute; reflexivity|].
  refine (proj1 (only_a_followup_restarts_the_planner Example.lib
                   (Example.world idle "start_planner") Example.state
                   Example.config start Example.afterContext
                   Example.afterRouter Example.contextRequests
                   (Example.routerRequests Example.state
                      (Example.human "m2" "Also fix logout" ∅) idle)
                   (Example.human "m2" "Also fix logout" ∅)
                   (Example.reply "start_planner") (Example.gathered idle)
                   (Example.chosen "start_planner")
                   {| githubAccessToken := "user-token";
                      githubInstallationToken := "installation-token" |}
                   7 _ eq_refl eq_refl eq_refl Hnoop Hnew Hfollow eq_refl
                   eq_refl eq_refl Hnz Hmany _)).
  vm_compute. reflexivity.
Defined.

(** X8. Local mode stays local.  In local mode the node fetches no thread
    and sends nothing to the issue tracker or the run service: its only
    requests are the plans of the issue (when the state names one), the
    loading of the model and the call of the router; what it returns is the
    reply alone; and the router is told that neither the planner nor the
    programmer has started. *)
Theorem local_mode_stays_local
    (lib : Lib) (w : World) (state : ManagerGraphState) (config : GraphConfig)
    (c : Clock) :
  isLocalMode lib config = true ->
  Forall (fun e => isLocalRequest e = true)
    (trace (classifyMessage lib w state config c))
  /\ (forall cmd,
        outcome (classifyMessage lib w state config c) = Return cmd ->
        exists response, update cmd = messagesUpdate [response])
  /\ (forall model tool parallel prompt userContent,
        In (EvInvoke model tool parallel prompt userContent)
          (trace (classifyMessage lib w state config c)) ->
        exists inputs,
          prompt = routerPrompt lib inputs /\
          ci_plannerStatus inputs = not_started /\
          ci_programmerStatus inputs = not_started).
Proof.
  intros Hlocal. split; [|split].
  - apply (classifyMessage_local_emits lib w state config Hlocal).
  - apply (classifyMessage_local_returns lib w state config Hlocal).
  - intros model tool parallel prompt userContent Hin.
    assert (In (EvInvoke model tool parallel prompt userContent)
              (List.filter isInvoke
                 (trace (classifyMessage lib w state config c)))) as Hf
      by (apply List.filter_In; split; [exact Hin | reflexivity]).
    unfold classifyMessage in Hf.
    destruct (findLast _ _) as [userMessage|]; [|destruct Hf].
    rewrite invokes_classifyFor in Hf.
    destruct (outcome (gatherContext lib w state config c)) as [ctx|e] eqn:Hctx;
      [|destruct Hf].
    destruct (loadModel _ _ _) as [model'|e]; [|destruct Hf].
    destruct Hf as [Hf|[]].
    unfold routerRequest in Hf. inversion Hf; subst.
    destruct (gatherContext_local lib w state config c ctx Hlocal Hctx)
      as (Hp & Hq & _).
    exists (classificationInputs state userMessage ctx).
    split; [reflexivity|]. simpl. rewrite Hp, Hq. split; reflexivity.
Qed.

(** A first request in local mode: the planner is started, no issue is
    created. *)
Lemma local_mode_stays_local_witness :
  isLocalMode Example.lib Scenario.localConfig = true
  /\ List.filter isCreateIssue
       (trace (classifyMessage Example.lib (Example.world idle "start_planner")
                 Scenario.fresh Scenario.localConfig start)) = []
  /\ exists response,
       outcome (classifyMessage Example.lib (Example.world idle "start_planner")
                  Scenario.fresh Scenario.localConfig start)
       = Return {| update := messagesUpdate [response];
                   goto := start_planner |}.
Proof.
  destruct (local_mode_stays_local Example.lib
              (Example.world idle "start_planner") Scenario.fresh
              Scenario.localConfig start eq_refl) as (Hlocal & _ & _).
  split; [reflexivity|]. split.
  - induction Hlocal as [|e t He _ IH]; [reflexivity|].
    simpl. destruct e; try discriminate He; exact IH.
  - eexists. vm_compute. reflexivity.
Defined.

(** ** [startPlanner] and [createNewSession]: tokens, failures *)

Section RunHeaders.

Variable lib : Lib.
Variable w : World.
Variable config : GraphConfig.

Lemma headersForRun_skips c :
  isLocalMode lib config = true
  \/ is_Some (getDefaultHeaders lib config !! GITHUB_PAT lib) ->
  headersForRun lib w config c
  = (Return (if isLocalMode lib config
             then {[ LOCAL_MODE_HEADER lib := "true" ]}
             else getDefaultHeaders lib config), [], c).
Proof.
  intros H. unfold headersForRun.
  destruct (isLocalMode lib config); [reflexivity|].
  destruct H as [H|H]; [discriminate H|].
  rewrite (bool_decide_eq_true_2 _ H). reflexivity.
Qed.

Lemma headersForRun_regenerates c :
  isLocalMode lib config = false ->
  getDefaultHeaders lib config !! GITHUB_PAT lib = None ->
  headersForRun lib w config c
  = (match regenerateInstallationToken w (calls c)
             (getDefaultHeaders lib config !! GITHUB_INSTALLATION_ID lib) with
     | Return token =>
         Return (<[GITHUB_INSTALLATION_TOKEN_COOKIE lib := token]>
                   (getDefaultHeaders lib config))
     | Throw e => Throw e
     end,
     [EvRegenerateInstallationToken
        (getDefaultHeaders lib config !! GITHUB_INSTALLATION_ID lib)],
     {| calls := Datatypes.S (calls c); uuids := uuids c |}).
Proof.
  intros Hlocal Hpat. unfold headersForRun. rewrite Hlocal, Hpat.
  rewrite bool_decide_eq_false_2 by (intros [x Hx]; discriminate Hx).
  unfold bind, call, ret. simpl.
  destruct (regenerateInstallationToken _ _ _); reflexivity.
Qed.

End RunHeaders.

(** X9. When the installation token is regenerated.  [startPlanner]
    regenerates no token in local mode or when the headers carry a personal
    access token.  Otherwise it first regenerates the token of the
    installation named in the headers, and creates its run with the same
    headers except for the token, which is the fresh one; and when the
    regeneration throws, [startPlanner] throws the same error without
    creating a run. *)
Theorem planner_token_is_regenerated_when_needed
    (lib : Lib) (w : World) (state : ManagerGraphState) (config : GraphConfig)
    (c : Clock) :
  (isLocalMode lib config = true
   \/ is_Some (getDefaultHeaders lib config !! GITHUB_PAT lib) ->
   List.filter isRegenerate (trace (startPlanner lib w state config c)) = [])
  /\ (isLocalMode lib config = false ->
      getDefaultHeaders lib config !! GITHUB_PAT lib = None ->
      let installation :=
        getDefaultHeaders lib config !! GITHUB_INSTALLATION_ID lib in
      (forall token,
         regenerateInstallationToken w (calls c) installation = Return token ->
         exists headers thread,
           trace (startPlanner lib w state config c)
           = [ EvRegenerateInstallationToken installation;
               EvRunsCreate headers thread (PLANNER_GRAPH_ID lib)
                 (plannerRunConfig lib state config) ] /\
           headers !! GITHUB_INSTALLATION_TOKEN_COOKIE lib = Some token /\
           forall key,
             key <> GITHUB_INSTALLATION_TOKEN_COOKIE lib ->
             headers !! key = getDefaultHeaders lib config !! key)
      /\ (forall e,
            regenerateInstallationToken w (calls c) installation = Throw e ->
            outcome (startPlanner lib w state config c) = Throw e /\
            trace (startPlanner lib w state config c)
            = [EvRegenerateInstallationToken installation])).
Proof.
  pose proof (startPlanner_run lib w state config c) as Hrun.
  cbv zeta in Hrun. split.
  - intros Hskip. rewrite Hrun.
    rewrite (headersForRun_skips lib w config _ Hskip).
    unfold outcome, trace. simpl. reflexivity.
  - intros Hlocal Hpat installation.
    rewrite (headersForRun_regenerates lib w config _ Hlocal Hpat) in Hrun.
    assert (calls (match plannerSession state with
                   | Some _ => c
                   | None => {| calls := calls c;
                                uuids := Datatypes.S (uuids c) |}
                   end) = calls c) as Hcalls
      by (destruct (plannerSession state); reflexivity).
    rewrite Hcalls in Hrun. fold installation in Hrun.
    split.
    + intros token Htoken. rewrite Htoken in Hrun.
      unfold outcome, trace, clock in Hrun. simpl in Hrun.
      rewrite Hrun. unfold trace. simpl.
      eexists _, _. split; [reflexivity|]. split.
      * apply lookup_insert_eq.
      * intros key Hkey. apply lookup_insert_ne. congruence.
    + intros e He. rewrite He in Hrun.
      unfold outcome, trace, clock in Hrun. simpl in Hrun.
      rewrite Hrun. split; reflexivity.
Qed.

(** With a personal access token nothing is regenerated; without, the run is
    created with the fresh token. *)
Lemma planner_token_is_regenerated_when_needed_witness :
  List.filter isRegenerate
    (trace (startPlanner Example.lib (Example.world idle "no_op")
              Example.state Scenario.patConfig start)) = []
  /\ exists headers thread,
       trace (startPlanner Example.lib (Example.world idle "no_op")
                Example.state Example.config start)
       = [ EvRegenerateInstallationToken (Some "42");
           EvRunsCreate headers thread "planner"
             (plannerRunConfig Example.lib Example.state Example.config) ]
       /\ headers !! "x-github-installation-token" = Some "fresh-token".
Proof.
  destruct (planner_token_is_regenerated_when_needed Example.lib
              (Example.world idle "no_op") Example.state Scenario.patConfig
              start) as (Hpat & _).
  destruct (planner_token_is_regenerated_when_needed Example.lib
              (Example.world idle "no_op") Example.state Example.config
              start) as (_ & Hregen).
  split.
  - apply Hpat. right. exists "pat". reflexivity.
  - destruct (Hregen eq_refl eq_refl) as (Hfresh & _).
    destruct (Hfresh "fresh-token" eq_refl) as (headers & thread & Ht & Hc & _).
    exists headers, thread. split; [exact Ht | exact Hc].
Defined.

(** X10. [startPlanner] returns a session only for a run it has created.
    It creates at most one run; when it returns, the delta holds nothing but
    the planner session, whose thread and run id are those of the single run
    created; and an error of the run service is thrown on unchanged. *)
Theorem planner_session_names_the_created_run
    (lib : Lib) (w : World) (state : ManagerGraphState) (config : GraphConfig)
    (c : Clock) :
  (length (List.filter isRunsCreate (trace (startPlanner lib w state config c)))
   <= 1)%nat
  /\ (forall u,
        outcome (startPlanner lib w state config c) = Return u ->
        exists headers thread n run,
          List.filter isRunsCreate (trace (startPlanner lib w state config c))
          = [ EvRunsCreate headers thread (PLANNER_GRAPH_ID lib)
                (plannerRunConfig lib state config) ] /\
          runs_create w n headers thread (PLANNER_GRAPH_ID lib)
            (plannerRunConfig lib state config) = Return run /\
          u = {| u_messages := None; u_githubIssueId := None;
                 u_targetRepository := None; u_taskPlan := None;
                 u_plannerSession :=
                   Some {| threadId := thread; runId := run_id run |};
                 u_programmerSession := None; u_autoAcceptPlan := None;
                 u_branchName := None |})
  /\ (forall headers t c1 thread e,
        headersForRun lib w config
          (match plannerSession state with
           | Some _ => c
           | None => {| calls := calls c; uuids := Datatypes.S (uuids c) |}
           end) = (Return headers, t, c1) ->
        thread = match plannerSession state with
                 | Some s => threadId s
                 | None => uuid w (uuids c)
                 end ->
        runs_create w (calls c1) headers thread (PLANNER_GRAPH_ID lib)
          (plannerRunConfig lib state config) = Throw e ->
        outcome (startPlanner lib w state config c) = Throw e).
Proof.
  pose proof (startPlanner_run lib w state config c) as Hrun.
  cbv zeta in Hrun.
  set (c0 := match plannerSession state with
             | Some _ => c
             | None => {| calls := calls c; uuids := Datatypes.S (uuids c) |}
             end) in *.
  pose proof (emits_filter isRunsCreate (headersForRun lib w config) c0
                (headersForRun_no_run lib w config _ (fun _ => eq_refl)))
    as Hq.
  split; [|split].
  - rewrite Hrun. destruct (outcome (headersForRun lib w config c0)).
    + unfold trace at 1. simpl. rewrite List.filter_app, Hq. simpl. lia.
    + unfold trace at 1. simpl. rewrite Hq. simpl. lia.
  - intros u. rewrite Hrun.
    destruct (outcome (headersForRun lib w config c0)) as [headers|e];
      [|discriminate].
    destruct (runs_create _ _ _ _ _ _) as [run|e] eqn:Hcreate; [|discriminate].
    unfold outcome at 1. simpl.
    intros H. inversion H; subst u; clear H.
    eexists headers, _, _, run.
    split; [|split; [exact Hcreate | reflexivity]].
    unfold trace at 1. simpl. rewrite List.filter_app, Hq. reflexivity.
  - intros headers t c1 thread e Hh -> Hcreate. rewrite Hrun, Hh.
    unfold outcome, clock. simpl. rewrite Hcreate. reflexivity.
Qed.

(** On the example state: one run, on the thread of the session. *)
Lemma planner_session_names_the_created_run_witness :
  exists u,
    outcome (startPlanner Example.lib (Example.world idle "no_op")
               Example.state Example.config start) = Return u
    /\ u_plannerSession u
       = Some {| threadId := "planner-thread"; runId := "run-1" |}
    /\ length (List.filter isRunsCreate
                 (trace (startPlanner Example.lib (Example.world idle "no_op")
                           Example.state Example.config start))) = 1%nat.
Proof.
  destruct (planner_session_names_the_created_run Example.lib
              (Example.world idle "no_op") Example.state Example.config start)
    as (_ & Hret & _).
  eexists. split; [vm_compute; reflexivity|]. split; [reflexivity|].
  edestruct Hret as (headers & thread & n & run & Hruns & _ & _);
    [vm_compute; reflexivity|].
  rewrite Hruns. reflexivity.
Defined.

(** X11. No fork without an issue.  Every run that [createNewSession]
    creates is a run of the manager graph whose state carries the number of
    an issue that the node has just created; and when the issue is not
    created the node throws "Failed to create new issue" without creating
    any run. *)
Theorem fork_needs_a_created_issue
    (lib : Lib) (w : World) (state : ManagerGraphState) (config : GraphConfig)
    (c : Clock) :
  (forall h thread g p,
     In (EvRunsCreate h thread g p)
       (trace (createNewSession lib w state config c)) ->
     g = MANAGER_GRAPH_ID lib /\
     exists titleAndContent tokens newIssue humanId aiId,
       createIssueFieldsFromMessages w (calls c) (messages state)
         (configurable config) = Return titleAndContent /\
       getGitHubTokensFromConfig lib config = Return tokens /\
       createIssue w (Datatypes.S (calls c)) (owner (targetRepository state))
         (repo (targetRepository state)) (fst titleAndContent)
         (formatContentForIssueBody lib (snd titleAndContent))
         (githubAccessToken tokens) = Return (Some newIssue) /\
       p = newSessionRunConfig lib config
             (newSessionUpdate lib state config (fst titleAndContent)
                (snd titleAndContent) newIssue humanId aiId))
  /\ (forall titleAndContent tokens,
        createIssueFieldsFromMessages w (calls c) (messages state)
          (configurable config) = Return titleAndContent ->
        getGitHubTokensFromConfig lib config = Return tokens ->
        createIssue w (Datatypes.S (calls c)) (owner (targetRepository state))
          (repo (targetRepository state)) (fst titleAndContent)
          (formatContentForIssueBody lib (snd titleAndContent))
          (githubAccessToken tokens) = Return None ->
        outcome (createNewSession lib w state config c)
        = Throw (Err "Failed to create new issue") /\
        List.filter isRunsCreate (trace (createNewSession lib w state config c))
        = []).
Proof.
  pose proof (createNewSession_run lib w state config c) as Hrun.
  cbv zeta in Hrun. split.
  - intros h thread g p. rewrite Hrun.
    destruct (createIssueFieldsFromMessages _ _ _ _) as [titleAndContent|e].
    2:{ intros [H|[]]; discriminate H. }
    destruct (getGitHubTokensFromConfig lib config) as [tokens|e].
    2:{ intros [H|[]]; discriminate H. }
    destruct (createIssue _ _ _ _ _ _ _) as [[newIssue|]|e] eqn:Hissue.
    2:{ intros [H|[H|[]]]; discriminate H. }
    2:{ intros [H|[H|[]]]; discriminate H. }
    pose proof (headersForRun_no_run lib w config
                  (fun e => isRunsCreate e = false) (fun _ => eq_refl)
                  {| calls := Datatypes.S (Datatypes.S (calls c));
                     uuids := Datatypes.S (Datatypes.S (uuids c)) |}) as Hq.
    rewrite List.Forall_forall in Hq.
    assert (forall rest,
              In (EvRunsCreate h thread g p)
                ([ EvCreateIssueFields (messages state) (configurable config);
                   EvCreateIssue (owner (targetRepository state))
                     (repo (targetRepository state)) (fst titleAndContent)
                     (formatContentForIssueBody lib (snd titleAndContent))
                     (githubAccessToken tokens) ]
                 ++ trace (headersForRun lib w config
                             {| calls := Datatypes.S (Datatypes.S (calls c));
                                uuids := Datatypes.S (Datatypes.S (uuids c)) |})
                 ++ rest) ->
              In (EvRunsCreate h thread g p) rest) as Hsplit.
    { intros rest [H|[H|H]]; try discriminate H.
      simpl in H. apply in_app_or in H. destruct H as [H|H]; [|exact H].
      apply Hq in H. discriminate H. }
    destruct (outcome (headersForRun lib w config _)) as [headers|e].
    + assert (In (EvRunsCreate h thread g p)
                [ EvRunsCreate headers
                    (uuid w (uuids (clock (headersForRun lib w config
                       {| calls := Datatypes.S (Datatypes.S (calls c));
                          uuids := Datatypes.S (Datatypes.S (uuids c)) |}))))
                    (MANAGER_GRAPH_ID lib)
                    (newSessionRunConfig lib config
                       (newSessionUpdate lib state config (fst titleAndContent)
                          (snd titleAndContent) newIssue (uuid w (uuids c))
                          (uuid w (Datatypes.S (uuids c))))) ] ->
              g = MANAGER_GRAPH_ID lib /\
              exists titleAndContent0 tokens0 newIssue0 humanId aiId,
                Return titleAndContent = Return titleAndContent0 /\
                Return tokens = Return tokens0 /\
                createIssue w (Datatypes.S (calls c))
                  (owner (targetRepository state))
                  (repo (targetRepository state)) (fst titleAndContent0)
                  (formatContentForIssueBody lib (snd titleAndContent0))
                  (githubAccessToken tokens0) = Return (Some newIssue0) /\
                p = newSessionRunConfig lib config
                      (newSessionUpdate lib state config (fst titleAndContent0)
                         (snd titleAndContent0) newIssue0 humanId aiId))
        as Hlast.
      { intros [Heq|[]]. inversion Heq; subst. split; [reflexivity|].
        exists titleAndContent, tokens, newIssue, (uuid w (uuids c)),
          (uuid w (Datatypes.S (uuids c))).
        split; [reflexivity|]. split; [reflexivity|].
        split; [exact Hissue | reflexivity]. }
      destruct (runs_create _ _ _ _ _ _) as [run|e]; unfold trace at 1; simpl;
        intros Hin; apply (Hsplit [_]) in Hin; exact (Hlast Hin).
    + unfold trace at 1. simpl. intros Hin.
      rewrite <- (app_nil_r (trace _)) in Hin.
      apply (Hsplit []) in Hin. destruct Hin.
  - intros titleAndContent tokens Hfields Htokens Hissue.
    rewrite Hrun, Hfields, Htokens, Hissue. split; reflexivity.
Qed.

(** On the example state: the run carries issue 8; where no issue can be
    created, no run is created. *)
Lemma fork_needs_a_created_issue_witness :
  (exists h thread p newIssue,
     In (EvRunsCreate h thread "manager" p)
       (trace (createNewSession Example.lib
                 (Example.world idle "create_new_issue") Example.state
                 Example.config start))
     /\ number newIssue = 8
     /\ exists humanId aiId,
          p = newSessionRunConfig Example.lib Example.config
                (newSessionUpdate Example.lib Example.state Example.config
                   "title" "body" newIssue humanId aiId))
  /\ outcome (createNewSession Example.lib
                (Scenario.withIssues (Return None)
                   (Example.world idle "create_new_issue"))
                Example.state Example.config start)
     = Throw (Err "Failed to create new issue").
Proof.
  split.
  - assert (exists h thread p,
              In (EvRunsCreate h thread "manager" p)
                (trace (createNewSession Example.lib
                          (Example.world idle "create_new_issue")
                          Example.state Example.config start))) as (h & thread & p & Hin)
      by (eexists _, _, _; vm_compute; do 3 right; left; reflexivity).
    destruct (proj1 (fork_needs_a_created_issue Example.lib
                       (Example.world idle "create_new_issue") Example.state
                       Example.config start) h thread "manager" p Hin)
      as (_ & tc & tokens & newIssue & humanId & aiId & Hf & _ & Hi & Hp).
    exists h, thread, p, newIssue. split; [exact Hin|].
    inversion Hf; subst tc. inversion Hi; subst newIssue.
    split; [reflexivity|]. exists humanId, aiId. exact Hp.
  - exact (proj1 (proj2 (fork_needs_a_created_issue Example.lib
                           (Scenario.withIssues (Return None)
                              (Example.world idle "create_new_issue"))
                           Example.state Example.config start)
                    ("title", "body")
                    {| githubAccessToken := "user-token";
                       githubInstallationToken := "installation-token" |}
                    eq_refl eq_refl eq_refl)).
Defined.

(** ** Messages made for an issue carry its tag *)

Section BornTagged.

Variable lib : Lib.

Lemma truthy_JNum n : n <> 0 -> truthy (JNum n) = true.
Proof. intros H. apply negb_true_iff, Z.eqb_neq. exact H. Qed.

(** The [additional_kwargs] written for the message of an issue. *)
Lemma original_issue_kwargs n :
  n <> 0 ->
  truthy_opt truthy
    ((<["isOriginalIssue" := JBool true]>
        (<["githubIssueId" := JNum n]> (∅ : gmap string JsVal)))
     !! "githubIssueId") = true.
Proof. intros H. simplify_map_eq. exact (truthy_JNum n H). Qed.

Lemma initializeGithubIssue_message w state config :
  returns
    (fun u =>
       forall ms,
         u_messages u = Some ms ->
         exists f,
           ms = [HumanMessage f] /\
           truthy_opt truthy (additional_kwargs f !! "githubIssueId") = true)
    (initializeGithubIssue lib w state config).
Proof.
  unfold initializeGithubIssue.
  destruct (isLocalMode lib config).
  { apply returns_ret. intros ms H. discriminate H. }
  apply returns_bind; intros tokens.
  destruct (_ && _).
  - destruct (in_githubIssueId state) as [issueNumber|];
      [destruct (truthy_num issueNumber)|];
      try (apply returns_ret; intros ms H; discriminate H).
    destruct (in_targetRepository state) as [targetRepository|];
      [|apply returns_throw].
    apply returns_bind; intros issue. apply returns_ret.
    intros ms H. discriminate H.
  - destruct (in_githubIssueId state) as [issueNumber|];
      [destruct (truthy_num issueNumber) eqn:Ht|]; try apply returns_throw.
    destruct (in_targetRepository state) as [targetRepository|];
      [|apply returns_throw].
    apply returns_bind; intros issue. apply returns_bind; intros newId.
    apply returns_ret. intros ms H. inversion H; subst.
    eexists. split; [reflexivity|]. simpl. simplify_map_eq. exact Ht.
Qed.

End BornTagged.

(** X12. The tag that is written is the key that is read.  The human
    message that each of the four producers makes for an issue (the first
    message of a forked session, the message of the webhook, the message
    [initializeGithubIssue] reads from the issue, the replacement of the
    first request once its issue is created) carries a truthy
    [githubIssueId]: in a state whose messages are those, a classification
    pass finds nothing to mirror. *)
Theorem issue_messages_are_born_tagged (lib : Lib) :
  (forall title body newIssue humanId aiId st,
     number newIssue <> 0 ->
     messages st = inputMessages lib title body newIssue humanId aiId ->
     messagesNotInIssue st = [])
  /\ (forall payload messageId auto st,
        issue_number payload <> 0 ->
        u_messages (webhookRunInput lib payload messageId auto)
        = Some (messages st) ->
        messagesNotInIssue st = [])
  /\ (forall w state config c u st,
        outcome (initializeGithubIssue lib w state config c) = Return u ->
        u_messages u = Some (messages st) ->
        messagesNotInIssue st = [])
  /\ (forall w state config userMessage token c n pushed st,
        outcome (createIssueForRequest lib w state config userMessage token c)
        = Return (n, pushed) ->
        n <> 0 ->
        messages st = pushed ->
        messagesNotInIssue st = []).
Proof.
  split; [|split; [|split]].
  - intros title body newIssue humanId aiId st Hnz Hms.
    unfold messagesNotInIssue. rewrite Hms. unfold inputMessages. simpl.
    unfold kwarg. simpl. rewrite (original_issue_kwargs _ Hnz). reflexivity.
  - intros payload messageId auto st Hnz Hms.
    unfold webhookRunInput in Hms. simpl in Hms. inversion Hms as [Heq].
    unfold messagesNotInIssue. rewrite <- Heq. simpl.
    unfold kwarg. simpl. simplify_map_eq.
    pose proof (truthy_JNum _ Hnz) as Ht. simpl in Ht.
    rewrite Ht. reflexivity.
  - intros w state config c u st Hu Hms.
    destruct (initializeGithubIssue_message lib w state config c u Hu
                (messages st) Hms) as (f & Hf & Htag).
    unfold messagesNotInIssue. rewrite Hf. simpl. unfold kwarg. simpl.
    rewrite Htag. reflexivity.
  - intros w state config userMessage token c n pushed st Hout Hnz Hms.
    unfold createIssueForRequest in Hout.
    rewrite outcome_bind in Hout.
    destruct (outcome _) as [issueFields|e]; [|discriminate].
    rewrite outcome_bind in Hout.
    destruct (outcome _) as [[newIssue|]|e]; try discriminate.
    unfold ret, outcome in Hout. simpl in Hout.
    inversion Hout as [[Hn Hp]]. rewrite Hn in *.
    unfold messagesNotInIssue. rewrite Hms, <- Hp. simpl.
    unfold kwarg, copyWith. simpl.
    rewrite (original_issue_kwargs _ Hnz). reflexivity.
Qed.

(** On the state a labeled issue opens: its message is not mirrored. *)
Lemma issue_messages_are_born_tagged_witness :
  issue_number (Example.labeled "alice") <> 0
  /\ forall st,
       u_messages (webhookRunInput Example.lib (Example.labeled "alice")
                     "uuid-1" false) = Some (messages st) ->
       messagesNotInIssue st = [].
Proof.
  assert (issue_number (Example.labeled "alice") <> 0) as Hnz by discriminate.
  split; [exact Hnz|].
  intros st.
  exact (proj1 (proj2 (issue_messages_are_born_tagged Example.lib))
           (Example.labeled "alice") "uuid-1" false st Hnz).
Defined.

(** ** [initializeGithubIssue]: what is read, added and refused *)

Section Initialization.

Variable lib : Lib.
Variable w : World.
Variable state : ManagerGraphInput.
Variable config : GraphConfig.

(** The run of [fetchIssue], by the answer of GitHub. *)
Lemma fetchIssue_run targetRepository n token c :
  fetchIssue w targetRepository n token c
  = (match getIssue w (calls c) (owner targetRepository)
             (repo targetRepository) n token with
     | Return (Some issue) => Return issue
     | Return None => Throw (Err "Issue not found")
     | Throw e => Throw e
     end,
     [EvGetIssue (owner targetRepository) (repo targetRepository) n token],
     {| calls := Datatypes.S (calls c); uuids := uuids c |}).
Proof.
  unfold fetchIssue, bind, call, ret, throw.
  destruct (getIssue _ _ _ _ _ _) as [[issue|]|e]; reflexivity.
Qed.

Lemma history_test :
  (0 <? length (in_messages state))%nat
  && existsb isHumanMessage (in_messages state)
  = existsb isHumanMessage (in_messages state).
Proof. destruct (in_messages state); reflexivity. Qed.

End Initialization.

(** X13. [initializeGithubIssue] reads GitHub at most once, and only the
    issue of the state: every request of a run is the fetch of issue
    [state.githubIssueId] of the target repository of the state with the
    installation token of the configuration; in local mode, when the state
    has no (truthy) issue id or when it has no target repository, there is
    none. *)
Theorem initialization_reads_only_its_issue
    (lib : Lib) (w : World) (state : ManagerGraphInput) (config : GraphConfig)
    (c : Clock) :
  (length (trace (initializeGithubIssue lib w state config c)) <= 1)%nat
  /\ forall ev,
       In ev (trace (initializeGithubIssue lib w state config c)) ->
       isLocalMode lib config = false /\
       exists n tokens targetRepository,
         in_githubIssueId state = Some n /\ n <> 0 /\
         in_targetRepository state = Some targetRepository /\
         getGitHubTokensFromConfig lib config = Return tokens /\
         ev = EvGetIssue (owner targetRepository) (repo targetRepository) n
                (githubInstallationToken tokens).
Proof.
  unfold initializeGithubIssue.
  destruct (isLocalMode lib config); [split; [simpl; lia | intros ev []]|].
  destruct (getGitHubTokensFromConfig lib config) as [tokens|e];
    [|split; [simpl; lia | intros ev []]].
  rewrite history_test.
  assert (forall n, truthy_num n = true -> n <> 0) as Hnz.
  { intros n H ->. discriminate H. }
  destruct (existsb isHumanMessage (in_messages state));
    (destruct (in_githubIssueId state) as [n|];
       [destruct (truthy_num n) eqn:Ht;
        [destruct (in_targetRepository state) as [targetRepository|]|]|]);
    try (split; [simpl; lia | intros ev []]).
  - unfold bind, lift, ret, trace. simpl. rewrite fetchIssue_run.
    destruct (getIssue _ _ _ _ _ _) as [[issue|]|e]; simpl;
      (split; [lia|]); intros ev [<-|[]];
      (split; [reflexivity|]); exists n, tokens, targetRepository; auto 6.
  - unfold bind, lift, ret, uuidv4, trace. simpl. rewrite fetchIssue_run.
    destruct (getIssue _ _ _ _ _ _) as [[issue|]|e]; simpl;
      (split; [lia|]); intros ev [<-|[]];
      (split; [reflexivity|]); exists n, tokens, targetRepository; auto 6.
Qed.

(** The thread opened for issue 7 fetches that issue, outside local mode. *)
Lemma initialization_reads_only_its_issue_witness :
  In (EvGetIssue "acme" "shop" 7 "installation-token")
    (trace (initializeGithubIssue Example.lib (Example.world idle "no_op")
              (received Scenario.opened) Example.config start))
  /\ isLocalMode Example.lib Example.config = false.
Proof.
  assert (In (EvGetIssue "acme" "shop" 7 "installation-token")
            (trace (initializeGithubIssue Example.lib
                      (Example.world idle "no_op") (received Scenario.opened)
                      Example.config start))) as Hin
    by (left; reflexivity).
  split; [exact Hin|].
  exact (proj1 (proj2 (initialization_reads_only_its_issue Example.lib
                         (Example.world idle "no_op")
                         (received Scenario.opened)
                         Example.config start) _ Hin)).
Defined.

(** X14. What [initializeGithubIssue] returns.  The delta sets nothing but
    [taskPlan] and, possibly, [messages]; in local mode it is empty.  When
    the history holds a human message no message is added.  When a message
    is added, the history held no human message, the issue of the state was
    fetched from its target repository, and the message is the single human
    message of that issue: a fresh uuid as id, the content of the issue, and
    the tags [githubIssueId] and [isOriginalIssue]; the plan of the delta is
    then the plan of the issue body, or the plan of the state if the body
    has none.  Outside local mode, a run that fetched nothing keeps the plan
    of the state. *)
Theorem initialization_adds_the_issue_message_once
    (lib : Lib) (w : World) (state : ManagerGraphInput) (config : GraphConfig)
    (c : Clock) (u : ManagerGraphUpdate) :
  outcome (initializeGithubIssue lib w state config c) = Return u ->
  u = taskPlanUpdate (u_messages u) (u_taskPlan u)
  /\ (isLocalMode lib config = true -> u = emptyUpdate)
  /\ (existsb isHumanMessage (in_messages state) = true -> u_messages u = None)
  /\ (forall ms,
        u_messages u = Some ms ->
        existsb isHumanMessage (in_messages state) = false /\
        exists n issue tokens targetRepository,
          in_githubIssueId state = Some n /\
          in_targetRepository state = Some targetRepository /\
          getGitHubTokensFromConfig lib config = Return tokens /\
          getIssue w (calls c) (owner targetRepository)
            (repo targetRepository) n
            (githubInstallationToken tokens) = Return (Some issue) /\
          ms = [HumanMessage
                  {| id := Some (uuid w (uuids c));
                     content := getMessageContentFromIssue lib issue;
                     additional_kwargs :=
                       <["isOriginalIssue" := JBool true]>
                         (<["githubIssueId" := JNum n]> ∅) |}] /\
          u_taskPlan u = planFromIssue lib issue (in_taskPlan state))
  /\ (isLocalMode lib config = false ->
      trace (initializeGithubIssue lib w state config c) = [] ->
      u_taskPlan u = in_taskPlan state).
Proof.
  unfold initializeGithubIssue.
  destruct (isLocalMode lib config).
  { intros H. inversion H; subst. simpl.
    split; [reflexivity|]. split; [reflexivity|]. split; [reflexivity|].
    split; [intros ms Hms; discriminate Hms | intros Hl; discriminate Hl]. }
  destruct (getGitHubTokensFromConfig lib config) as [tokens|e];
    [|intros H; discriminate H].
  rewrite history_test.
  destruct (existsb isHumanMessage (in_messages state));
    (destruct (in_githubIssueId state) as [n|];
       [destruct (truthy_num n) eqn:Ht;
        [destruct (in_targetRepository state) as [targetRepository|]|]|]);
    try (intros H; discriminate H);
    try (intros H; inversion H; subst; simpl;
         split; [reflexivity|]; split; [intros Hl; discriminate Hl|];
         split; [reflexivity|];
         split; [intros ms Hms; discriminate Hms | reflexivity]).
  - unfold bind, lift, ret, outcome, trace. simpl. rewrite fetchIssue_run.
    destruct (getIssue _ _ _ _ _ _) as [[issue|]|e]; simpl;
      intros H; inversion H; subst; simpl.
    split; [reflexivity|]. split; [intros Hl; discriminate Hl|].
    split; [reflexivity|].
    split; [intros ms Hms; discriminate Hms | intros _ Ht'; discriminate Ht'].
  - unfold bind, lift, ret, uuidv4, outcome, trace. simpl.
    rewrite fetchIssue_run.
    destruct (getIssue _ _ _ _ _ _) as [[issue|]|e] eqn:Hissue; simpl;
      intros H; inversion H; subst; simpl.
    split; [reflexivity|]. split; [intros Hl; discriminate Hl|].
    split; [intros Hh; discriminate Hh|].
    split; [|intros _ Ht'; discriminate Ht'].
    intros ms Hms. inversion Hms; subst. split; [reflexivity|].
    exists n, issue, tokens, targetRepository.
    split; [reflexivity|]. split; [reflexivity|]. split; [reflexivity|].
    split; [exact Hissue|]. split; reflexivity.
Qed.

(** A thread opened for issue 7 without any message: the message of the
    issue is added, with the plan of the state since the body holds none. *)
Lemma initialization_adds_the_issue_message_once_witness :
  outcome (initializeGithubIssue Example.lib (Example.world idle "no_op")
             (received Scenario.opened) Example.config start)
  = Return
      (taskPlanUpdate
         (Some [HumanMessage
                  {| id := Some "uuid-0"; content := "tb";
                     additional_kwargs := Example.tagged |}])
         (Some Example.statePlan))
  /\ existsb isHumanMessage (in_messages (received Scenario.opened)) = false.
Proof.
  pose proof (initialization_adds_the_issue_message_once Example.lib
                (Example.world idle "no_op") (received Scenario.opened)
                Example.config start _ eq_refl) as (_ & _ & _ & Hms & _).
  destruct (Hms _ eq_refl) as (Hnone & _).
  split; [vm_compute; reflexivity | exact Hnone].
Defined.

(** X15. Why [initializeGithubIssue] fails.  It never fails in local mode.
    Otherwise a failure is one of: the tokens of the configuration cannot
    be read; the history holds no human message and the state has no
    (truthy) issue id, which is refused before any request; the state has
    an issue id but no target repository, which is refused before any
    request too, as "Target repository not provided" when the history
    holds no human message and as the [TypeError] of the unguarded
    [state.targetRepository.owner] when it holds one; the fetch of the
    issue fails; or GitHub answers that there is no such issue.  In
    particular a history with a human message and no issue id never fails
    on GitHub's account. *)
Theorem initialization_fails_only_for_its_issue
    (lib : Lib) (w : World) (state : ManagerGraphInput) (config : GraphConfig)
    (c : Clock) (e : Error) :
  outcome (initializeGithubIssue lib w state config c) = Throw e ->
  isLocalMode lib config = false
  /\ (getGitHubTokensFromConfig lib config = Throw e
      \/ (existsb isHumanMessage (in_messages state) = false /\
          truthy_opt truthy_num (in_githubIssueId state) = false /\
          e = Err "GitHub issue ID not provided" /\
          trace (initializeGithubIssue lib w state config c) = [])
      \/ (truthy_opt truthy_num (in_githubIssueId state) = true /\
          in_targetRepository state = None /\
          e = (if existsb isHumanMessage (in_messages state)
               then ownerOfUndefined
               else Err "Target repository not provided") /\
          trace (initializeGithubIssue lib w state config c) = [])
      \/ exists n tokens targetRepository,
           in_githubIssueId state = Some n /\ n <> 0 /\
           in_targetRepository state = Some targetRepository /\
           getGitHubTokensFromConfig lib config = Return tokens /\
           (getIssue w (calls c) (owner targetRepository)
              (repo targetRepository) n
              (githubInstallationToken tokens) = Throw e
            \/ (getIssue w (calls c) (owner targetRepository)
                  (repo targetRepository) n
                  (githubInstallationToken tokens) = Return None /\
                e = Err "Issue not found"))).
Proof.
  unfold initializeGithubIssue.
  destruct (isLocalMode lib config); [intros H; discriminate H|].
  destruct (getGitHubTokensFromConfig lib config) as [tokens|e'];
    [|intros H; inversion H; subst; split; [reflexivity|left; reflexivity]].
  rewrite history_test.
  assert (forall n, truthy_num n = true -> n <> 0) as Hnz.
  { intros n Ht ->. discriminate Ht. }
  destruct (existsb isHumanMessage (in_messages state));
    (destruct (in_githubIssueId state) as [n|];
       [destruct (truthy_num n) eqn:Ht;
        [destruct (in_targetRepository state) as [targetRepository|]|]|]);
    try (intros H; discriminate H);
    try solve [intros H; inversion H; subst; split; [reflexivity|];
               right; left; simpl; rewrite ?Ht; auto];
    try solve [intros H; inversion H; subst; split; [reflexivity|];
               right; right; left; simpl; rewrite ?Ht; auto].
  - unfold bind, lift, ret, outcome. simpl. rewrite fetchIssue_run.
    intros H. split; [reflexivity|]. right. right. right.
    exists n, tokens, targetRepository.
    split; [reflexivity|]. split; [auto|]. split; [reflexivity|].
    split; [reflexivity|].
    destruct (getIssue _ _ _ _ _ _) as [[issue|]|e']; simpl in H;
      inversion H; subst; auto.
  - unfold bind, lift, ret, uuidv4, outcome. simpl. rewrite fetchIssue_run.
    intros H. split; [reflexivity|]. right. right. right.
    exists n, tokens, targetRepository.
    split; [reflexivity|]. split; [auto|]. split; [reflexivity|].
    split; [reflexivity|].
    destruct (getIssue _ _ _ _ _ _) as [[issue|]|e']; simpl in H;
      inversion H; subst; auto.
Qed.

(** Issue 7 was deleted: the thread opened for it cannot be initialised.  A
    run started with the issue number alone is refused for want of its
    repository. *)
Lemma initialization_fails_only_for_its_issue_witness :
  (outcome (initializeGithubIssue Example.lib
              (Scenario.withIssue (Return None) (Example.world idle "no_op"))
              (received Scenario.opened) Example.config start)
   = Throw (Err "Issue not found")
   /\ isLocalMode Example.lib Example.config = false)
  /\ (outcome (initializeGithubIssue Example.lib (Example.world idle "no_op")
                 Scenario.bare Example.config start)
      = Throw (Err "Target repository not provided")
      /\ isLocalMode Example.lib Example.config = false).
Proof.
  split.
  - split; [reflexivity|].
    exact (proj1 (initialization_fails_only_for_its_issue Example.lib
                    (Scenario.withIssue (Return None)
                       (Example.world idle "no_op"))
                    (received Scenario.opened) Example.config start
                    (Err "Issue not found") eq_refl)).
  - split; [reflexivity|].
    exact (proj1 (initialization_fails_only_for_its_issue Example.lib
                    (Example.world idle "no_op") Scenario.bare
                    Example.config start
                    (Err "Target repository not provided") eq_refl)).
Defined.

(** ** The [issues.labeled] handler, request by request *)

Section LabeledRun.

Variable lib : Lib.
Variable w : World.
Variable payload : LabeledPayload.

(** The [try] block, by the answers of the world. *)
Lemma processLabel_run key auto max c :
  processLabel lib w payload key auto max c =
  match installation_id payload with
  | None => (Return tt, [], c)
  | Some i =>
      if negb (truthy_num i) then (Return tt, [], c)
      else
        match getInstallationOctokit w (calls c) i,
              getInstallationAccessToken w (Datatypes.S (calls c)) i with
        | Return octokit, Return token =>
            if negb (isAllowedUser lib (sender_login payload))
            then (Return tt, authRequests i, afterCalls 2 c)
            else
              let threadId := uuid w (uuids c) in
              let runPayload :=
                webhookRunPayload lib payload
                  (uuid w (Datatypes.S (uuids c))) auto max in
              let client := webhookClient lib payload i token key in
              let runEv :=
                EvRunsCreate client threadId (MANAGER_GRAPH_ID lib)
                  runPayload in
              match runs_create w (2 + calls c) client threadId
                      (MANAGER_GRAPH_ID lib) runPayload with
              | Return run =>
                  let body :=
                    triggeredComment lib payload (run_id run) threadId in
                  (octokit_request w (3 + calls c) octokit
                     (repository_owner_login payload)
                     (repository_name payload) (issue_number payload) body,
                   authRequests i
                   ++ [runEv;
                       EvOctokitPostComment octokit
                         (repository_owner_login payload)
                         (repository_name payload) (issue_number payload)
                         body],
                   {| calls := 4 + calls c; uuids := 2 + uuids c |})
              | Throw e =>
                  (Throw e, authRequests i ++ [runEv],
                   {| calls := 3 + calls c; uuids := 2 + uuids c |})
              end
        | Throw e, _ => (Throw e, authRequests i, afterCalls 2 c)
        | Return _, Throw e => (Throw e, authRequests i, afterCalls 2 c)
        end
  end.
Proof.
  unfold processLabel.
  destruct (installation_id payload) as [i|]; [|reflexivity].
  destruct (negb (truthy_num i)); [reflexivity|].
  unfold promise, bind, call, lift, uuidv4, ret, afterCalls,
    webhookClient, triggeredComment. simpl.
  destruct (getInstallationOctokit w (calls c) i) as [octokit|e];
    destruct (getInstallationAccessToken w (Datatypes.S (calls c)) i)
      as [token|e']; simpl; try reflexivity.
  destruct (negb (isAllowedUser lib (sender_login payload))); simpl;
    [reflexivity|].
  destruct (runs_create _ _ _ _ _ _) as [run|e]; reflexivity.
Qed.

(** The [catch] block, by the answer of the world. *)
Lemma reportError_run e c :
  reportError w payload e c =
  match installation_id payload with
  | None => (Return tt, [], c)
  | Some i =>
      if truthy_num i then
        match getInstallationOctokit w (calls c) i with
        | Return octokit =>
            (Return tt,
             [EvGetInstallationOctokit i;
              EvOctokitPostComment octokit (repository_owner_login payload)
                (repository_name payload) (issue_number payload)
                (errorComment e)],
             afterCalls 2 c)
        | Throw _ => (Return tt, [EvGetInstallationOctokit i], afterCalls 1 c)
        end
      else (Return tt, [], c)
  end.
Proof.
  unfold reportError, tryCatch.
  destruct (installation_id payload) as [i|]; [|reflexivity].
  destruct (truthy_num i); [|reflexivity].
  unfold bind, call, ret, afterCalls, errorComment. simpl.
  destruct (getInstallationOctokit w (calls c) i) as [octokit|e']; simpl;
    [|reflexivity].
  destruct (octokit_request _ _ _ _ _ _ _) as [[]|e']; reflexivity.
Qed.

(** The handler once the key is configured and the label recognised. *)
Lemma onIssuesLabeled_recognised key c :
  SECRETS_ENCRYPTION_KEY w = Some key ->
  key <> "" ->
  notOpenSWELabel lib payload = false ->
  onIssuesLabeled lib w payload c
  = tryCatch
      (processLabel lib w payload key (isAutoAcceptLabel lib payload)
         (isMaxLabel lib payload))
      (reportError w payload) c.
Proof.
  intros Hkey Hne Hlabel. unfold onIssuesLabeled.
  rewrite Hkey, (truthy_str_true _ Hne), Hlabel. reflexivity.
Qed.

(** The handler when nothing is to be done. *)
Lemma onIssuesLabeled_idle c :
  truthy_opt truthy_str (SECRETS_ENCRYPTION_KEY w) = false
  \/ notOpenSWELabel lib payload = true
  \/ truthy_opt truthy_num (installation_id payload) = false ->
  trace (onIssuesLabeled lib w payload c) = [].
Proof.
  unfold onIssuesLabeled.
  destruct (SECRETS_ENCRYPTION_KEY w) as [key|]; simpl; [|reflexivity].
  destruct (truthy_str key); simpl; [|reflexivity].
  destruct (notOpenSWELabel lib payload); [reflexivity|].
  intros [H|[H|H]]; try discriminate H.
  unfold tryCatch, trace. rewrite processLabel_run.
  destruct (installation_id payload) as [i|]; [|reflexivity].
  simpl in H. rewrite H. reflexivity.
Qed.

End LabeledRun.

(** X16. The handler of labeled issues fails only for want of its key.
    Without [SECRETS_ENCRYPTION_KEY] (absent or empty) every event is
    refused before anything is requested, whatever its label; with the key,
    no event makes the handler fail, whatever GitHub and the run service
    answer. *)
Theorem webhook_fails_only_without_its_key
    (lib : Lib) (w : World) (payload : LabeledPayload) (c : Clock) :
  (truthy_opt truthy_str (SECRETS_ENCRYPTION_KEY w) = false ->
   onIssuesLabeled lib w payload c
   = (Throw (Err "SECRETS_ENCRYPTION_KEY environment variable is required"),
      [], c))
  /\ (truthy_opt truthy_str (SECRETS_ENCRYPTION_KEY w) = true ->
      outcome (onIssuesLabeled lib w payload c) = Return tt).
Proof.
  split.
  - unfold onIssuesLabeled.
    destruct (SECRETS_ENCRYPTION_KEY w) as [key|]; simpl; [|reflexivity].
    intros ->. reflexivity.
  - destruct (SECRETS_ENCRYPTION_KEY w) as [key|] eqn:Hkey; simpl;
      [|intros H; discriminate H].
    intros Hk. apply (onIssuesLabeled_returns lib w payload key c Hkey).
    intros ->. discriminate Hk.
Qed.

(** A deployment without the key refuses a label that would otherwise be
    ignored; the example deployment survives an outage of the token
    service. *)
Lemma webhook_fails_only_without_its_key_witness :
  onIssuesLabeled Example.lib
    (Scenario.withKey (Some "") (Example.world idle "no_op"))
    (Example.labeled "mallory") start
  = (Throw (Err "SECRETS_ENCRYPTION_KEY environment variable is required"),
     [], start)
  /\ outcome (onIssuesLabeled Example.lib Example.tokenOutage
                (Example.labeled "alice") start) = Return tt.
Proof.
  split.
  - exact (proj1 (webhook_fails_only_without_its_key Example.lib
                    (Scenario.withKey (Some "") (Example.world idle "no_op"))
                    (Example.labeled "mallory") start) eq_refl).
  - exact (proj2 (webhook_fails_only_without_its_key Example.lib
                    Example.tokenOutage (Example.labeled "alice") start)
             eq_refl).
Defined.

(** X17. The run a labeled issue starts.  The handler creates at most one
    run.  A run is created only with the key configured, for a recognised
    label, an installation whose token was obtained and a sender who is
    allowed; it is a run of the manager graph on a fresh thread, through a
    client that carries the encrypted installation token, and its input is
    the issue of the payload with the flags of the label. *)
Theorem webhook_run_is_a_manager_run_for_the_issue
    (lib : Lib) (w : World) (payload : LabeledPayload) (c : Clock)
    (h : gmap string string) (t g : string) (p : RunPayload) :
  In (EvRunsCreate h t g p) (trace (onIssuesLabeled lib w payload c)) ->
  (exists key i token,
     SECRETS_ENCRYPTION_KEY w = Some key /\ key <> "" /\
     notOpenSWELabel lib payload = false /\
     installation_id payload = Some i /\ i <> 0 /\
     getInstallationAccessToken w (Datatypes.S (calls c)) i = Return token /\
     isAllowedUser lib (sender_login payload) = true /\
     h = webhookClient lib payload i token key)
  /\ t = uuid w (uuids c)
  /\ g = MANAGER_GRAPH_ID lib
  /\ p = webhookRunPayload lib payload (uuid w (Datatypes.S (uuids c)))
           (isAutoAcceptLabel lib payload) (isMaxLabel lib payload)
  /\ (length (List.filter isRunsCreate
                (trace (onIssuesLabeled lib w payload c))) <= 1)%nat.
Proof.
  intros Hin.
  destruct (SECRETS_ENCRYPTION_KEY w) as [key|] eqn:Hkey;
    [|rewrite onIssuesLabeled_idle in Hin;
      [destruct Hin | left; rewrite Hkey; reflexivity]].
  destruct (truthy_str key) eqn:Hk;
    [|rewrite onIssuesLabeled_idle in Hin;
      [destruct Hin | left; rewrite Hkey; exact Hk]].
  destruct (notOpenSWELabel lib payload) eqn:Hlabel;
    [rewrite onIssuesLabeled_idle in Hin;
      [destruct Hin | right; left; exact Hlabel]|].
  destruct (installation_id payload) as [i|] eqn:Hid;
    [|rewrite onIssuesLabeled_idle in Hin;
      [destruct Hin | right; right; rewrite Hid; reflexivity]].
  destruct (truthy_num i) eqn:Hi;
    [|rewrite onIssuesLabeled_idle in Hin;
      [destruct Hin | right; right; rewrite Hid; exact Hi]].
  assert (key <> "") as Hne by (intros ->; discriminate Hk).
  assert (i <> 0) as Hnz by (intros ->; discriminate Hi).
  rewrite (onIssuesLabeled_recognised lib w payload key c Hkey Hne Hlabel)
    in *.
  unfold tryCatch, trace in *. rewrite processLabel_run in *.
  rewrite Hid, Hi in *. simpl negb in *. cbv iota in *.
  destruct (getInstallationOctokit w (calls c) i) as [octokit|e];
    destruct (getInstallationAccessToken w (Datatypes.S (calls c)) i)
      as [token|e'] eqn:Htok;
    try (rewrite reportError_run, Hid, Hi in *;
         destruct (getInstallationOctokit w _ i); simpl in Hin;
         repeat (destruct Hin as [Hin|Hin]; try discriminate Hin);
         contradiction).
  destruct (isAllowedUser lib (sender_login payload)) eqn:Hallowed;
    simpl negb in *; cbv iota in *;
    [|simpl in Hin;
      repeat (destruct Hin as [Hin|Hin]; try discriminate Hin);
      contradiction].
  cbv zeta in *.
  destruct (runs_create _ _ _ _ _ _) as [run|e].
  - destruct (octokit_request _ _ _ _ _ _ _) as [[]|e].
    + simpl in *.
      destruct Hin as [Hin|[Hin|[Hin|[Hin|[]]]]]; try discriminate Hin.
      inversion Hin; subst.
      split; [exists key, i, token; auto 10|]. auto.
    + rewrite reportError_run, Hid, Hi in *.
      destruct (getInstallationOctokit w _ i); simpl in *;
        repeat (destruct Hin as [Hin|Hin]; try discriminate Hin);
        try contradiction;
        inversion Hin; subst;
        (split; [exists key, i, token; auto 10|]); auto.
  - rewrite reportError_run, Hid, Hi in *.
    destruct (getInstallationOctokit w _ i); simpl in *;
      repeat (destruct Hin as [Hin|Hin]; try discriminate Hin);
      try contradiction;
      inversion Hin; subst;
      (split; [exists key, i, token; auto 10|]); auto.
Qed.

(** On the example deployment, the label [open-swe] put by [alice] on
    issue 7 starts one manager run on thread [uuid-0]. *)
Lemma webhook_run_is_a_manager_run_for_the_issue_witness :
  In (EvRunsCreate
        (webhookClient Example.lib (Example.labeled "alice") 42
           "installation-token" "key")
        "uuid-0" "manager"
        (webhookRunPayload Example.lib (Example.labeled "alice") "uuid-1"
           false false))
    (trace (onIssuesLabeled Example.lib (Example.world idle "no_op")
              (Example.labeled "alice") start))
  /\ isAllowedUser Example.lib (sender_login (Example.labeled "alice")) = true.
Proof.
  assert (In (EvRunsCreate
                (webhookClient Example.lib (Example.labeled "alice") 42
                   "installation-token" "key")
                "uuid-0" "manager"
                (webhookRunPayload Example.lib (Example.labeled "alice")
                   "uuid-1" false false))
            (trace (onIssuesLabeled Example.lib (Example.world idle "no_op")
                      (Example.labeled "alice") start))) as Hin.
  { right. right. left. reflexivity. }
  split; [exact Hin|].
  destruct (webhook_run_is_a_manager_run_for_the_issue _ _ _ _ _ _ _ _ Hin)
    as ((key & i & token & _ & _ & _ & _ & _ & _ & Hallowed & _) & _).
  exact Hallowed.
Defined.

Section LabeledOutcome.

Variable lib : Lib.
Variable w : World.
Variable payload : LabeledPayload.
Variable key : string.
Variable i : Z.
Variable c : Clock.

Hypothesis Hkey : SECRETS_ENCRYPTION_KEY w = Some key.
Hypothesis Hne : key <> "".
Hypothesis Hlabel : notOpenSWELabel lib payload = false.
Hypothesis Hid : installation_id payload = Some i.
Hypothesis Hnz : i <> 0.

Lemma truthy_num_true : truthy_num i = true.
Proof. apply negb_true_iff, Z.eqb_neq. exact Hnz. Qed.

(** The handler on an event that passes the first tests. *)
Lemma onIssuesLabeled_accepted :
  onIssuesLabeled lib w payload c
  = match processLabel lib w payload key (isAutoAcceptLabel lib payload)
            (isMaxLabel lib payload) c with
    | (Return tt, t, c1) => (Return tt, t, c1)
    | (Throw e, t, c1) =>
        match getInstallationOctokit w (calls c1) i with
        | Return octokit =>
            (Return tt,
             t ++ [EvGetInstallationOctokit i;
                   EvOctokitPostComment octokit
                     (repository_owner_login payload)
                     (repository_name payload) (issue_number payload)
                     (errorComment e)],
             afterCalls 2 c1)
        | Throw _ =>
            (Return tt, t ++ [EvGetInstallationOctokit i], afterCalls 1 c1)
        end
    end.
Proof.
  rewrite (onIssuesLabeled_recognised lib w payload key c Hkey Hne Hlabel).
  unfold tryCatch.
  destruct (processLabel _ _ _ _ _ _ c) as [[[[]|e] t] c1]; [reflexivity|].
  rewrite reportError_run, Hid, truthy_num_true.
  destruct (getInstallationOctokit w (calls c1) i); reflexivity.
Qed.

End LabeledOutcome.



(** X19. A run that cannot be created is reported on the issue.  In the
    same situation, when the run service refuses the run: the handler does
    not fail; it asks again for the client of the installation and, when it
    gets one, posts one comment on the issue of the payload that ends with
    the message of the error; whether that comment is accepted does not
    matter, and no second run is attempted. *)
Theorem failed_run_is_reported_on_the_issue
    (lib : Lib) (w : World) (payload : LabeledPayload) (key : string)
    (i : Z) (octokit token : string) (e : Error) (c : Clock) :
  SECRETS_ENCRYPTION_KEY w = Some key ->
  key <> "" ->
  notOpenSWELabel lib payload = false ->
  installation_id payload = Some i ->
  i <> 0 ->
  getInstallationOctokit w (calls c) i = Return octokit ->
  getInstallationAccessToken w (Datatypes.S (calls c)) i = Return token ->
  isAllowedUser lib (sender_login payload) = true ->
  runs_create w (2 + calls c) (webhookClient lib payload i token key)
    (uuid w (uuids c)) (MANAGER_GRAPH_ID lib)
    (webhookRunPayload lib payload (uuid w (Datatypes.S (uuids c)))
       (isAutoAcceptLabel lib payload) (isMaxLabel lib payload))
  = Throw e ->
  outcome (onIssuesLabeled lib w payload c) = Return tt
  /\ trace (onIssuesLabeled lib w payload c)
     = authRequests i
       ++ [EvRunsCreate (webhookClient lib payload i token key)
             (uuid w (uuids c)) (MANAGER_GRAPH_ID lib)
             (webhookRunPayload lib payload (uuid w (Datatypes.S (uuids c)))
                (isAutoAcceptLabel lib payload) (isMaxLabel lib payload));
           EvGetInstallationOctokit i]
       ++ match getInstallationOctokit w (3 + calls c) i with
          | Return again =>
              [EvOctokitPostComment again (repository_owner_login payload)
                 (repository_name payload) (issue_number payload)
                 (errorComment e)]
          | Throw _ => []
          end.
Proof.
  intros Hkey Hne Hlabel Hid Hnz Hoct Htok Hallowed Hrun.
  rewrite (onIssuesLabeled_accepted lib w payload key i c Hkey Hne Hlabel
             Hid Hnz).
  rewrite processLabel_run, Hid, (truthy_num_true i Hnz), Hoct, Htok, Hallowed.
  simpl negb. cbv iota zeta. rewrite Hrun. cbn [calls].
  destruct (getInstallationOctokit w (3 + calls c) i) as [again|e'];
    split; reflexivity.
Qed.

(** The run service is down when [alice] labels issue 7. *)
Lemma failed_run_is_reported_on_the_issue_witness :
  List.filter isOctokitPostComment
    (trace (onIssuesLabeled Example.lib
              (Scenario.withRuns (Throw (Err "run service down"))
                 (Example.world idle "no_op"))
              (Example.labeled "alice") start))
  = [EvOctokitPostComment "octokit" "acme" "shop" 7
       (errorComment (Err "run service down"))].
Proof.
  assert ("key" <> "") as Hne by discriminate.
  assert ((42 : Z) <> 0) as Hnz by discriminate.
  rewrite (proj2 (failed_run_is_reported_on_the_issue Example.lib
                    (Scenario.withRuns (Throw (Err "run service down"))
                       (Example.world idle "no_op"))
                    (Example.labeled "alice") "key" 42
                    "octokit" "installation-token" (Err "run service down")
                    start eq_refl Hne eq_refl eq_refl Hnz eq_refl eq_refl
                    eq_refl eq_refl)).
  reflexivity.
Defined.

(** X20. Authentication comes before the permission check.  The handler
    sends a request only with the key configured, for a recognised label
    and a payload with a (truthy) installation id; and then it always
    starts with the two requests for the client and the token of that
    installation, whoever the sender is and whatever the first of the two
    answers. *)
Theorem authentication_precedes_the_permission_check
    (lib : Lib) (w : World) (payload : LabeledPayload) (c : Clock) :
  (forall ev,
     In ev (trace (onIssuesLabeled lib w payload c)) ->
     truthy_opt truthy_str (SECRETS_ENCRYPTION_KEY w) = true /\
     notOpenSWELabel lib payload = false /\
     truthy_opt truthy_num (installation_id payload) = true)
  /\ (forall key i,
        SECRETS_ENCRYPTION_KEY w = Some key ->
        key <> "" ->
        notOpenSWELabel lib payload = false ->
        installation_id payload = Some i ->
        i <> 0 ->
        exists rest,
          trace (onIssuesLabeled lib w payload c) = authRequests i ++ rest).
Proof.
  split.
  - intros ev Hin.
    destruct (truthy_opt truthy_str (SECRETS_ENCRYPTION_KEY w)) eqn:Hk;
      [|rewrite onIssuesLabeled_idle in Hin; [destruct Hin | auto]].
    destruct (notOpenSWELabel lib payload) eqn:Hlabel;
      [rewrite onIssuesLabeled_idle in Hin; [destruct Hin | auto]|].
    destruct (truthy_opt truthy_num (installation_id payload)) eqn:Hi;
      [|rewrite onIssuesLabeled_idle in Hin; [destruct Hin | auto]].
    auto.
  - intros key i Hkey Hne Hlabel Hid Hnz.
    rewrite (onIssuesLabeled_accepted lib w payload key i c Hkey Hne Hlabel
               Hid Hnz).
    rewrite processLabel_run, Hid, (truthy_num_true i Hnz).
    simpl negb. cbv iota.
    destruct (getInstallationOctokit w (calls c) i) as [octokit|e];
      destruct (getInstallationAccessToken w (Datatypes.S (calls c)) i)
        as [token|e'];
      try (destruct (getInstallationOctokit w _ i); unfold trace; simpl;
           eexists; reflexivity).
    destruct (negb (isAllowedUser lib (sender_login payload)));
      [exists []; reflexivity|].
    cbv zeta.
    destruct (runs_create _ _ _ _ _ _) as [run|e].
    + destruct (octokit_request _ _ _ _ _ _ _) as [[]|e];
        [eexists; reflexivity|].
      destruct (getInstallationOctokit w _ i); unfold trace; simpl;
        eexists; reflexivity.
    + destruct (getInstallationOctokit w _ i); unfold trace; simpl;
        eexists; reflexivity.
Qed.

(** [mallory], who is not allowed, labels issue 7: the token of the
    installation is requested all the same. *)
Lemma authentication_precedes_the_permission_check_witness :
  isAllowedUser Example.lib (sender_login (Example.labeled "mallory")) = false
  /\ exists rest,
       trace (onIssuesLabeled Example.lib (Example.world idle "no_op")
                (Example.labeled "mallory") start)
       = authRequests 42 ++ rest.
Proof.
  assert ("key" <> "") as Hne by discriminate.
  assert ((42 : Z) <> 0) as Hnz by discriminate.
  split; [reflexivity|].
  exact (proj2 (authentication_precedes_the_permission_check Example.lib
                  (Example.world idle "no_op") (Example.labeled "mallory")
                  start)
           "key" 42 eq_refl Hne eq_refl eq_refl Hnz).
Defined.

(** ** The HTTP entry *)

Lemma headerOrEmpty_truthy headers key v :
  (headers !! key = Some v /\ v <> "") <->
  (headerOrEmpty headers key = v /\ truthy_str v = true).
Proof.
  unfold headerOrEmpty, truthy_str. split.
  - intros [-> Hne]. split; [reflexivity|].
    apply negb_true_iff, String.eqb_neq. exact Hne.
  - intros [Hv Ht]. apply negb_true_iff, String.eqb_neq in Ht.
    destruct (headers !! key) as [v'|]; simpl in Hv; subst;
      [split; [reflexivity | exact Ht] | contradiction Ht; reflexivity].
Qed.

(** X21. The headers of a delivery.  [getHeaders] answers exactly when the
    request carries the four GitHub headers, each with a non-empty value,
    and then it answers those values; a header that is present but empty
    counts as missing. *)
Theorem webhook_headers_are_all_required
    (headers : gmap string string) (eh : EventHeaders) :
  getHeaders headers = Some eh <->
  (headers !! "x-github-delivery" = Some (eh_id eh) /\ eh_id eh <> "")
  /\ (headers !! "x-github-event" = Some (eh_name eh) /\ eh_name eh <> "")
  /\ (headers !! "x-github-hook-installation-target-id"
      = Some (eh_installationId eh) /\ eh_installationId eh <> "")
  /\ (headers !! "x-github-hook-installation-target-type"
      = Some (eh_targetType eh) /\ eh_targetType eh <> "").
Proof.
  rewrite !headerOrEmpty_truthy. unfold getHeaders. cbv zeta.
  destruct eh as [i n t ty]. simpl.
  destruct (truthy_str (headerOrEmpty headers "x-github-delivery")) eqn:H1;
    destruct (truthy_str (headerOrEmpty headers "x-github-event")) eqn:H2;
    destruct (truthy_str
                (headerOrEmpty headers "x-github-hook-installation-target-id"))
      eqn:H3;
    destruct (truthy_str
                (headerOrEmpty headers
                   "x-github-hook-installation-target-type")) eqn:H4;
    simpl;
    (split;
     [intros H; try discriminate H; inversion H; subst; auto 10
     |intros ((<- & Ha) & (<- & Hb) & (<- & Hc) & (<- & Hd));
      try reflexivity; congruence]).
Qed.

(** A delivery whose event header is empty has no headers. *)
Lemma webhook_headers_are_all_required_witness :
  getHeaders Scenario.delivery
  = Some {| eh_id := "d-1"; eh_name := "issues"; eh_installationId := "42";
            eh_targetType := "integration" |}
  /\ getHeaders (<["x-github-event" := ""]> Scenario.delivery) = None.
Proof.
  split.
  - apply webhook_headers_are_all_required. simpl.
    repeat split; try discriminate; reflexivity.
  - destruct (getHeaders (<["x-github-event" := ""]> Scenario.delivery))
      as [eh|] eqn:H; [|reflexivity].
    apply webhook_headers_are_all_required in H.
    destruct H as (_ & (Hname & Hne) & _).
    rewrite lookup_insert_eq in Hname. inversion Hname as [Heq].
    contradiction Hne. symmetry. exact Heq.
Defined.

Section Ingress.

Variable Json : Type.
Variable JSON_parse : string -> option Json.
Variable isNull : Json -> bool.
Variable toBoolean : Json -> bool.
Variable receive : string -> string -> Json -> M unit.

(** The handler on a delivery that is dispatched. *)
Lemma issueWebhookHandler_dispatched body headers payload eh c :
  JSON_parse body = Some payload ->
  isNull payload = false ->
  toBoolean payload = true ->
  getHeaders headers = Some eh ->
  issueWebhookHandler Json JSON_parse isNull toBoolean receive body headers c
  = match receive (eh_id eh) (eh_name eh) payload c with
    | (Return tt, t, c1) =>
        (Return {| http_body := ReceivedBody true; http_status := 200 |},
         t, c1)
    | (Throw _, t, c1) =>
        (Return {| http_body := ErrorBody "Webhook processing failed";
                   http_status := 400 |}, t, c1)
    end.
Proof.
  intros Hparse Hnull Htrue Hheaders.
  unfold issueWebhookHandler, getPayload.
  rewrite Hparse, Hnull, Htrue, Hheaders. simpl.
  unfold tryCatch, bind, ret.
  destruct (receive _ _ _ c) as [[[[]|e] t] c1]; simpl;
    rewrite ?app_nil_r; reflexivity.
Qed.

(** The handler on a delivery that is not dispatched. *)
Lemma issueWebhookHandler_rejected body headers c :
  (forall payload,
     JSON_parse body = Some payload ->
     isNull payload = false ->
     toBoolean payload = true ->
     getHeaders headers = None) ->
  exists msg,
    issueWebhookHandler Json JSON_parse isNull toBoolean receive body headers c
    = (Return {| http_body := ErrorBody msg; http_status := 400 |}, [], c)
    /\ (msg = "Missing payload" \/ msg = "Missing webhook headers")
    /\ (msg = "Missing webhook headers" ->
        exists payload,
          JSON_parse body = Some payload /\ isNull payload = false /\
          toBoolean payload = true).
Proof.
  intros H. unfold issueWebhookHandler, getPayload.
  destruct (JSON_parse body) as [payload|];
    [|exists "Missing payload"; split; [reflexivity|];
      split; [auto | intros Hm; discriminate Hm]].
  destruct (isNull payload) eqn:Hnull;
    [exists "Missing payload"; split; [reflexivity|];
     split; [auto | intros Hm; discriminate Hm]|].
  destruct (toBoolean payload) eqn:Htrue; simpl;
    [|exists "Missing payload"; split; [reflexivity|];
      split; [auto | intros Hm; discriminate Hm]].
  rewrite (H payload eq_refl Hnull Htrue).
  exists "Missing webhook headers". split; [reflexivity|].
  split; [auto|]. intros _. exists payload. auto.
Qed.

End Ingress.

(** X22. The HTTP entry answers every delivery.  [issueWebhookHandler]
    never fails: it answers 200 with [received: true] or 400 with an error
    message; and it answers 200 exactly when the body parses to a non-null,
    truthy value, the four headers are there and the dispatch of the event
    returns. *)
Theorem http_entry_answers_every_delivery
    (Json : Type) (JSON_parse : string -> option Json)
    (isNull toBoolean : Json -> bool)
    (receive : string -> string -> Json -> M unit)
    (body : string) (headers : gmap string string) (c : Clock) :
  exists r,
    outcome (issueWebhookHandler Json JSON_parse isNull toBoolean receive
               body headers c) = Return r
    /\ ((http_status r = 200 /\ http_body r = ReceivedBody true)
        \/ (http_status r = 400 /\ exists msg, http_body r = ErrorBody msg))
    /\ (http_status r = 200 <->
        exists payload eh,
          JSON_parse body = Some payload /\ isNull payload = false /\
          toBoolean payload = true /\ getHeaders headers = Some eh /\
          outcome (receive (eh_id eh) (eh_name eh) payload c) = Return tt).
Proof.
  assert ((forall payload,
             JSON_parse body = Some payload ->
             isNull payload = false ->
             toBoolean payload = true ->
             getHeaders headers = None) ->
          exists r,
            outcome (issueWebhookHandler Json JSON_parse isNull toBoolean
                       receive body headers c) = Return r
            /\ ((http_status r = 200 /\ http_body r = ReceivedBody true)
                \/ (http_status r = 400
                    /\ exists msg, http_body r = ErrorBody msg))
            /\ (http_status r = 200 -> False)) as Hrejected.
  { intros Hprem.
    destruct (issueWebhookHandler_rejected Json JSON_parse isNull toBoolean
                receive body headers c Hprem) as (msg & -> & _).
    eexists. split; [reflexivity|]. simpl.
    split; [right; eauto | intros H; discriminate H]. }
  assert (forall r : HttpResponse,
            (http_status r = 200 -> False) ->
            ~ (exists payload eh,
                 JSON_parse body = Some payload /\ isNull payload = false /\
                 toBoolean payload = true /\ getHeaders headers = Some eh /\
                 outcome (receive (eh_id eh) (eh_name eh) payload c)
                 = Return tt) ->
            (http_status r = 200 <->
             exists payload eh,
               JSON_parse body = Some payload /\ isNull payload = false /\
               toBoolean payload = true /\ getHeaders headers = Some eh /\
               outcome (receive (eh_id eh) (eh_name eh) payload c)
               = Return tt)) as Hiff.
  { intros r Hno Hnone. split; [intros H; destruct (Hno H)|].
    intros H. destruct (Hnone H). }
  destruct (JSON_parse body) as [payload|] eqn:Hparse.
  2: { destruct Hrejected as (r & Hr & Hcases & Hno).
       { intros p Hp. discriminate Hp. }
       exists r. split; [exact Hr|]. split; [exact Hcases|].
       apply Hiff; [exact Hno|].
       intros (p & eh & Hp & _). discriminate Hp. }
  destruct (isNull payload) eqn:Hnull.
  { destruct Hrejected as (r & Hr & Hcases & Hno).
    { intros p Hp Hn. inversion Hp; subst.
      rewrite Hnull in Hn. discriminate Hn. }
    exists r. split; [exact Hr|]. split; [exact Hcases|].
    apply Hiff; [exact Hno|].
    intros (p & eh & Hp & Hn & _). inversion Hp; subst.
    rewrite Hnull in Hn. discriminate Hn. }
  destruct (toBoolean payload) eqn:Htrue.
  2: { destruct Hrejected as (r & Hr & Hcases & Hno).
       { intros p Hp _ Ht. inversion Hp; subst.
         rewrite Htrue in Ht. discriminate Ht. }
       exists r. split; [exact Hr|]. split; [exact Hcases|].
       apply Hiff; [exact Hno|].
       intros (p & eh & Hp & _ & Ht & _). inversion Hp; subst.
       rewrite Htrue in Ht. discriminate Ht. }
  destruct (getHeaders headers) as [eh|] eqn:Hheaders.
  2: { destruct Hrejected as (r & Hr & Hcases & Hno).
       { intros; reflexivity. }
       exists r. split; [exact Hr|]. split; [exact Hcases|].
       apply Hiff; [exact Hno|].
       intros (p & eh & _ & _ & _ & Hh & _). discriminate Hh. }
  clear Hrejected Hiff.
  rewrite (issueWebhookHandler_dispatched Json JSON_parse isNull toBoolean
             receive body headers payload eh c Hparse Hnull Htrue Hheaders).
  unfold outcome.
  destruct (receive (eh_id eh) (eh_name eh) payload c) as [[[[]|e] t] c1]
    eqn:Hreceive; simpl.
  - eexists. split; [reflexivity|]. simpl. split; [left; auto|].
    split; [|reflexivity]. intros _. exists payload, eh.
    rewrite Hreceive. auto.
  - eexists. split; [reflexivity|]. simpl. split; [right; eauto|].
    split; [intros H; discriminate H|].
    intros (p & eh' & Hp & _ & _ & Hh & Hr).
    inversion Hp; subst. inversion Hh; subst.
    rewrite Hreceive in Hr. discriminate Hr.
Qed.

(** A delivery for [alice]'s label on the example deployment is answered
    200. *)
Lemma http_entry_answers_every_delivery_witness :
  exists r,
    outcome
      (issueWebhookHandler Scenario.ToyJson Scenario.toyParse
         Scenario.toyIsNull Scenario.toyToBoolean
         (Scenario.toyReceive (Example.world idle "no_op") "alice")
         "{}" Scenario.delivery start) = Return r
    /\ http_status r = 200.
Proof.
  destruct (http_entry_answers_every_delivery Scenario.ToyJson
              Scenario.toyParse Scenario.toyIsNull Scenario.toyToBoolean
              (Scenario.toyReceive (Example.world idle "no_op") "alice")
              "{}" Scenario.delivery start) as (r & Hr & _ & Hiff).
  exists r. split; [exact Hr|]. apply Hiff.
  exists (Scenario.ToyObject "{}"),
    {| eh_id := "d-1"; eh_name := "issues"; eh_installationId := "42";
       eh_targetType := "integration" |}.
  repeat split; reflexivity.
Defined.

(** X23. A delivery that cannot be used reaches no handler.  Every
    request of [issueWebhookHandler] is a request of the dispatch of the
    parsed body under the id and the event name of the headers; a body that
    does not parse, parses to [null] or to a falsy value is answered
    [Missing payload] before the headers are looked at, and a usable body
    without the four headers is answered [Missing webhook headers]; in
    both cases nothing is dispatched. *)
Theorem unusable_delivery_reaches_no_handler
    (Json : Type) (JSON_parse : string -> option Json)
    (isNull toBoolean : Json -> bool)
    (receive : string -> string -> Json -> M unit)
    (body : string) (headers : gmap string string) (c : Clock) :
  (forall ev,
     In ev (trace (issueWebhookHandler Json JSON_parse isNull toBoolean
                     receive body headers c)) ->
     exists payload eh,
       JSON_parse body = Some payload /\ isNull payload = false /\
       toBoolean payload = true /\ getHeaders headers = Some eh /\
       In ev (trace (receive (eh_id eh) (eh_name eh) payload c)))
  /\ ((forall payload,
         JSON_parse body = Some payload ->
         isNull payload = true \/ toBoolean payload = false) ->
      issueWebhookHandler Json JSON_parse isNull toBoolean receive body
        headers c
      = (Return {| http_body := ErrorBody "Missing payload";
                   http_status := 400 |}, [], c))
  /\ (forall payload,
        JSON_parse body = Some payload ->
        isNull payload = false ->
        toBoolean payload = true ->
        getHeaders headers = None ->
        issueWebhookHandler Json JSON_parse isNull toBoolean receive body
          headers c
        = (Return {| http_body := ErrorBody "Missing webhook headers";
                     http_status := 400 |}, [], c)).
Proof.
  split; [|split].
  - intros ev Hin.
    destruct (JSON_parse body) as [payload|] eqn:Hparse;
      [|unfold issueWebhookHandler, getPayload in Hin;
        rewrite Hparse in Hin; destruct Hin].
    destruct (isNull payload) eqn:Hnull;
      [unfold issueWebhookHandler, getPayload in Hin;
       rewrite Hparse, Hnull in Hin; destruct Hin|].
    destruct (toBoolean payload) eqn:Htrue;
      [|unfold issueWebhookHandler, getPayload in Hin;
        rewrite Hparse, Hnull, Htrue in Hin; destruct Hin].
    destruct (getHeaders headers) as [eh|] eqn:Hheaders;
      [|unfold issueWebhookHandler, getPayload in Hin;
        rewrite Hparse, Hnull, Htrue, Hheaders in Hin; destruct Hin].
    rewrite (issueWebhookHandler_dispatched Json JSON_parse isNull toBoolean
               receive body headers payload eh c Hparse Hnull Htrue Hheaders)
      in Hin.
    exists payload, eh.
    split; [reflexivity|]. split; [exact Hnull|]. split; [exact Htrue|].
    split; [reflexivity|].
    unfold trace in *.
    destruct (receive (eh_id eh) (eh_name eh) payload c)
      as [[[[]|e] t] c1]; exact Hin.
  - intros Hbad. unfold issueWebhookHandler, getPayload.
    destruct (JSON_parse body) as [payload|]; [|reflexivity].
    destruct (Hbad payload eq_refl) as [-> | Hf]; [reflexivity|].
    destruct (isNull payload); [reflexivity|]. rewrite Hf. reflexivity.
  - intros payload Hparse Hnull Htrue Hheaders.
    unfold issueWebhookHandler, getPayload.
    rewrite Hparse, Hnull, Htrue, Hheaders. reflexivity.
Qed.

(** The body [0] parses, to a falsy value: it is a missing payload, also
    when the headers are missing. *)
Lemma unusable_delivery_reaches_no_handler_witness :
  Scenario.toyParse "0" = Some Scenario.ToyZero
  /\ issueWebhookHandler Scenario.ToyJson Scenario.toyParse
       Scenario.toyIsNull Scenario.toyToBoolean
       (Scenario.toyReceive (Example.world idle "no_op") "alice") "0" ∅ start
     = (Return {| http_body := ErrorBody "Missing payload";
                  http_status := 400 |}, [], start).
Proof.
  split; [reflexivity|].
  apply (proj1 (proj2 (unusable_delivery_reaches_no_handler Scenario.ToyJson
                         Scenario.toyParse Scenario.toyIsNull
                         Scenario.toyToBoolean
                         (Scenario.toyReceive (Example.world idle "no_op")
                            "alice") "0" ∅ start))).
  intros payload H. inversion H; subst. right. reflexivity.
Defined.

(** X24. From the delivery to the answer.  For a delivery with a usable
    body and the four headers whose dispatch runs the handler of labeled
    issues on [labeled]: GitHub is answered 200 exactly when the
    encryption key is configured, also when the run could not be created
    or the sender is not allowed; it is answered 400 [Webhook processing
    failed] exactly when the key is missing, and then nothing was
    requested.  The requests of the delivery are those of the handler. *)
Theorem labeled_delivery_is_acknowledged
    (lib : Lib) (w : World) (labeled : LabeledPayload)
    (Json : Type) (JSON_parse : string -> option Json)
    (isNull toBoolean : Json -> bool)
    (receive : string -> string -> Json -> M unit)
    (body : string) (headers : gmap string string)
    (payload : Json) (eh : EventHeaders) (c : Clock) :
  JSON_parse body = Some payload ->
  isNull payload = false ->
  toBoolean payload = true ->
  getHeaders headers = Some eh ->
  receive (eh_id eh) (eh_name eh) payload c = onIssuesLabeled lib w labeled c ->
  trace (issueWebhookHandler Json JSON_parse isNull toBoolean receive body
           headers c)
  = trace (onIssuesLabeled lib w labeled c)
  /\ outcome (issueWebhookHandler Json JSON_parse isNull toBoolean receive
                body headers c)
     = Return
         (if truthy_opt truthy_str (SECRETS_ENCRYPTION_KEY w)
          then {| http_body := ReceivedBody true; http_status := 200 |}
          else {| http_body := ErrorBody "Webhook processing failed";
                  http_status := 400 |})
  /\ (truthy_opt truthy_str (SECRETS_ENCRYPTION_KEY w) = false ->
      trace (issueWebhookHandler Json JSON_parse isNull toBoolean receive
               body headers c) = []).
Proof.
  intros Hparse Hnull Htrue Hheaders Hreceive.
  rewrite (issueWebhookHandler_dispatched Json JSON_parse isNull toBoolean
             receive body headers payload eh c Hparse Hnull Htrue Hheaders).
  rewrite Hreceive.
  destruct (truthy_opt truthy_str (SECRETS_ENCRYPTION_KEY w)) eqn:Hk.
  - assert (outcome (onIssuesLabeled lib w labeled c) = Return tt) as Hout.
    { destruct (SECRETS_ENCRYPTION_KEY w) as [key|] eqn:Hkey;
        [|discriminate Hk].
      apply (onIssuesLabeled_returns lib w labeled key c Hkey).
      intros ->. discriminate Hk. }
    unfold outcome, trace in *.
    destruct (onIssuesLabeled lib w labeled c) as [[[[]|e] t] c1];
      [|discriminate Hout].
    split; [reflexivity|]. split; [reflexivity|].
    intros H. discriminate H.
  - assert (onIssuesLabeled lib w labeled c
            = (Throw (Err "SECRETS_ENCRYPTION_KEY environment variable is required"),
               [], c)) as ->.
    { unfold onIssuesLabeled.
      destruct (SECRETS_ENCRYPTION_KEY w) as [key|]; [|reflexivity].
      simpl in Hk. rewrite Hk. reflexivity. }
    split; [reflexivity|]. split; reflexivity.
Qed.

(** The run service is down when the delivery for [alice]'s label comes
    in: GitHub is answered 200. *)
Lemma labeled_delivery_is_acknowledged_witness :
  outcome
    (issueWebhookHandler Scenario.ToyJson Scenario.toyParse
       Scenario.toyIsNull Scenario.toyToBoolean
       (Scenario.toyReceive
          (Scenario.withRuns (Throw (Err "run service down"))
             (Example.world idle "no_op")) "alice")
       "{}" Scenario.delivery start)
  = Return {| http_body := ReceivedBody true; http_status := 200 |}.
Proof.
  exact (proj1 (proj2
    (labeled_delivery_is_acknowledged Example.lib
       (Scenario.withRuns (Throw (Err "run service down"))
          (Example.world idle "no_op"))
       (Example.labeled "alice")
       Scenario.ToyJson Scenario.toyParse Scenario.toyIsNull
       Scenario.toyToBoolean
       (Scenario.toyReceive
          (Scenario.withRuns (Throw (Err "run service down"))
             (Example.world idle "no_op")) "alice")
       "{}" Scenario.delivery (Scenario.ToyObject "{}")
       {| eh_id := "d-1"; eh_name := "issues"; eh_installationId := "42";
          eh_targetType := "integration" |}
       start eq_refl eq_refl eq_refl eq_refl eq_refl))).
Defined.

(** ** The callback of the GitHub App *)

Ltac break_match :=
  match goal with
  | H : context [match ?x with _ => _ end] |- _ => destruct x eqn:?
  | |- context [match ?x with _ => _ end] => destruct x eqn:?
  end.

Section CallbackFacts.

Variable p : Callback.Platform.
Variable env : Callback.Env.
Variable fetch : Callback.TokenRequest -> Callback.FetchResult.
Variable request : Callback.Request.

Lemma redirect_no_cookie path baseUrl r :
  Callback.redirect p path baseUrl = Some r ->
  Callback.resolve p path baseUrl = Some (Callback.location r)
  /\ Callback.cookies r = [].
Proof.
  unfold Callback.redirect.
  destruct (Callback.resolve p path baseUrl) as [href|];
    intros H; inversion H; subst; auto.
Qed.

(** The response after the answer of GitHub. *)
Lemma afterExchange_response baseUrl answer r :
  Callback.afterExchange p env request baseUrl answer = Some r ->
  (exists path,
     Callback.resolve p path baseUrl = Some (Callback.location r)
     /\ Callback.cookies r = [])
  \/ (exists tokenData,
        answer = Callback.Ok (Some tokenData)
        /\ truthy_opt truthy_str (Callback.td_error tokenData) = false
        /\ Callback.resolve p "/chat" baseUrl = Some (Callback.location r)
        /\ Callback.cookies r = Callback.sessionCookies p env request tokenData).
Proof.
  unfold Callback.afterExchange.
  destruct answer as [|[text|]|[tokenData|]]; try discriminate.
  - intros H. left. eexists. exact (redirect_no_cookie _ _ _ H).
  - destruct (truthy_opt truthy_str (Callback.td_error tokenData)) eqn:He.
    + destruct (Callback.encodeURIComponent p _) as [e|]; [|discriminate].
      intros H. left. eexists. exact (redirect_no_cookie _ _ _ H).
    + destruct (Callback.resolve p "/chat" baseUrl) as [href|] eqn:Hr;
        [|discriminate].
      intros H. inversion H; subst. right. exists tokenData. auto.
Qed.

(** The [try] block, when it sends its request. *)
Lemma attempt_sent tokenRequest :
  In tokenRequest (snd (Callback.attempt p env fetch request)) ->
  exists baseUrl,
    Callback.baseUrlOf p env request = Some baseUrl
    /\ Callback.attempt p env fetch request
       = (Callback.afterExchange p env request baseUrl (fetch tokenRequest),
          [tokenRequest])
    /\ truthy_opt truthy_str (Callback.error request) = false
    /\ truthy_opt truthy_str (Callback.code request) = true
    /\ Callback.stateMismatch request = false
    /\ truthy_opt truthy_str (Callback.NEXT_PUBLIC_GITHUB_APP_CLIENT_ID env)
       = true
    /\ truthy_opt truthy_str (Callback.GITHUB_APP_CLIENT_SECRET env) = true
    /\ truthy_opt truthy_str (Callback.GITHUB_APP_REDIRECT_URI env) = true
    /\ tokenRequest
       = {| Callback.client_id :=
              default "" (Callback.NEXT_PUBLIC_GITHUB_APP_CLIENT_ID env);
            Callback.client_secret :=
              default "" (Callback.GITHUB_APP_CLIENT_SECRET env);
            Callback.tr_code := default "" (Callback.code request);
            Callback.redirect_uri :=
              default "" (Callback.GITHUB_APP_REDIRECT_URI env) |}.
Proof.
  unfold Callback.attempt.
  destruct (Callback.origin p (Callback.url request)); [|intros []].
  destruct (Callback.baseUrlOf p env request) as [baseUrl|]; [|intros []].
  destruct (truthy_opt truthy_str (Callback.error request)); [intros []|].
  destruct (truthy_opt truthy_str (Callback.code request)); [|intros []].
  simpl negb. cbv iota.
  destruct (Callback.stateMismatch request); [intros []|].
  destruct (truthy_opt truthy_str (Callback.NEXT_PUBLIC_GITHUB_APP_CLIENT_ID env));
    [|intros []].
  destruct (truthy_opt truthy_str (Callback.GITHUB_APP_CLIENT_SECRET env));
    [|intros []].
  destruct (truthy_opt truthy_str (Callback.GITHUB_APP_REDIRECT_URI env));
    [|intros []].
  simpl. intros [<-|[]]. exists baseUrl. auto 10.
Qed.

(** The [try] block, when it sends nothing. *)
Lemma attempt_quiet r :
  snd (Callback.attempt p env fetch request) = [] ->
  fst (Callback.attempt p env fetch request) = Some r ->
  exists path baseUrl,
    Callback.baseUrlOf p env request = Some baseUrl
    /\ Callback.resolve p path baseUrl = Some (Callback.location r)
    /\ Callback.cookies r = [].
Proof.
  unfold Callback.attempt.
  destruct (Callback.origin p (Callback.url request)); [|discriminate 2].
  destruct (Callback.baseUrlOf p env request) as [baseUrl|];
    [|discriminate 2].
  repeat (break_match; simpl; try discriminate);
    intros _ H; eexists _, baseUrl; (split; [reflexivity|]);
    exact (redirect_no_cookie _ _ _ H).
Qed.

(** The handler and its [try] block send the same requests. *)
Lemma GET_sent :
  snd (Callback.GET p env fetch request)
  = snd (Callback.attempt p env fetch request).
Proof.
  unfold Callback.GET.
  destruct (Callback.attempt p env fetch request) as [[r|] sent]; reflexivity.
Qed.

(** The response of the handler: that of the [try] block, or the error
    page of the [catch] block. *)
Lemma GET_response r :
  fst (Callback.GET p env fetch request) = Some r ->
  fst (Callback.attempt p env fetch request) = Some r
  \/ (fst (Callback.attempt p env fetch request) = None
      /\ exists baseUrl,
           Callback.baseUrlOf p env request = Some baseUrl
           /\ Callback.resolve p "/?error=callback_failed" baseUrl
              = Some (Callback.location r)
           /\ Callback.cookies r = []).
Proof.
  unfold Callback.GET.
  destruct (Callback.attempt p env fetch request) as [[r'|] sent]; simpl;
    [auto|].
  destruct (Callback.baseUrlOf p env request) as [baseUrl|]; [|discriminate].
  intros H. right. split; [reflexivity|]. exists baseUrl.
  split; [reflexivity|]. exact (redirect_no_cookie _ _ _ H).
Qed.

End CallbackFacts.

(** X25. Cookies are set only with a token.  A response of the callback
    that sets a cookie is the redirect to [/chat]: exactly one token
    request was sent, GitHub answered it with a JSON body without [error],
    and the cookies are those of the session, among them the token cookie,
    HTTP-only, with the [access_token] of that answer.  Every other
    response, each redirect to an error page, sets no cookie. *)
Theorem callback_sets_cookies_only_with_a_token
    (p : Callback.Platform) (env : Callback.Env)
    (fetch : Callback.TokenRequest -> Callback.FetchResult)
    (request : Callback.Request) (r : Callback.Response)
    (sent : list Callback.TokenRequest) :
  Callback.GET p env fetch request = (Some r, sent) ->
  Callback.cookies r <> [] ->
  exists baseUrl tokenRequest tokenData,
    sent = [tokenRequest]
    /\ fetch tokenRequest = Callback.Ok (Some tokenData)
    /\ truthy_opt truthy_str (Callback.td_error tokenData) = false
    /\ Callback.baseUrlOf p env request = Some baseUrl
    /\ Callback.resolve p "/chat" baseUrl = Some (Callback.location r)
    /\ Callback.cookies r = Callback.sessionCookies p env request tokenData
    /\ In {| Callback.name := Callback.GITHUB_TOKEN_COOKIE p;
             Callback.value := Callback.access_token tokenData;
             Callback.options := Callback.tokenCookieOptions env |}
         (Callback.cookies r)
    /\ Callback.httpOnly (Callback.tokenCookieOptions env) = Some true.
Proof.
  intros HGET Hcookies.
  assert (fst (Callback.GET p env fetch request) = Some r) as Hfst
    by (rewrite HGET; reflexivity).
  assert (snd (Callback.GET p env fetch request) = sent) as Hsnd
    by (rewrite HGET; reflexivity).
  rewrite GET_sent in Hsnd.
  destruct (GET_response p env fetch request r Hfst)
    as [Htry|(_ & baseUrl & _ & _ & Hnone)]; [|contradiction].
  destruct sent as [|tokenRequest rest].
  { destruct (attempt_quiet p env fetch request r Hsnd Htry)
      as (path & baseUrl & _ & _ & Hnone). contradiction. }
  destruct (attempt_sent p env fetch request tokenRequest)
    as (baseUrl & Hbase & Hrun & _).
  { rewrite Hsnd. left. reflexivity. }
  rewrite Hrun in Htry, Hsnd. simpl in Htry, Hsnd.
  inversion Hsnd; subst rest.
  destruct (afterExchange_response p env request baseUrl _ r Htry)
    as [(path & _ & Hnone)|(tokenData & Hanswer & Herror & Hchat & Hset)];
    [contradiction|].
  exists baseUrl, tokenRequest, tokenData.
  repeat (split; [assumption || reflexivity|]).
  split; [|reflexivity].
  rewrite Hset. unfold Callback.sessionCookies.
  right. left. reflexivity.
Qed.

(** The code [good] on the example deployment: the token cookie holds the
    token of GitHub. *)
Lemma callback_sets_cookies_only_with_a_token_witness :
  exists r,
    fst (Callback.GET Callback.platform Callback.production Callback.github
           (Callback.callback "good" (Some "s") (Some "s"))) = Some r
    /\ Callback.location r = "https://swe.example/chat"
    /\ In {| Callback.name := "github_token";
             Callback.value := Some "gho_1";
             Callback.options :=
               Callback.tokenCookieOptions Callback.production |}
         (Callback.cookies r).
Proof.
  eexists. split; [reflexivity|]. split; [reflexivity|].
  destruct (callback_sets_cookies_only_with_a_token Callback.platform
              Callback.production Callback.github
              (Callback.callback "good" (Some "s") (Some "s")) _ _ eq_refl)
    as (baseUrl & tokenRequest & tokenData & Hsent & Hanswer & _ & _ & _ & _
        & Hin & _).
  { discriminate. }
  inversion Hsent; subst tokenRequest.
  inversion Hanswer; subst tokenData. exact Hin.
Defined.

(** X26. The code is exchanged once, after every check.  The callback
    sends at most one token request.  It sends one only when the request
    has no [error] parameter, has a [code], the client id, the client
    secret and the redirect URI are configured, and the [state] parameter
    is the stored one whenever a state cookie is stored; the token request
    carries exactly that code and that configuration. *)
Theorem callback_exchanges_the_code_once_after_its_checks
    (p : Callback.Platform) (env : Callback.Env)
    (fetch : Callback.TokenRequest -> Callback.FetchResult)
    (request : Callback.Request) (tokenRequest : Callback.TokenRequest) :
  In tokenRequest (snd (Callback.GET p env fetch request)) ->
  snd (Callback.GET p env fetch request) = [tokenRequest]
  /\ truthy_opt truthy_str (Callback.error request) = false
  /\ (Callback.code request = Some (Callback.tr_code tokenRequest)
      /\ Callback.tr_code tokenRequest <> "")
  /\ (Callback.NEXT_PUBLIC_GITHUB_APP_CLIENT_ID env
      = Some (Callback.client_id tokenRequest)
      /\ Callback.client_id tokenRequest <> "")
  /\ (Callback.GITHUB_APP_CLIENT_SECRET env
      = Some (Callback.client_secret tokenRequest)
      /\ Callback.client_secret tokenRequest <> "")
  /\ (Callback.GITHUB_APP_REDIRECT_URI env
      = Some (Callback.redirect_uri tokenRequest)
      /\ Callback.redirect_uri tokenRequest <> "")
  /\ (forall stored,
        Callback.storedState request = Some stored ->
        stored <> "" ->
        Callback.state request = Some stored).
Proof.
  rewrite GET_sent. intros Hin.
  destruct (attempt_sent p env fetch request tokenRequest Hin)
    as (baseUrl & _ & Hrun & Herror & Hcode & Hstate & Hid & Hsecret & Huri
        & Hreq).
  assert (forall o : option string,
            truthy_opt truthy_str o = true ->
            o = Some (default "" o) /\ default "" o <> "") as Hsome.
  { intros [s|] H; [|discriminate H]. simpl. split; [reflexivity|].
    intros ->. discriminate H. }
  rewrite Hrun. subst tokenRequest. simpl.
  split; [reflexivity|]. split; [exact Herror|].
  split; [exact (Hsome _ Hcode)|]. split; [exact (Hsome _ Hid)|].
  split; [exact (Hsome _ Hsecret)|]. split; [exact (Hsome _ Huri)|].
  intros stored Hstored Hne. unfold Callback.stateMismatch in Hstate.
  rewrite Hstored in Hstate.
  assert (truthy_str stored = true) as Ht
    by (apply negb_true_iff, String.eqb_neq; exact Hne).
  rewrite Ht in Hstate. simpl in Hstate.
  destruct (Callback.state request) as [s|]; [|discriminate Hstate].
  apply negb_false_iff, String.eqb_eq in Hstate. subst. reflexivity.
Qed.

(** On the example deployment the code [good] is exchanged with the
    configured client; the stored state [s] was presented. *)
Lemma callback_exchanges_the_code_once_after_its_checks_witness :
  snd (Callback.GET Callback.platform Callback.production Callback.github
         (Callback.callback "good" (Some "s") (Some "s")))
  = [ {| Callback.client_id := "client"; Callback.client_secret := "secret";
         Callback.tr_code := "good";
         Callback.redirect_uri := "https://swe.example/api/auth/callback" |} ].
Proof.
  exact (proj1 (callback_exchanges_the_code_once_after_its_checks
                  Callback.platform Callback.production Callback.github
                  (Callback.callback "good" (Some "s") (Some "s"))
                  {| Callback.client_id := "client";
                     Callback.client_secret := "secret";
                     Callback.tr_code := "good";
                     Callback.redirect_uri :=
                       "https://swe.example/api/auth/callback" |}
                  (or_introl eq_refl))).
Defined.

(** X27. Without a state cookie the [state] parameter is not looked at.
    When the request carries no state cookie (or an empty one), the
    callback does the same, request for request and cookie for cookie,
    whatever the [state] parameter is. *)
Theorem callback_ignores_the_state_without_a_cookie
    (p : Callback.Platform) (env : Callback.Env)
    (fetch : Callback.TokenRequest -> Callback.FetchResult)
    (request : Callback.Request) (s : option string) :
  truthy_opt truthy_str (Callback.storedState request) = false ->
  Callback.GET p env fetch (Callback.withState s request)
  = Callback.GET p env fetch request.
Proof.
  intros Hstored.
  assert (Callback.stateMismatch (Callback.withState s request) = false
          /\ Callback.stateMismatch request = false) as [Hs Hr].
  { unfold Callback.stateMismatch. simpl.
    destruct (Callback.storedState request) as [stored|]; [|auto].
    simpl in Hstored. rewrite Hstored. auto. }
  unfold Callback.GET, Callback.attempt. rewrite Hs, Hr. reflexivity.
Qed.

(** No state cookie: a forged [state] exchanges the code all the same. *)
Lemma callback_ignores_the_state_without_a_cookie_witness :
  Callback.GET Callback.platform Callback.production Callback.github
    (Callback.callback "good" (Some "forged") None)
  = Callback.GET Callback.platform Callback.production Callback.github
      (Callback.callback "good" (Some "s") None)
  /\ snd (Callback.GET Callback.platform Callback.production Callback.github
            (Callback.callback "good" (Some "forged") None)) <> [].
Proof.
  split; [|discriminate].
  exact (callback_ignores_the_state_without_a_cookie Callback.platform
           Callback.production Callback.github
           (Callback.callback "good" (Some "s") None) (Some "forged")
           eq_refl).
Defined.

(** X28. Where the callback redirects.  Every response is a redirect to a
    path resolved against one base: the origin of the configured redirect
    URI when there is one, the origin of the request URL only when there is
    none.  The handler itself fails only when the error page of its
    [catch] block cannot be built: the base has no origin, or
    [/?error=callback_failed] does not resolve against it. *)
Theorem callback_redirects_to_the_configured_origin
    (p : Callback.Platform) (env : Callback.Env)
    (fetch : Callback.TokenRequest -> Callback.FetchResult)
    (request : Callback.Request) :
  (forall r,
     fst (Callback.GET p env fetch request) = Some r ->
     exists path baseUrl,
       Callback.resolve p path baseUrl = Some (Callback.location r)
       /\ (forall redirectUri,
             Callback.GITHUB_APP_REDIRECT_URI env = Some redirectUri ->
             redirectUri <> "" ->
             Callback.origin p redirectUri = Some baseUrl)
       /\ (truthy_opt truthy_str (Callback.GITHUB_APP_REDIRECT_URI env) = false ->
           Callback.origin p (Callback.url request) = Some baseUrl))
  /\ (fst (Callback.GET p env fetch request) = None ->
      match Callback.baseUrlOf p env request with
      | Some baseUrl =>
          Callback.resolve p "/?error=callback_failed" baseUrl = None
      | None => True
      end).
Proof.
  assert (forall baseUrl,
            Callback.baseUrlOf p env request = Some baseUrl ->
            (forall redirectUri,
               Callback.GITHUB_APP_REDIRECT_URI env = Some redirectUri ->
               redirectUri <> "" ->
               Callback.origin p redirectUri = Some baseUrl)
            /\ (truthy_opt truthy_str (Callback.GITHUB_APP_REDIRECT_URI env)
                = false ->
                Callback.origin p (Callback.url request) = Some baseUrl))
    as Hbase.
  { intros baseUrl. unfold Callback.baseUrlOf.
    destruct (Callback.GITHUB_APP_REDIRECT_URI env) as [uri|]; simpl.
    - destruct (truthy_str uri) eqn:Ht; intros H; split.
      + intros redirectUri Heq _. inversion Heq; subst. exact H.
      + intros Hf. discriminate Hf.
      + intros redirectUri Heq Hne. inversion Heq; subst.
        apply negb_false_iff, String.eqb_eq in Ht. contradiction.
      + intros _. exact H.
    - intros H. split; [intros redirectUri Heq; discriminate Heq|].
      intros _. exact H. }
  split.
  - intros r Hr.
    destruct (GET_response p env fetch request r Hr)
      as [Htry|(_ & baseUrl & Hb & Hresolve & _)].
    + destruct (snd (Callback.attempt p env fetch request))
        as [|tokenRequest rest] eqn:Hsent.
      * destruct (attempt_quiet p env fetch request r Hsent Htry)
          as (path & baseUrl & Hb & Hresolve & _).
        exists path, baseUrl. split; [exact Hresolve | exact (Hbase _ Hb)].
      * destruct (attempt_sent p env fetch request tokenRequest)
          as (baseUrl & Hb & Hrun & _).
        { rewrite Hsent. left. reflexivity. }
        rewrite Hrun in Htry. simpl in Htry.
        destruct (afterExchange_response p env request baseUrl _ r Htry)
          as [(path & Hresolve & _)|(tokenData & _ & _ & Hresolve & _)].
        -- exists path, baseUrl.
           split; [exact Hresolve | exact (Hbase _ Hb)].
        -- exists "/chat", baseUrl.
           split; [exact Hresolve | exact (Hbase _ Hb)].
    + exists "/?error=callback_failed", baseUrl.
      split; [exact Hresolve | exact (Hbase _ Hb)].
  - unfold Callback.GET.
    destruct (Callback.attempt p env fetch request) as [[r|] sent]; simpl;
      [discriminate|].
    destruct (Callback.baseUrlOf p env request) as [baseUrl|]; [|auto].
    unfold Callback.redirect.
    destruct (Callback.resolve p "/?error=callback_failed" baseUrl);
      [discriminate | reflexivity].
Qed.

(** GitHub refuses the code [bad]: the error page is on the configured
    origin. *)
Lemma callback_redirects_to_the_configured_origin_witness :
  exists r,
    fst (Callback.GET Callback.platform Callback.production Callback.github
           (Callback.callback "bad" None None)) = Some r
    /\ Callback.location r
       = "https://swe.example/?error=bad_verification_code"
    /\ exists path baseUrl,
         Callback.resolve Callback.platform path baseUrl
         = Some (Callback.location r)
         /\ Callback.origin Callback.platform
              "https://swe.example/api/auth/callback" = Some baseUrl.
Proof.
  eexists. split; [reflexivity|]. split; [reflexivity|].
  destruct (proj1 (callback_redirects_to_the_configured_origin
                     Callback.platform Callback.production Callback.github
                     (Callback.callback "bad" None None)) _ eq_refl)
    as (path & baseUrl & Hresolve & Hconfigured & _).
  exists path, baseUrl. split; [exact Hresolve|].
  apply Hconfigured; [reflexivity | discriminate].
Defined.

(** X29. What the planner is started with.  Every run [startPlanner]
    creates is a run of the planner graph whose input carries the issue,
    the repository, the plan and the auto-accept flag of the state, and the
    branch of the state or, without one, the branch of the configuration.
    The input has a [messages] list exactly when there is a recent user
    request or the mode is local; the list then holds that request alone,
    which in local mode may be undefined.  In local mode the run is marked
    local twice, by the single header of its client and in its
    configurable fields. *)
Theorem planner_run_carries_the_latest_request
    (lib : Lib) (w : World) (state : ManagerGraphState) (config : GraphConfig)
    (c : Clock) (h : gmap string string) (t g : string) (p : RunPayload) :
  In (EvRunsCreate h t g p) (trace (startPlanner lib w state config c)) ->
  g = PLANNER_GRAPH_ID lib
  /\ (exists input,
        rp_input p = PlannerInput input
        /\ p_githubIssueId input = githubIssueId state
        /\ p_targetRepository input = targetRepository state
        /\ p_taskPlan input = taskPlan state
        /\ p_autoAcceptPlan input = autoAcceptPlan state
        /\ p_branchName input
           = default (getBranchName lib config) (branchName state)
        /\ p_messages input
           = match getRecentUserRequest lib (messages state) config with
             | Some followupMessage => Some [Some followupMessage]
             | None => if isLocalMode lib config then Some [None] else None
             end)
  /\ (isLocalMode lib config = true ->
      h = {[ LOCAL_MODE_HEADER lib := "true" ]}
      /\ exists fields,
           rp_configurable p = Some fields
           /\ fields !! LOCAL_MODE_HEADER lib = Some "true").
Proof.
  intros Hin.
  assert (In (EvRunsCreate h t g p)
            (List.filter isRunsCreate
               (trace (startPlanner lib w state config c)))) as Hf
    by (apply List.filter_In; split; [exact Hin | reflexivity]).
  clear Hin. revert Hf.
  pose proof (startPlanner_run lib w state config c) as Hrun.
  cbv zeta in Hrun. rewrite Hrun. clear Hrun.
  set (c0 := match plannerSession state with
             | Some _ => c
             | None => {| calls := calls c; uuids := Datatypes.S (uuids c) |}
             end).
  pose proof (emits_filter isRunsCreate (headersForRun lib w config) c0
                (headersForRun_no_run lib w config _ (fun _ => eq_refl)))
    as Hq.
  destruct (outcome (headersForRun lib w config c0)) as [headers|e] eqn:Hh;
    unfold trace at 1; simpl; [|rewrite Hq; intros []].
  rewrite List.filter_app, Hq. simpl. intros [Hev|[]].
  inversion Hev; subst; clear Hev.
  split; [reflexivity|]. split.
  - eexists. split; [reflexivity|]. simpl.
    repeat (split; [reflexivity|]).
    destruct (getRecentUserRequest lib (messages state) config); simpl;
      [reflexivity|].
    destruct (isLocalMode lib config); reflexivity.
  - intros Hlocal. split.
    + rewrite (headersForRun_skips lib w config c0 (or_introl Hlocal)) in Hh.
      rewrite Hlocal in Hh. unfold outcome in Hh. simpl in Hh.
      inversion Hh. reflexivity.
    + simpl. rewrite Hlocal. eexists. split; [reflexivity|].
      apply lookup_insert_eq.
Qed.

(** Local mode and a history without any human message: the planner is
    started with a list that holds no request. *)
Lemma planner_run_carries_the_latest_request_witness :
  exists p input,
    In (EvRunsCreate {[ "x-local-mode" := "true" ]} "uuid-0" "planner" p)
      (trace (startPlanner Example.lib (Example.world idle "no_op")
                Example.unanswered Scenario.localConfig start))
    /\ rp_input p = PlannerInput input
    /\ p_messages input = Some [None].
Proof.
  assert (In (EvRunsCreate {[ "x-local-mode" := "true" ]} "uuid-0" "planner"
                (plannerRunConfig Example.lib Example.unanswered
                   Scenario.localConfig))
            (trace (startPlanner Example.lib (Example.world idle "no_op")
                      Example.unanswered Scenario.localConfig start))) as Hin
    by (left; reflexivity).
  destruct (planner_run_carries_the_latest_request _ _ _ _ _ _ _ _ _ Hin)
    as (_ & (input & Hinput & _ & _ & _ & _ & _ & Hmessages) & _).
  exists (plannerRunConfig Example.lib Example.unanswered
            Scenario.localConfig), input.
  split; [exact Hin|]. split; [exact Hinput | exact Hmessages].
Defined.
